(** * Financial dashboard backend: provider resolution, cooldown, cache and
      indicator arithmetic

    A shallow embedding of the service layer under [Backend/services], of
    the Angel One and currency handlers of [main_combined.py], and of the
    pandas expressions they evaluate.

    - Python [str] is [string]; the methods used by the services
      ([endswith], [lower], [upper], [in], [replace]) are in [PyStr].
      [float] and [int] on text are parameters ([text_conversions]).
    - Python [dict] is a [gmap string _].
    - Network collaborators (yfinance, the Alpha Vantage client, the Angel One
      REST endpoints, the exchange-rate endpoint) are oracles passed as
      arguments; every call made to one is appended to a call log or
      counted, which is what a test double would observe.
    - [datetime] values are integers counting microseconds.
    - pandas [float64] cells are [fval]: an exact rational, one of the two
      infinities, or NaN.  Rounding is not modelled; the special values
      follow IEEE 754 the way numpy evaluates them (no exception on a zero
      divisor). *)

From Stdlib Require Import ZArith QArith Qabs Lia Lqa Bool.
From Stdlib Require Import Ascii.
From Stdlib Require String.
From stdpp Require Import base option list strings gmap fin_maps.

Local Open Scope Z_scope.

(* ===================================================================== *)
(** ** Python string methods *)
(* ===================================================================== *)

Module PyStr.

(** [s.startswith(p)] *)
Fixpoint startswith (s p : string) : bool :=
  match p, s with
  | EmptyString, _ => true
  | String _ _, EmptyString => false
  | String a p', String b s' => if Ascii.eqb a b then startswith s' p' else false
  end.

Fixpoint drop (n : nat) (s : string) : string :=
  match n, s with
  | O, _ => s
  | S _, EmptyString => EmptyString
  | S k, String _ s' => drop k s'
  end.

Fixpoint take (n : nat) (s : string) : string :=
  match n, s with
  | O, _ => EmptyString
  | S _, EmptyString => EmptyString
  | S k, String c s' => String c (take k s')
  end.

(** [s.endswith(suffix)] *)
Definition endswith (s suffix : string) : bool :=
  let n := String.length s in
  let m := String.length suffix in
  (m <=? n)%nat && String.eqb (drop (n - m) s) suffix.

(** [needle in s] *)
Fixpoint contains (needle s : string) : bool :=
  startswith s needle ||
  match s with
  | EmptyString => false
  | String _ s' => contains needle s'
  end.

Definition lower_ascii (c : ascii) : ascii :=
  let n := nat_of_ascii c in
  if (65 <=? n)%nat && (n <=? 90)%nat then ascii_of_nat (n + 32) else c.

(** [s.lower()], on ASCII text. *)
Fixpoint lower (s : string) : string :=
  match s with
  | EmptyString => EmptyString
  | String c s' => String (lower_ascii c) (lower s')
  end.

(** [s.replace(old, new)] for a non-empty [old]: occurrences are found
    scanning left to right and do not overlap.  [skip] counts the
    characters of the current occurrence that are still to be dropped. *)
Fixpoint replace_from (old new : string) (skip : nat) (s : string) : string :=
  match s with
  | EmptyString => EmptyString
  | String c s' =>
      match skip with
      | S k => replace_from old new k s'
      | O =>
          if startswith s old
          then new +:+ replace_from old new (String.length old - 1) s'
          else String c (replace_from old new 0 s')
      end
  end.

Definition replace (s old new : string) : string := replace_from old new 0 s.

(** Truthiness of a string: [bool(s)]. *)
Definition truthy (s : string) : bool :=
  match s with EmptyString => false | _ => true end.

(** Whether [s] is ASCII text. *)
Fixpoint is_ascii (s : string) : bool :=
  match s with
  | EmptyString => true
  | String c s' => (nat_of_ascii c <? 128)%nat && is_ascii s'
  end.

Definition upper_ascii (c : ascii) : ascii :=
  let n := nat_of_ascii c in
  if (97 <=? n)%nat && (n <=? 122)%nat then ascii_of_nat (n - 32) else c.

(** [s.upper()] on ASCII text, where it turns the letters a to z into
    capitals and nothing else.  Python also maps letters outside ASCII
    (some of them to ASCII capitals): what is said of the result of
    [upper] below is said of arguments that satisfy [is_ascii]. *)
Fixpoint upper (s : string) : string :=
  match s with
  | EmptyString => EmptyString
  | String c s' => String (upper_ascii c) (upper s')
  end.

End PyStr.

(* ===================================================================== *)
(** ** services/symbol_mapping.py *)
(* ===================================================================== *)

Module SymbolMapping.

Definition indian_to_us_mapping : gmap string string :=
  list_to_map
    [ ("RELIANCE.NS", "RELIANCE.BSE");
      ("TCS.NS", "TCS.BSE");
      ("HDFCBANK.NS", "HDB");
      ("INFY.NS", "INFY");
      ("HINDUNILVR.NS", "HINDUNILEVR.BSE");
      ("ITC.NS", "ITC.BSE");
      ("SBIN.NS", "SBIN.BSE");
      ("BHARTIARTL.NS", "BHRT.BSE");
      ("KOTAKBANK.NS", "KOTAKBANK.BSE");
      ("LT.NS", "LTT.BSE");
      ("WIPRO.NS", "WIT");
      ("ASIANPAINT.NS", "ASIANPAINT.BSE");
      ("MARUTI.NS", "MARUTI.BSE");
      ("NESTLEIND.NS", "NESTLEIND.BSE");
      ("TITAN.NS", "TITAN.BSE");
      ("ULTRACEMCO.NS", "ULTRACEMCO.BSE");
      ("BAJFINANCE.NS", "BAJFINANCE.BSE");
      ("BAJAJFINSV.NS", "BAJAJFINSV.BSE");
      ("HCLTECH.NS", "HCLTECH.BSE");
      ("TECHM.NS", "TECHM.BSE") ].

Definition get_us_symbol (indian_symbol : string) : option string :=
  indian_to_us_mapping !! indian_symbol.

Definition is_indian_symbol (symbol : string) : bool :=
  PyStr.endswith symbol ".NS" || PyStr.endswith symbol ".BSE".

(** [symbol.replace('.NS', '').replace('.BSE', '')] *)
Definition base_symbol (symbol : string) : string :=
  PyStr.replace (PyStr.replace symbol ".NS" "") ".BSE" "".

Definition convert_for_alpha_vantage (symbol : string) : string :=
  if is_indian_symbol symbol then
    match get_us_symbol symbol with
    | Some us_symbol =>
        if PyStr.truthy us_symbol then us_symbol else base_symbol symbol
    | None => base_symbol symbol
    end
  else symbol.

Definition get_alpha_vantage_fallback_symbols (indian_symbol : string)
  : list string :=
  let fallbacks :=
    match get_us_symbol indian_symbol with
    | Some us_symbol => if PyStr.truthy us_symbol then [us_symbol] else []
    | None => []
    end in
  let base := base_symbol indian_symbol in
  fallbacks ++ [base; base +:+ ".BSE"; base +:+ ".NS"].

(** The entries of [indian_to_us_mapping] in the order they are written. *)
Definition indian_to_us_items : list (string * string) :=
  [ ("RELIANCE.NS", "RELIANCE.BSE");
    ("TCS.NS", "TCS.BSE");
    ("HDFCBANK.NS", "HDB");
    ("INFY.NS", "INFY");
    ("HINDUNILVR.NS", "HINDUNILEVR.BSE");
    ("ITC.NS", "ITC.BSE");
    ("SBIN.NS", "SBIN.BSE");
    ("BHARTIARTL.NS", "BHRT.BSE");
    ("KOTAKBANK.NS", "KOTAKBANK.BSE");
    ("LT.NS", "LTT.BSE");
    ("WIPRO.NS", "WIT");
    ("ASIANPAINT.NS", "ASIANPAINT.BSE");
    ("MARUTI.NS", "MARUTI.BSE");
    ("NESTLEIND.NS", "NESTLEIND.BSE");
    ("TITAN.NS", "TITAN.BSE");
    ("ULTRACEMCO.NS", "ULTRACEMCO.BSE");
    ("BAJFINANCE.NS", "BAJFINANCE.BSE");
    ("BAJAJFINSV.NS", "BAJAJFINSV.BSE");
    ("HCLTECH.NS", "HCLTECH.BSE");
    ("TECHM.NS", "TECHM.BSE") ].

(** [{v: k for k, v in self.indian_to_us_mapping.items()}]: a later entry
    with the same value replaces an earlier one. *)
Definition us_to_indian_mapping : gmap string string :=
  foldl (λ m kv, <[kv.2 := kv.1]> m) ∅ indian_to_us_items.

Definition get_indian_symbol (us_symbol : string) : option string :=
  us_to_indian_mapping !! us_symbol.

(** [list(self.indian_to_us_mapping.keys())] *)
Definition get_all_indian_symbols : list string := indian_to_us_items.*1.

(** [l[:limit]]: a negative [limit] counts from the end. *)
Definition slice_to {A} (limit : Z) (l : list A) : list A :=
  if limit <? 0
  then take (Z.to_nat (Z.of_nat (length l) + limit)) l
  else take (Z.to_nat limit) l.

Definition popular : list string :=
  [ "RELIANCE.NS"; "TCS.NS"; "HDFCBANK.NS"; "INFY.NS"; "HINDUNILVR.NS";
    "ITC.NS"; "SBIN.NS"; "BHARTIARTL.NS"; "KOTAKBANK.NS"; "LT.NS";
    "WIPRO.NS"; "ASIANPAINT.NS"; "MARUTI.NS"; "NESTLEIND.NS"; "TITAN.NS";
    "ULTRACEMCO.NS"; "BAJFINANCE.NS"; "BAJAJFINSV.NS"; "HCLTECH.NS";
    "TECHM.NS" ].

Definition get_popular_indian_symbols (limit : Z) : list string :=
  slice_to limit popular.

End SymbolMapping.

(* ===================================================================== *)
(** ** float64 cells and Python values *)
(* ===================================================================== *)

Module Num.

Local Open Scope Q_scope.

(** A float64 cell without rounding: a rational, an infinity or NaN.
    The two zeros are identified (a zero divisor counts as [+0]). *)
Inductive fval : Type :=
| Fin (q : Q)
| PInf
| NInf
| NaN.

Definition Qlt_bool (a b : Q) : bool := negb (Qle_bool b a).
Definition Qis_zero (a : Q) : bool := Qeq_bool a 0.

Definition is_finite (x : fval) : bool :=
  match x with Fin _ => true | _ => false end.

Definition is_nan (x : fval) : bool :=
  match x with NaN => true | _ => false end.

Definition fneg (x : fval) : fval :=
  match x with
  | Fin q => Fin (- q)
  | PInf => NInf
  | NInf => PInf
  | NaN => NaN
  end.

Definition fadd (x y : fval) : fval :=
  match x, y with
  | NaN, _ | _, NaN => NaN
  | Fin a, Fin b => Fin (a + b)
  | PInf, NInf | NInf, PInf => NaN
  | PInf, _ | _, PInf => PInf
  | NInf, _ | _, NInf => NInf
  end.

Definition fsub (x y : fval) : fval := fadd x (fneg y).

(** The infinity carrying the sign of [q]; NaN for zero. *)
Definition inf_signed (positive : bool) (q : Q) : fval :=
  if Qis_zero q then NaN
  else if Qlt_bool 0 q then (if positive then PInf else NInf)
  else (if positive then NInf else PInf).

Definition fmul (x y : fval) : fval :=
  match x, y with
  | NaN, _ | _, NaN => NaN
  | Fin a, Fin b => Fin (a * b)
  | Fin a, PInf | PInf, Fin a => inf_signed true a
  | Fin a, NInf | NInf, Fin a => inf_signed false a
  | PInf, PInf | NInf, NInf => PInf
  | PInf, NInf | NInf, PInf => NInf
  end.

(** numpy division: a zero divisor gives an infinity (or NaN for 0/0)
    and never raises. *)
Definition fdiv (x y : fval) : fval :=
  match x, y with
  | NaN, _ | _, NaN => NaN
  | Fin a, Fin b =>
      if Qis_zero b then
        (if Qis_zero a then NaN else if Qlt_bool 0 a then PInf else NInf)
      else Fin (a / b)
  | Fin _, PInf | Fin _, NInf => Fin 0
  | PInf, Fin b => if Qlt_bool b 0 then NInf else PInf
  | NInf, Fin b => if Qlt_bool b 0 then PInf else NInf
  | PInf, PInf | PInf, NInf | NInf, PInf | NInf, NInf => NaN
  end.

(** [x > y]; false as soon as one side is NaN. *)
Definition fgt (x y : fval) : bool :=
  match x, y with
  | NaN, _ | _, NaN => false
  | Fin a, Fin b => Qlt_bool b a
  | PInf, PInf => false
  | PInf, _ => true
  | _, PInf => false
  | NInf, _ => false
  | Fin _, NInf => true
  end.

Definition flt (x y : fval) : bool := fgt y x.

(** [x != 0]; true for NaN and the infinities. *)
Definition fne0 (x : fval) : bool :=
  match x with
  | Fin q => negb (Qis_zero q)
  | _ => true
  end.

(** Equality of cells up to the representation of the rational. *)
Definition feq (x y : fval) : Prop :=
  match x, y with
  | Fin a, Fin b => a == b
  | PInf, PInf | NInf, NInf | NaN, NaN => True
  | _, _ => False
  end.

Definition Qsum (l : list Q) : Q := foldr Qplus 0 l.

Definition Qmean (l : list Q) : Q := Qsum l / inject_Z (Z.of_nat (length l)).

End Num.

Export Num.

(** Python values found in the quote dictionaries and JSON bodies. *)
#[warnings="-register-all"]
Inductive pyval : Type :=
| PNone
| PBool (b : bool)
| PInt (z : Z)
| PFloat (x : fval)
| PStr (s : string)
| PTime (t : Z)                       (* [datetime.now().isoformat()] *)
| PList (l : list pyval)
| PDict (d : gmap string pyval).

Abbreviation pydict := (gmap string pyval).

(** [bool(v)] *)
Definition py_truthy (v : pyval) : bool :=
  match v with
  | PNone => false
  | PBool b => b
  | PInt z => negb (z =? 0)%Z
  | PFloat x => fne0 x
  | PStr s => PyStr.truthy s
  | PTime _ => true
  | PList l => match l with [] => false | _ => true end
  | PDict d => negb (bool_decide (d = ∅))
  end.

(** The float64 a Python number turns into in arithmetic with a numpy
    scalar ([True] counts as 1 and [False] as 0); [None] stands for
    [TypeError]. *)
Definition as_number (v : pyval) : option fval :=
  match v with
  | PBool b => Some (Fin (if b then 1 else 0)%Q)
  | PInt z => Some (Fin (inject_Z z))
  | PFloat x => Some x
  | _ => None
  end.

(** Python's [float(s)] and [int(s)] on text.  Their grammar (blanks,
    signs, exponents, underscores, digits of any script, 'inf', 'nan') is
    the interpreter's: the two conversions are parameters of the model,
    and [None] is their [ValueError]. *)
Record text_conversions : Type := TextConversions {
  float_of_text : string → option fval;
  int_of_text : string → option Z
}.

(** [float(v)]; [None] stands for the exception raised ([TypeError] on
    [None], a list or a dictionary, [ValueError] on text that is no
    number, such as a timestamp). *)
Definition py_float (py : text_conversions) (v : pyval) : option fval :=
  match v with
  | PBool b => Some (Fin (if b then 1 else 0)%Q)
  | PInt z => Some (Fin (inject_Z z))
  | PFloat x => Some x
  | PStr s => float_of_text py s
  | _ => None
  end.

(** [int(v)]: truncation toward zero for a float; [None] stands for an
    exception. *)
Definition py_int (py : text_conversions) (v : pyval) : option Z :=
  match v with
  | PBool b => Some (if b then 1 else 0)%Z
  | PInt z => Some z
  | PFloat (Fin q) => Some (Z.quot (Qnum q) (Z.pos (Qden q)))
  | PStr s => int_of_text py s
  | _ => None
  end.

(** [x / y] on Python floats: [None] stands for [ZeroDivisionError]. *)
Definition py_div (x y : fval) : option fval :=
  if fne0 y then Some (fdiv x y) else None.

(** [d.get(key, default)] *)
Definition dict_get (d : pydict) (key : string) (default : pyval) : pyval :=
  match d !! key with
  | Some v => v
  | None => default
  end.

(** [v.get(key, default)] on a value that may not be a dictionary;
    [None] stands for [AttributeError]. *)
Definition py_get (v : pyval) (key : string) (default : pyval) : option pyval :=
  match v with
  | PDict d => Some (dict_get d key default)
  | _ => None
  end.

(** [timedelta(hours=h)] in microseconds. *)
Definition hours (h : Z) : Z := h * 3600 * 1000000.
Definition minutes (m : Z) : Z := m * 60 * 1000000.

(** [None] or a string, as a Python value. *)
Definition py_optional_str (o : option string) : pyval :=
  match o with
  | Some s => PStr s
  | None => PNone
  end.

Module SymbolMappingService.

(** The dictionary returned by [get_symbol_info]. *)
Definition get_symbol_info (symbol : string) : pydict :=
  let info : pydict :=
    <["original_symbol" := PStr symbol]>
    (<["is_indian" := PBool (SymbolMapping.is_indian_symbol symbol)]>
    (<["exchange" := PStr "Unknown"]>
    (<["us_equivalent" := PNone]>
    (<["indian_equivalent" := PNone]> ∅)))) in
  if SymbolMapping.is_indian_symbol symbol then
    <["us_equivalent" :=
        py_optional_str (SymbolMapping.get_us_symbol symbol)]>
    (<["exchange" :=
         PStr (if PyStr.endswith symbol ".NS" then "NSE" else "BSE")]> info)
  else
    <["exchange" := PStr "US"]>
    (<["indian_equivalent" :=
         py_optional_str (SymbolMapping.get_indian_symbol symbol)]> info).

End SymbolMappingService.

(* ===================================================================== *)
(** ** Mutable service objects: a state monad *)
(* ===================================================================== *)

(** A method of a service object reads and updates the attributes of
    [self] (the state [S]) and returns a value. *)
Definition St (S A : Type) : Type := S → A * S.

#[global] Instance St_ret {S} : MRet (St S) := λ A a s, (a, s).
#[global] Instance St_bind {S} : MBind (St S) :=
  λ A B k m s, let '(a, s') := m s in k a s'.

Definition run {S A} (m : St S A) (s : S) : A * S := m s.

(* ===================================================================== *)
(** ** Collaborators: yfinance and the Alpha Vantage client *)
(* ===================================================================== *)

(** One row of [ticker.history(...)]. *)
Record hist_row : Type := HistRow {
  Open : fval;
  High : fval;
  Low : fval;
  Close : fval;
  Volume : Z
}.

(** What [yf.Ticker(symbol)] answers.  [None] means the access raises. *)
Record yf_ticker : Type := YfTicker {
  info : option pydict;
  history : string → option (list hist_row)   (* by [period] *)
}.

(** What [ts.get_quote_endpoint(symbol=...)] does: it raises with a message,
    or yields [data] that is [None] or a frame with rows. *)
Inductive av_response : Type :=
| AvRaises (msg : string)
| AvNone
| AvFrame (rows : list pydict).

(** [data.empty] on the frame of a quote: no rows, or no columns.  A row
    is the dictionary of its cells by column label, and every row of a
    frame has the frame's columns: a frame without columns is one whose
    first row holds no cell. *)
Definition quote_frame_empty (rows : list pydict) : bool :=
  match rows with
  | [] => true
  | row :: _ => bool_decide (row = ∅)
  end.

(** Calls that reach a provider, in the order they are made. *)
Inductive call : Type :=
| YahooCall (symbol : string)
| AlphaVantageCall (symbol : string).

#[global] Instance call_eq_dec : EqDecision call.
Proof. solve_decision. Defined.

Definition is_yahoo_call (c : call) : bool :=
  match c with YahooCall _ => true | AlphaVantageCall _ => false end.

Definition is_alpha_vantage_call (c : call) : bool :=
  match c with AlphaVantageCall _ => true | YahooCall _ => false end.

(** The call logs one request of the hybrid resolver may leave: at most
    one call to each provider, Alpha Vantage before Yahoo Finance. *)
Definition within_budget (symbol : string) (log : list call) : Prop :=
  log = [] ∨ log = [YahooCall symbol] ∨ log = [AlphaVantageCall symbol]
  ∨ log = [AlphaVantageCall symbol; YahooCall symbol].

(** [hist.iloc[-1]] *)
Definition iloc_last {A} (l : list A) : option A := last l.

(** [not info]: an empty dictionary is falsy. *)
Definition dict_truthy (d : pydict) : bool := py_truthy (PDict d).

(** A pandas DataFrame of float cells: its column labels, the name of its
    index and its rows, each an index label with one cell per column. *)
Record frame : Type := Frame {
  columns : list string;
  index_name : option string;
  rows : list (Z * list fval)
}.

(** [df.empty]: no rows or no columns. *)
Definition frame_empty (df : frame) : bool :=
  match rows df, columns df with
  | [], _ | _, [] => true
  | _, _ => false
  end.

(** [df.columns = names]: [None] is the [ValueError] raised when the
    number of labels differs from the number of columns. *)
Definition set_columns (names : list string) (df : frame) : option frame :=
  if (length names =? length (columns df))%nat
  then Some (Frame names (index_name df) (rows df))
  else None.

(** [df.index.name = name] *)
Definition set_index_name (name : string) (df : frame) : frame :=
  Frame (columns df) (Some name) (rows df).

Definition ohlcv : list string := ["Open"; "High"; "Low"; "Close"; "Volume"].

(** What a time-series call of the Alpha Vantage client does. *)
Inductive av_frame_response : Type :=
| AvSeriesRaises (msg : string)
| AvSeriesNone
| AvSeries (data : frame).

(** The position of a column label. *)
Fixpoint column_index (label : string) (labels : list string) : option nat :=
  match labels with
  | [] => None
  | l :: rest =>
      if String.eqb l label then Some O
      else S <$> column_index label rest
  end.

(** [df[label]]: the cells of one column; [None] is [KeyError]. *)
Definition column (label : string) (df : frame) : option (list fval) :=
  i ← column_index label (columns df);
  Some ((λ row, default NaN (row.2 !! i)) <$> rows df).

(** [df[labels]]: the frame restricted to some columns, in the order
    asked; [None] is [KeyError]. *)
Definition select_columns (labels : list string) (df : frame) : option frame :=
  positions ← mapM (λ label, column_index label (columns df)) labels;
  Some (Frame labels (index_name df)
          ((λ row, (row.1, (λ i, default NaN (row.2 !! i)) <$> positions))
             <$> rows df)).

(** [pd.DataFrame({label: series, ...})] for series sharing an index. *)
Definition frame_of_series (index_name : option string) (index : list Z)
  (series : list (string * list fval)) : frame :=
  Frame series.*1 index_name
        (zip_with (λ label i, (label, (λ s, default NaN (s.2 !! i)) <$> series))
                  index (seq 0 (length index))).

(** A row without a NaN cell. *)
Definition no_nan_cell (row : Z * list fval) : Prop :=
  forallb (λ x, negb (is_nan x)) row.2 = true.

(** [df.dropna()]: rows without a NaN cell. *)
Definition dropna (df : frame) : frame :=
  Frame (columns df) (index_name df)
        (filter (λ row, forallb (λ x, negb (is_nan x)) row.2 = true) (rows df)).

(* ===================================================================== *)
(** ** services/alpha_vantage_hybrid.py *)
(* ===================================================================== *)

Module AlphaVantageHybrid.

(** The phrases [get_quote] looks for in the text of an exception. *)
Definition rate_limit_phrases : list string :=
  ["rate limit"; "api calls"; "25 requests"; "premium"].

Definition mentions_rate_limit (error_msg : string) : bool :=
  existsb (λ phrase, PyStr.contains phrase (PyStr.lower error_msg))
          rate_limit_phrases.

Definition _is_indian_symbol (symbol : string) : bool :=
  PyStr.endswith symbol ".NS" || PyStr.endswith symbol ".BSE".

(** [(change / previous_close) * 100 if previous_close != 0 else 0],
    together with the divisions that were evaluated, each as
    (dividend, divisor). *)
Definition change_percent_of (change previous_close : fval)
  : fval * list (fval * fval) :=
  if fne0 previous_close
  then (fmul (fdiv change previous_close) (Fin 100),
        [(change, previous_close)])
  else (Fin 0, []).

Section Providers.

Context (yf : string → yf_ticker).
Context (ts_get_quote_endpoint : string → av_response).
Context (now : Z).

(** The ['quote'] branch of [_get_yahoo_fallback], without the
    enclosing [try]: [None] is an exception, [Some None] is
    [return None].  The second component lists the divisions made. *)
Definition yahoo_quote_body (symbol : string)
  : option (option pydict) * list (fval * fval) :=
  let ticker := yf symbol in
  match info ticker, history ticker "1d" with
  | Some info, Some hist =>
      match iloc_last hist with
      | None => (Some None, [])                       (* hist.empty *)
      | Some row =>
          if negb (dict_truthy info) then (Some None, [])
          else
            let current_price := Close row in
            match as_number
                    (dict_get info "previousClose" (PFloat current_price))
            with
            | None => (None, [])                      (* TypeError *)
            | Some previous_close =>
                let change := fsub current_price previous_close in
                let '(change_percent, divs) :=
                  change_percent_of change previous_close in
                (Some (Some
                  (<["symbol" := PStr symbol]>
                  (<["price" := PFloat current_price]>
                  (<["change" := PFloat change]>
                  (<["change_percent" := PFloat change_percent]>
                  (<["volume" := PInt (Volume row)]>
                  (<["high" := PFloat (High row)]>
                  (<["low" := PFloat (Low row)]>
                  (<["open" := PFloat (Open row)]>
                  (<["previous_close" := PFloat previous_close]>
                  (<["market_cap" := dict_get info "marketCap" (PInt 0)]>
                  (<["currency" := dict_get info "currency" (PStr "INR")]>
                  (<["last_updated" := PTime now]>
                  (<["source" := PStr "Yahoo Finance (Hybrid Fallback)"]>
                   ∅)))))))))))))), divs)
            end
      end
  | _, _ => (None, [])
  end.

(** [_get_yahoo_fallback(symbol, 'quote')]: an exception becomes
    [None]. *)
Definition _get_yahoo_fallback (symbol : string) : St (list call) (option pydict) :=
  λ log,
    (match fst (yahoo_quote_body symbol) with
     | Some r => r
     | None => None
     end, log ++ [YahooCall symbol]).

(** The dictionary built from [data.iloc[0]]. *)
Definition alpha_vantage_quote (symbol : string) (row : pydict) : pydict :=
  <["source" := PStr "Alpha Vantage"]>
  (<["last_updated" := PTime now]>
  (<["symbol" := PStr symbol]> row)).

(** The [try] block of [get_quote]: [Some q] when it returns [q],
    [None] when control falls through to the fallback. *)
Definition try_alpha_vantage (symbol : string) : St (list call) (option pydict) :=
  λ log,
    (match ts_get_quote_endpoint symbol with
     | AvFrame (row :: rest) =>
         if quote_frame_empty (row :: rest) then None     (* data.empty *)
         else Some (alpha_vantage_quote symbol row)
     | AvFrame [] | AvNone => None
     | AvRaises error_msg => None    (* logged, whatever the phrase *)
     end, log ++ [AlphaVantageCall symbol]).

Definition get_quote (enabled : bool) (symbol : string)
  : St (list call) (option pydict) :=
  if _is_indian_symbol symbol then _get_yahoo_fallback symbol
  else
    primary ← (if enabled then try_alpha_vantage symbol else mret None);
    match primary with
    | Some quote_data => mret (Some quote_data)
    | None => _get_yahoo_fallback symbol
    end.

End Providers.

End AlphaVantageHybrid.

(* ===================================================================== *)
(** ** services/alpha_vantage_service.py *)
(* ===================================================================== *)

Module AlphaVantageService.

(** Attributes of the global [alpha_vantage_service] object that
    [get_stock_quote] reads or writes.  [rate_limited] and
    [rate_limit_reset_time] are not set by [__init__]: [None] is an
    attribute that does not exist yet (or holds [None]). *)
Record state : Type := State {
  enabled : bool;
  rate_limited : option bool;
  rate_limit_reset_time : option Z;
  calls : list call
}.

Definition log_call (c : call) : St state () :=
  λ st, (tt, State (enabled st) (rate_limited st)
                   (rate_limit_reset_time st) (calls st ++ [c])).

Definition _get_fallback_symbols (symbol : string) : list string :=
  if SymbolMapping.is_indian_symbol symbol
  then SymbolMapping.get_alpha_vantage_fallback_symbols symbol
  else [symbol].

(** ["rate limit" in error_msg.lower() or "25 requests per day" in error_msg] *)
Definition is_rate_limit_error (error_msg : string) : bool :=
  PyStr.contains "rate limit" (PyStr.lower error_msg)
  || PyStr.contains "25 requests per day" error_msg.

(** A response after which the loop moves on to the next candidate. *)
Definition moves_on (r : av_response) : bool :=
  match r with
  | AvFrame rows => quote_frame_empty rows
  | AvNone => true
  | AvRaises error_msg => negb (is_rate_limit_error error_msg)
  end.

(** The state with more calls logged. *)
Definition add_calls (st : state) (cs : list call) : state :=
  State (enabled st) (rate_limited st) (rate_limit_reset_time st)
        (calls st ++ cs).

Section Providers.

Context (yf : string → yf_ticker).
Context (ts_get_quote_endpoint : string → av_response).

Definition _is_rate_limited (now : Z) : St state bool :=
  λ st,
    match rate_limited st with
    | None | Some false => (false, st)
    | Some true =>
        match rate_limit_reset_time st with
        | Some reset_time =>
            if reset_time <? now
            then (false, State (enabled st) (Some false) None (calls st))
            else (true, st)
        | None => (true, st)
        end
    end.

Definition _mark_rate_limited (now : Z) : St state () :=
  λ st, (tt, State (enabled st) (Some true) (Some (now + hours 24))
                   (calls st)).

(** Body of [_get_fallback_quote] inside its [try]: [None] is an
    exception, [Some None] is [return None]. *)
Definition fallback_quote_body (now : Z) (symbol : string)
  : option (option pydict) :=
  let ticker := yf symbol in
  match info ticker with
  | None => None
  | Some info =>
      if negb (dict_truthy info) then Some None
      else
        match history ticker "1d" with
        | None => None
        | Some hist =>
            match iloc_last hist with
            | None => Some None                       (* hist.empty *)
            | Some row =>
                let current_price := Close row in
                match as_number
                        (dict_get info "previousClose" (PFloat current_price))
                with
                | None => None                        (* TypeError *)
                | Some previous_close =>
                    let change := fsub current_price previous_close in
                    Some (Some
                      (<["symbol" := PStr symbol]>
                      (<["price" := PFloat current_price]>
                      (<["open" := PFloat (Open row)]>
                      (<["high" := PFloat (High row)]>
                      (<["low" := PFloat (Low row)]>
                      (<["volume" := PInt (Volume row)]>
                      (<["previous_close" :=
                           dict_get info "previousClose" (PFloat current_price)]>
                      (<["change" := PFloat change]>
                      (<["change_percent" :=
                           PFloat (fmul (fdiv change previous_close) (Fin 100))]>
                      (<["market_cap" := dict_get info "marketCap" (PInt 0)]>
                      (<["currency" := dict_get info "currency" (PStr "INR")]>
                      (<["last_updated" := PTime now]>
                      (<["source" :=
                           PStr "Yahoo Finance (Alpha Vantage Fallback)"]>
                       ∅))))))))))))))
                end
            end
        end
  end.

(** What [_get_fallback_quote] hands back for a symbol. *)
Definition fallback_result (now : Z) (symbol : string) : option pydict :=
  match fallback_quote_body now symbol with
  | Some r => r
  | None => None
  end.

Definition _get_fallback_quote (now : Z) (symbol : string)
  : St state (option pydict) :=
  _ ← log_call (YahooCall symbol);
  mret (match fallback_quote_body now symbol with
        | Some r => r
        | None => None
        end).

Definition alpha_vantage_quote (now : Z) (symbol try_symbol : string)
  (row : pydict) : pydict :=
  <["source" := PStr "Alpha Vantage"]>
  (<["last_updated" := PTime now]>
  (<["alpha_vantage_symbol" := PStr try_symbol]>
  (<["symbol" := PStr symbol]> row))).

(** The [for try_symbol in symbols_to_try] loop and what follows it. *)
Fixpoint try_symbols (now : Z) (symbol : string)
  (symbols_to_try : list string) : St state (option pydict) :=
  match symbols_to_try with
  | [] => _get_fallback_quote now symbol
  | try_symbol :: rest =>
      _ ← log_call (AlphaVantageCall try_symbol);
      match ts_get_quote_endpoint try_symbol with
      | AvFrame (row :: more) =>
          if quote_frame_empty (row :: more)               (* data.empty *)
          then try_symbols now symbol rest
          else mret (Some (alpha_vantage_quote now symbol try_symbol row))
      | AvFrame [] | AvNone => try_symbols now symbol rest
      | AvRaises error_msg =>
          if is_rate_limit_error error_msg then
            _ ← _mark_rate_limited now;
            _get_fallback_quote now symbol
          else try_symbols now symbol rest
      end
  end.

Definition get_stock_quote (now : Z) (symbol : string)
  : St state (option pydict) :=
  λ st,
    if negb (enabled st) then (None, st)
    else
      (limited ← _is_rate_limited now;
       if (limited : bool) then _get_fallback_quote now symbol
       else try_symbols now symbol (_get_fallback_symbols symbol)) st.

(** The phrases [get_daily_data] and [get_intraday_data] look for in the
    lower-cased text of an exception. *)
Definition mentions_limit (error_msg : string) : bool :=
  existsb (λ phrase, PyStr.contains phrase (PyStr.lower error_msg))
          ["rate limit"; "api calls"; "25 requests"; "premium"].

Context (ts_get_daily : string → string → av_frame_response).
Context (ts_get_intraday : string → string → string → av_frame_response).

(** The loop of [get_daily_data] and the [return None] after it. *)
Fixpoint try_daily (now : Z) (outputsize : string)
  (symbols_to_try : list string) : St state (option frame) :=
  match symbols_to_try with
  | [] => mret None
  | try_symbol :: rest =>
      _ ← log_call (AlphaVantageCall try_symbol);
      match ts_get_daily try_symbol outputsize with
      | AvSeries data =>
          if frame_empty data then try_daily now outputsize rest
          else
            match set_columns ohlcv data with
            | Some data => mret (Some (set_index_name "Date" data))
            | None => try_daily now outputsize rest   (* ValueError *)
            end
      | AvSeriesNone => try_daily now outputsize rest
      | AvSeriesRaises error_msg =>
          if mentions_limit error_msg then
            _ ← _mark_rate_limited now;
            mret None
          else try_daily now outputsize rest
      end
  end.

Definition get_daily_data (now : Z) (symbol outputsize : string)
  : St state (option frame) :=
  λ st,
    if negb (enabled st) then (None, st)
    else try_daily now outputsize (_get_fallback_symbols symbol) st.

Definition get_intraday_data (now : Z) (symbol interval outputsize : string)
  : St state (option frame) :=
  λ st,
    if negb (enabled st) then (None, st)
    else
      (_ ← log_call (AlphaVantageCall symbol);
       match ts_get_intraday symbol interval outputsize with
       | AvSeries data =>
           if frame_empty data then mret None
           else
             match set_columns ohlcv data with
             | Some data => mret (Some (set_index_name "Datetime" data))
             | None => mret None                      (* ValueError *)
             end
       | AvSeriesNone => mret None
       | AvSeriesRaises error_msg =>
           if mentions_limit error_msg then
             _ ← _mark_rate_limited now;
             mret None
           else mret None
       end) st.

(** A daily answer after which the loop moves on to the next candidate. *)
Definition daily_moves_on (r : av_frame_response) : bool :=
  match r with
  | AvSeries data =>
      frame_empty data || negb (length ohlcv =? length (columns data))%nat
  | AvSeriesNone => true
  | AvSeriesRaises error_msg => negb (mentions_limit error_msg)
  end.

End Providers.

End AlphaVantageService.

(* ===================================================================== *)
(** ** pandas Series operations used by the indicator code *)
(* ===================================================================== *)

Module Pandas.

Local Open Scope Q_scope.

(** [s.diff()]: NaN first, then each cell minus the one before it. *)
Definition diff (s : list fval) : list fval :=
  match s with
  | [] => []
  | _ :: rest => NaN :: zip_with fsub rest s
  end.

(** [s.where(cond, other)]: keep a cell where [cond] holds, put [other]
    elsewhere. *)
Definition where_ (cond : fval → bool) (other : fval) (s : list fval)
  : list fval :=
  (λ x, if cond x then x else other) <$> s.

(** [-s] *)
Definition neg (s : list fval) : list fval := fneg <$> s.

(** [a / b], cell by cell. *)
Definition div (a b : list fval) : list fval := zip_with fdiv a b.

(** Cells of the window of width [n] that ends at position [i]. *)
Definition window (n i : nat) (s : list fval) : list fval :=
  drop (i + 1 - n) (take (i + 1) s).

(** Observations of a window: [rolling] turns infinities into NaN and
    skips NaN. *)
Definition observations (w : list fval) : list Q :=
  omap (λ x, match x with Fin q => Some q | _ => None end) w.

(** Mean of a window with [min_periods = n] (the default for a fixed
    window): NaN unless the window holds [n] observations. *)
Definition window_mean (n : nat) (w : list fval) : fval :=
  let obs := observations w in
  let nobs := length obs in
  if (n <=? nobs)%nat && (0 <? nobs)%nat
  then Fin (Qmean obs)
  else NaN.

(** [s.rolling(window=n).mean()] *)
Definition rolling_mean (n : nat) (s : list fval) : list fval :=
  (λ i, window_mean n (window n i s)) <$> seq 0 (length s).

(** [x != y] on cells. *)
Definition fne (x y : fval) : bool :=
  match x, y with
  | Fin a, Fin b => negb (Qeq_bool a b)
  | PInf, PInf | NInf, NInf => false
  | _, _ => true
  end.

(** One step of the [ewm] loop ([adjust=True], [ignore_na=False]):
    from [(weighted, old_wt)] and the current cell to the next pair. *)
Definition ewm_step (old_wt_factor : Q) (acc : fval * Q) (cur : fval)
  : fval * Q :=
  let '(weighted, old_wt) := acc in
  let is_observation := negb (is_nan cur) in
  if negb (is_nan weighted) then
    let old_wt := old_wt * old_wt_factor in
    if is_observation then
      let weighted :=
        if fne weighted cur
        then fdiv (fadd (fmul (Fin old_wt) weighted) (fmul (Fin 1) cur))
                  (Fin (old_wt + 1))
        else weighted in
      (weighted, old_wt + 1)
    else (weighted, old_wt)
  else if is_observation then (cur, old_wt)
  else (weighted, old_wt).

Fixpoint ewm_loop (old_wt_factor : Q) (acc : fval * Q) (vals : list fval)
  : list fval :=
  match vals with
  | [] => []
  | cur :: rest =>
      let acc' := ewm_step old_wt_factor acc cur in
      fst acc' :: ewm_loop old_wt_factor acc' rest
  end.

(** The smoothing factor for [span]: [com = (span - 1) / 2],
    [alpha = 1 / (1 + com)]. *)
Definition alpha_of_span (span : Z) : Q :=
  1 / (1 + (inject_Z span - 1) / 2).

(** [s.ewm(span=span).mean()]; [None] is the [ValueError] raised for
    [span < 1]. *)
Definition ewm_mean (span : Z) (s : list fval) : option (list fval) :=
  if (span <? 1)%Z then None
  else
    match s with
    | [] => Some []
    | x0 :: rest =>
        Some (x0 :: ewm_loop (1 - alpha_of_span span) (x0, 1) rest)
    end.

End Pandas.

(* ===================================================================== *)
(** ** services/hybrid_data_service.py *)
(* ===================================================================== *)

Module HybridDataService.

(** [_calculate_rsi(prices, period)]; [None] is the value returned by
    the bare [except]. *)
Definition _calculate_rsi (prices : list fval) (period : Z) : option fval :=
  if (period <? 0)%Z then None           (* rolling() rejects the window *)
  else
    let delta := Pandas.diff prices in
    let gain :=
      Pandas.rolling_mean (Z.to_nat period)
        (Pandas.where_ (λ d, fgt d (Fin 0)) (Fin 0) delta) in
    let loss :=
      Pandas.rolling_mean (Z.to_nat period)
        (Pandas.neg (Pandas.where_ (λ d, flt d (Fin 0)) (Fin 0) delta)) in
    let rs := Pandas.div gain loss in
    let rsi :=
      (λ r, fsub (Fin 100) (fdiv (Fin 100) (fadd (Fin 1) r))) <$> rs in
    iloc_last rsi.

(** [df['Close'].rolling(window=period).mean()] *)
Definition sma_series (period : nat) (close : list fval) : list fval :=
  Pandas.rolling_mean period close.

(** The [SMA_<period>] entry of [get_technical_indicators]; [None] is
    the entry written by the [except] clause of the loop.  The entry is
    computed after the guard [df is None or df.empty] has let the frame
    through: [close] is the Close column of a frame with rows, and the
    statements about [sma] are about series with prices. *)
Definition sma (period : Z) (close : list fval) : option fval :=
  if (period <? 0)%Z then None
  else iloc_last (sma_series (Z.to_nat period) close).

(** The [EMA_<period>] entry of [get_technical_indicators]. *)
Definition ema (period : Z) (close : list fval) : option fval :=
  Pandas.ewm_mean period close ≫= iloc_last.

(** [_calculate_macd(prices, fast, slow, signal)]; [None] is the value
    returned by the bare [except]. *)
Definition _calculate_macd (prices : list fval) (fast slow signal : Z)
  : option pydict :=
  ema_fast ← Pandas.ewm_mean fast prices;
  ema_slow ← Pandas.ewm_mean slow prices;
  let macd_line := zip_with fsub ema_fast ema_slow in
  signal_line ← Pandas.ewm_mean signal macd_line;
  let histogram := zip_with fsub macd_line signal_line in
  macd ← iloc_last macd_line;
  signal ← iloc_last signal_line;
  histogram ← iloc_last histogram;
  Some (<["macd" := PFloat macd]>
       (<["signal" := PFloat signal]>
       (<["histogram" := PFloat histogram]> ∅))).

Section Providers.

Context (yf : string → yf_ticker).
Context (ts_get_quote_endpoint : string → av_response).

(** Body of [_get_yahoo_quote] inside its [try]: [None] is an exception,
    [Some None] is [return None]. *)
Definition yahoo_quote_body (now : Z) (symbol : string)
  : option (option pydict) :=
  let ticker := yf symbol in
  match info ticker with
  | None => None
  | Some info =>
      if negb (dict_truthy info) then Some None
      else
        match history ticker "1d" with
        | None => None
        | Some hist =>
            match iloc_last hist with
            | None => Some None                       (* hist.empty *)
            | Some row =>
                let current_price := Close row in
                match as_number
                        (dict_get info "previousClose" (PFloat current_price))
                with
                | None => None                        (* TypeError *)
                | Some previous_close =>
                    let change := fsub current_price previous_close in
                    Some (Some
                      (<["symbol" := PStr symbol]>
                      (<["price" := PFloat current_price]>
                      (<["open" := PFloat (Open row)]>
                      (<["high" := PFloat (High row)]>
                      (<["low" := PFloat (Low row)]>
                      (<["volume" := PInt (Volume row)]>
                      (<["previous_close" :=
                           dict_get info "previousClose" (PFloat current_price)]>
                      (<["change" := PFloat change]>
                      (<["change_percent" :=
                           PFloat (fmul (fdiv change previous_close) (Fin 100))]>
                      (<["market_cap" := dict_get info "marketCap" (PInt 0)]>
                      (<["currency" := dict_get info "currency" (PStr "INR")]>
                      (<["last_updated" := PTime now]> ∅)))))))))))))
                end
            end
        end
  end.

(** The service shares the global [alpha_vantage_service] object; its
    Yahoo Finance calls are logged next to the Alpha Vantage ones. *)
Definition _get_yahoo_quote (now : Z) (symbol : string)
  : St AlphaVantageService.state (option pydict) :=
  _ ← AlphaVantageService.log_call (YahooCall symbol);
  mret (match yahoo_quote_body now symbol with
        | Some r => r
        | None => None
        end).

Definition _get_alpha_vantage_quote (now : Z) (symbol : string)
  : St AlphaVantageService.state (option pydict) :=
  AlphaVantageService.get_stock_quote yf ts_get_quote_endpoint now symbol.

(** [get_stock_quote]: Yahoo Finance first, Alpha Vantage to enrich the
    quote or to replace a missing one.  [alpha_vantage_enabled] is the
    attribute set by [__init__]. *)
Definition get_stock_quote (alpha_vantage_enabled : bool) (now : Z)
  (symbol : string) : St AlphaVantageService.state (option pydict) :=
  let only_alpha_vantage : St AlphaVantageService.state (option pydict) :=
    if alpha_vantage_enabled then _get_alpha_vantage_quote now symbol
    else mret None in
  let yahoo_only (yf_data : pydict) : pydict :=
    <["data_sources" := PList [PStr "Yahoo Finance"]]> yf_data in
  yf_data ← _get_yahoo_quote now symbol;
  match yf_data with
  | Some yf_data =>
      if dict_truthy yf_data then
        if alpha_vantage_enabled then
          av_data ← _get_alpha_vantage_quote now symbol;
          match av_data with
          | Some av_data =>
              if dict_truthy av_data then
                mret (Some
                  (<["data_sources" :=
                       PList [PStr "Yahoo Finance"; PStr "Alpha Vantage"]]>
                  (<["alpha_vantage_data" := PDict av_data]> yf_data)))
              else mret (Some (yahoo_only yf_data))
          | None => mret (Some (yahoo_only yf_data))
          end
        else mret (Some (yahoo_only yf_data))
      else only_alpha_vantage
  | None => only_alpha_vantage
  end.

Context (yf_history : string → string → option string → option frame).
Context (ts_get_daily : string → string → av_frame_response).

Definition yahoo_history_columns : list string :=
  ["Open"; "High"; "Low"; "Close"; "Volume"; "Dividends"; "Stock Splits"].

(** Body of [_get_yahoo_daily_data] inside its [try]. *)
Definition yahoo_daily_body (symbol period : string) : option frame :=
  df ← yf_history symbol period None;
  if frame_empty df then None
  else
    df ← set_columns yahoo_history_columns df;          (* ValueError *)
    df ← select_columns ohlcv df;
    Some (set_index_name "Date" df).

Definition _get_yahoo_daily_data (symbol period : string)
  : St AlphaVantageService.state (option frame) :=
  _ ← AlphaVantageService.log_call (YahooCall symbol);
  mret (yahoo_daily_body symbol period).

Definition _get_alpha_vantage_daily_data (now : Z) (symbol : string)
  : St AlphaVantageService.state (option frame) :=
  AlphaVantageService.get_daily_data ts_get_daily now symbol "compact".

Definition get_daily_data (alpha_vantage_enabled : bool) (now : Z)
  (symbol period : string) : St AlphaVantageService.state (option frame) :=
  let fallback : St AlphaVantageService.state (option frame) :=
    if alpha_vantage_enabled then _get_alpha_vantage_daily_data now symbol
    else mret None in
  yf_data ← _get_yahoo_daily_data symbol period;
  match yf_data with
  | Some yf_data =>
      if frame_empty yf_data then fallback else mret (Some yf_data)
  | None => fallback
  end.

End Providers.

End HybridDataService.

(* ===================================================================== *)
(** ** services/alpha_vantage_hybrid.py: the operations returning frames *)
(* ===================================================================== *)

Module AlphaVantageHybridFrames.

Definition indicator_columns : list string :=
  ["SMA_20"; "SMA_50"; "RSI"; "MACD"; "MACD_Signal"; "MACD_Histogram"].

(** The ['indicators'] computation of [_get_yahoo_fallback] on the close
    column; [None] is an exception. *)
Definition indicators_of (index_name : option string) (index : list Z)
  (close_prices : list fval) : option frame :=
  let sma_20 := Pandas.rolling_mean 20 close_prices in
  let sma_50 := Pandas.rolling_mean 50 close_prices in
  let delta := Pandas.diff close_prices in
  let gain :=
    Pandas.rolling_mean 14
      (Pandas.where_ (λ d, fgt d (Fin 0)) (Fin 0) delta) in
  let loss :=
    Pandas.rolling_mean 14
      (Pandas.neg (Pandas.where_ (λ d, flt d (Fin 0)) (Fin 0) delta)) in
  let rs := Pandas.div gain loss in
  let rsi := (λ r, fsub (Fin 100) (fdiv (Fin 100) (fadd (Fin 1) r))) <$> rs in
  ema_12 ← Pandas.ewm_mean 12 close_prices;
  ema_26 ← Pandas.ewm_mean 26 close_prices;
  let macd := zip_with fsub ema_12 ema_26 in
  signal ← Pandas.ewm_mean 9 macd;
  let histogram := zip_with fsub macd signal in
  Some (dropna (frame_of_series index_name index
          [("SMA_20", sma_20); ("SMA_50", sma_50); ("RSI", rsi);
           ("MACD", macd); ("MACD_Signal", signal);
           ("MACD_Histogram", histogram)])).

Section Providers.

(** [ticker.history(period=..., interval=...)] as a frame; [None] means
    the call raises. *)
Context (yf_history : string → string → option string → option frame).
Context (ts_get_daily : string → string → av_frame_response).
Context (ts_get_intraday : string → string → string → av_frame_response).
(** [ti.get_sma], [get_ema], [get_rsi] (with a period) and [get_macd]. *)
Context (ti_get : string → string → option Z → av_frame_response).

(** The ['daily'], ['intraday'] and ['indicators'] branches of
    [_get_yahoo_fallback]; any other [data_type] gives [None] here (the
    ['quote'] branch, which returns a dictionary, is
    [AlphaVantageHybrid._get_yahoo_fallback]). *)
Definition yahoo_frame_body (symbol data_type : string) : option frame :=
  if String.eqb data_type "daily" then
    hist ← yf_history symbol "1mo" None;
    if frame_empty hist then None
    else set_index_name "Date" <$> set_columns ohlcv hist
  else if String.eqb data_type "intraday" then
    hist ← yf_history symbol "1d" (Some "5m");
    if frame_empty hist then None
    else set_index_name "Datetime" <$> set_columns ohlcv hist
  else if String.eqb data_type "indicators" then
    hist ← yf_history symbol "3mo" None;
    if frame_empty hist then None
    else
      close_prices ← column "Close" hist;
      indicators_of (index_name hist) (rows hist).*1 close_prices
  else None.

Definition _get_yahoo_fallback (symbol data_type : string)
  : St (list call) (option frame) :=
  λ log, (yahoo_frame_body symbol data_type, log ++ [YahooCall symbol]).

(** The [try] block common to [get_daily_data] and [get_intraday_data]:
    [Some df] when it returns [df], [None] when control reaches the
    fallback. *)
Definition try_series (symbol index : string) (answer : av_frame_response)
  : St (list call) (option frame) :=
  λ log,
    (match answer with
     | AvSeries data =>
         if frame_empty data then None
         else set_index_name index <$> set_columns ohlcv data
     | AvSeriesNone | AvSeriesRaises _ => None
     end, log ++ [AlphaVantageCall symbol]).

Definition get_daily_data (enabled : bool) (symbol : string)
  : St (list call) (option frame) :=
  if AlphaVantageHybrid._is_indian_symbol symbol
  then _get_yahoo_fallback symbol "daily"
  else
    primary ← (if enabled
               then try_series symbol "Date" (ts_get_daily symbol "compact")
               else mret None);
    match primary with
    | Some data => mret (Some data)
    | None => _get_yahoo_fallback symbol "daily"
    end.

Definition get_intraday_data (enabled : bool) (symbol : string)
  : St (list call) (option frame) :=
  if AlphaVantageHybrid._is_indian_symbol symbol
  then _get_yahoo_fallback symbol "intraday"
  else
    primary ← (if enabled
               then try_series symbol "Datetime"
                      (ts_get_intraday symbol "5min" "compact")
               else mret None);
    match primary with
    | Some data => mret (Some data)
    | None => _get_yahoo_fallback symbol "intraday"
    end.

(** The indicator call chosen by [function.upper()]; [None] for a name
    that is not supported. *)
Definition indicator_call (symbol function : string) (time_period : Z)
  : option av_frame_response :=
  let name := PyStr.upper function in
  if String.eqb name "SMA" then Some (ti_get "SMA" symbol (Some time_period))
  else if String.eqb name "EMA" then Some (ti_get "EMA" symbol (Some time_period))
  else if String.eqb name "RSI" then Some (ti_get "RSI" symbol (Some time_period))
  else if String.eqb name "MACD" then Some (ti_get "MACD" symbol None)
  else None.

Definition get_technical_indicators (enabled : bool)
  (symbol function : string) (time_period : Z)
  : St (list call) (option frame) :=
  if AlphaVantageHybrid._is_indian_symbol symbol
  then _get_yahoo_fallback symbol "indicators"
  else if enabled then
    match indicator_call symbol function time_period with
    | None => mret None                              (* unsupported *)
    | Some answer =>
        λ log,
          match answer with
          | AvSeries data =>
              if frame_empty data
              then _get_yahoo_fallback symbol "indicators"
                     (log ++ [AlphaVantageCall symbol])
              else (Some data, log ++ [AlphaVantageCall symbol])
          | AvSeriesNone | AvSeriesRaises _ =>
              _get_yahoo_fallback symbol "indicators"
                (log ++ [AlphaVantageCall symbol])
          end
    end
  else _get_yahoo_fallback symbol "indicators".

End Providers.

End AlphaVantageHybridFrames.

(* ===================================================================== *)
(** ** services/angel_one_service.py *)
(* ===================================================================== *)

Module AngelOneService.

(** Requests sent through [self.session]. *)
Inductive request : Type :=
| LoginPost (clientcode password totp : string)
| MarketStatusGet
| QuotePost (nse bse : list string)
| HistoricalPost (exchange angel_symbol : string) (from_date to_date : Z)
                 (resolution : string).

(** What a request comes back with: [RespRaises] covers a failed
    connection, [raise_for_status] and an undecodable body. *)
Inductive response : Type :=
| RespRaises
| RespJson (data : pydict).

(** Attributes of the global [angel_one_service] object.  When
    [enabled] is false [__init__] has returned before creating the
    session and the token attributes. *)
Record state : Type := State {
  enabled : bool;
  client_id : string;
  password : string;
  pin : string;
  auth_token : pyval;
  token_expiry : option Z;
  authorization : option pyval;        (* the 'Authorization' header *)
  requests : list request
}.

Definition sent (r : request) (st : state) : state :=
  State (enabled st) (client_id st) (password st) (pin st) (auth_token st)
        (token_expiry st) (authorization st) (requests st ++ [r]).

Definition logged_in (token : pyval) (expiry : Z) (st : state) : state :=
  State (enabled st) (client_id st) (password st) (pin st) token
        (Some expiry) (Some token) (requests st).

(** [data.get('status') and data.get('data')] *)
Definition body_ok (data : pydict) : bool :=
  py_truthy (dict_get data "status" PNone)
  && py_truthy (dict_get data "data" PNone).

(** [self.auth_token and self.token_expiry and datetime.now() < self.token_expiry] *)
Definition token_valid (now : Z) (st : state) : bool :=
  py_truthy (auth_token st)
  && match token_expiry st with
     | Some expiry => now <? expiry
     | None => false
     end.

(** The state with more requests logged. *)
Definition add_requests (st : state) (rs : list request) : state :=
  State (enabled st) (client_id st) (password st) (pin st) (auth_token st)
        (token_expiry st) (authorization st) (requests st ++ rs).

(** The login request of a session. *)
Definition login_request (st : state) : request :=
  LoginPost (client_id st) (password st) (pin st).

Definition is_login (r : request) : bool :=
  match r with LoginPost _ _ _ => true | _ => false end.

Section Server.

(** The Angel One endpoints, as they answer at a given time. *)
Context (server : Z → request → response).
(** [float] and [int] on the text cells of an answer. *)
Context (py : text_conversions).

(** The server hands out [token] at time [now]. *)
Definition grants (now : Z) (st : state) (token : pyval) : Prop :=
  ∃ data d,
    server now (login_request st) = RespJson data
    ∧ body_ok data = true
    ∧ dict_get data "data" PNone = PDict d
    ∧ d !! "jwtToken" = Some token.

Definition _authenticate (now : Z) : St state bool :=
  λ st,
    if negb (enabled st) then (false, st)      (* AttributeError, caught *)
    else if token_valid now st then (true, st)
    else
      let login := LoginPost (client_id st) (password st) (pin st) in
      let st1 := sent login st in
      match server now login with
      | RespRaises => (false, st1)
      | RespJson data =>
          if body_ok data then
            match dict_get data "data" PNone with
            | PDict d =>
                match d !! "jwtToken" with
                | Some token => (true, logged_in token (now + hours 23) st1)
                | None => (false, st1)                  (* KeyError *)
                end
            | _ => (false, st1)                         (* TypeError *)
            end
          else (false, st1)
      end.

(** The part of a data operation that follows the authentication
    guard: send [req], and format the ['data'] entry of an accepted
    body with [format] ([None] from [format] is an exception or an
    explicit [return None]). *)
Definition fetch (now : Z) (req : request) (format : pyval → option pyval)
  : St state (option pyval) :=
  λ st,
    let st1 := sent req st in
    match server now req with
    | RespRaises => (None, st1)
    | RespJson data =>
        if body_ok data
        then (format (dict_get data "data" PNone), st1)
        else (None, st1)
    end.

(** [if not self._authenticate(): return None], then the operation. *)
Definition guarded (now : Z) (operation : St state (option pyval))
  : St state (option pyval) :=
  ok ← _authenticate now;
  if (ok : bool) then operation else mret None.

(** [symbol.replace('.NS', '').replace('.BSE', '')]; the mapping table of
    [_convert_symbol_to_angel_one] sends each of its keys to itself. *)
Definition _convert_symbol_to_angel_one (symbol : string) : string :=
  let clean_symbol :=
    PyStr.replace (PyStr.replace symbol ".NS" "") ".BSE" "" in
  let symbol_mapping : gmap string string :=
    list_to_map
      [ ("RELIANCE", "RELIANCE"); ("TCS", "TCS"); ("HDFCBANK", "HDFCBANK");
        ("INFY", "INFY"); ("HINDUNILVR", "HINDUNILVR"); ("ITC", "ITC");
        ("SBIN", "SBIN"); ("BHARTIARTL", "BHARTIARTL");
        ("KOTAKBANK", "KOTAKBANK"); ("LT", "LT") ] in
  default clean_symbol (symbol_mapping !! clean_symbol).

(** One side of the market-status answer. *)
Definition exchange_status (now : Z) (market_data : pyval) (key exchange : string)
  : option pyval :=
  side ← py_get market_data key (PDict ∅);
  is_open ← py_get side "marketOpen" (PBool false);
  Some (PDict (<["is_open" := is_open]>
              (<["last_updated" := PTime now]>
              (<["exchange" := PStr exchange]> ∅)))).

Definition format_market_status (now : Z) (market_data : pyval) : option pyval :=
  nse ← exchange_status now market_data "nse" "NSE";
  bse ← exchange_status now market_data "bse" "BSE";
  Some (PDict (<["nse" := nse]>
              (<["bse" := bse]>
              (<["last_updated" := PTime now]> ∅)))).

(** ['fetched' in quote_info and quote_info['fetched']]: [None] is an
    exception, [Some None] a falsy outcome, [Some (Some v)] the truthy
    value [v]. *)
Definition fetched (quote_info : pyval) : option (option pyval) :=
  match quote_info with
  | PDict d =>
      match d !! "fetched" with
      | Some v => if py_truthy v then Some (Some v) else Some None
      | None => Some None
      end
  | PList l =>
      if existsb (λ v, match v with
                       | PStr s => String.eqb s "fetched"
                       | _ => false
                       end) l
      then None                                   (* list['fetched'] *)
      else Some None
  | PStr s => if PyStr.contains "fetched" s then None else Some None
  | _ => None                                     (* not a container *)
  end.

(** [float(q.get('netPrice', 0)) / float(q.get('close', 1)) * 100
     if q.get('close') else 0]: a float, or the integer 0. *)
Definition net_change_percent (q : pyval) : option pyval :=
  close ← py_get q "close" PNone;
  if py_truthy close then
    net ← py_get q "netPrice" (PInt 0) ≫= py_float py;
    divisor ← py_get q "close" (PInt 1) ≫= py_float py;
    ratio ← py_div net divisor;
    Some (PFloat (fmul ratio (Fin 100)))
  else Some (PInt 0).

Definition float_field (q : pyval) (key : string) : option pyval :=
  PFloat <$> (py_get q key (PInt 0) ≫= py_float py).

Definition format_quote (now : Z) (symbol : string) (quote_info : pyval)
  : option pyval :=
  match fetched quote_info with
  | Some (Some (PList (q :: _))) =>
      price ← float_field q "ltp";
      open ← float_field q "open";
      high ← float_field q "high";
      low ← float_field q "low";
      close ← float_field q "close";
      volume ← py_get q "volume" (PInt 0) ≫= py_int py;
      change ← float_field q "netPrice";
      change_percent ← net_change_percent q;
      market_cap ← float_field q "marketCap";
      Some (PDict
        (<["symbol" := PStr symbol]>
        (<["price" := price]>
        (<["open" := open]>
        (<["high" := high]>
        (<["low" := low]>
        (<["close" := close]>
        (<["volume" := PInt volume]>
        (<["change" := change]>
        (<["change_percent" := change_percent]>
        (<["market_cap" := market_cap]>
        (<["currency" := PStr "INR"]>
        (<["exchange" :=
             PStr (if PyStr.endswith symbol ".NS" then "NSE" else "BSE")]>
        (<["last_updated" := PTime now]>
        (<["source" := PStr "Angel One"]> ∅)))))))))))))))
  | _ => None
  end.

(** One candle [[date, open, high, low, close, volume]], given as a list
    of cells (a candle given as text, which Python indexes by character,
    is not modelled). *)
Definition format_candle (candle : pyval) : option pyval :=
  match candle with
  | PList (date :: o :: h :: l :: c :: v :: _) =>
      open ← py_float py o;
      high ← py_float py h;
      low ← py_float py l;
      close ← py_float py c;
      volume ← py_int py v;
      Some (PDict
        (<["date" := date]>
        (<["open" := PFloat open]>
        (<["high" := PFloat high]>
        (<["low" := PFloat low]>
        (<["close" := PFloat close]>
        (<["volume" := PInt volume]> ∅)))))))
  | _ => None
  end.

(** Only candles given as lists are modelled. *)
Definition format_historical (historical_info : pyval) : option pyval :=
  match fetched historical_info with
  | Some (Some (PList (first :: _))) =>
      candles ← py_get first "data" (PList []);
      match candles with
      | PList cs => PList <$> mapM format_candle cs
      | _ => None
      end
  | _ => None
  end.

(** One entry of the [indices] dictionary, with its key (index names are
    strings). *)
Definition format_index (now : Z) (index : pyval) : option (string * pyval) :=
  name ← py_get index "symbol" (PStr "");
  match name with
  | PStr index_name =>
      price ← float_field index "ltp";
      change ← float_field index "netPrice";
      change_percent ← net_change_percent index;
      Some (index_name,
            PDict (<["price" := price]>
                  (<["change" := change]>
                  (<["change_percent" := change_percent]>
                  (<["last_updated" := PTime now]> ∅)))))
  | _ => None
  end.

Definition format_indices (now : Z) (quote_info : pyval) : option pyval :=
  indices ←
    match fetched quote_info with
    | None => None
    | Some None => Some ∅
    | Some (Some (PList l)) =>
        entries ← mapM (format_index now) l;
        Some (foldl (λ (m : pydict) e, <[e.1 := e.2]> m) ∅ entries)
    | Some (Some _) => None
    end;
  Some (PDict (<["indices" := PDict indices]>
              (<["last_updated" := PTime now]>
              (<["source" := PStr "Angel One"]> ∅)))).

Definition days (d : Z) : Z := d * 24 * 3600 * 1000000.

Definition period_days (period : string) : Z :=
  let table : gmap string Z :=
    list_to_map [("1d", 1); ("1w", 7); ("1mo", 30); ("3mo", 90);
                 ("6mo", 180); ("1y", 365)] in
  default 30 (table !! period).

Definition angel_interval (interval : string) : string :=
  let interval_mapping : gmap string string :=
    list_to_map [("1m", "ONE_MINUTE"); ("5m", "FIVE_MINUTE");
                 ("15m", "FIFTEEN_MINUTE"); ("1h", "ONE_HOUR");
                 ("1d", "ONE_DAY")] in
  default "ONE_DAY" (interval_mapping !! interval).

Definition get_market_status (now : Z) : St state (option pyval) :=
  guarded now (fetch now MarketStatusGet (format_market_status now)).

Definition quote_request (symbol : string) : request :=
  let angel_symbol := _convert_symbol_to_angel_one symbol in
  QuotePost (if PyStr.endswith symbol ".NS" then [angel_symbol] else [])
            (if PyStr.endswith symbol ".BSE" then [angel_symbol] else []).

Definition get_stock_quote (now : Z) (symbol : string)
  : St state (option pyval) :=
  guarded now (fetch now (quote_request symbol) (format_quote now symbol)).

Definition historical_request (now : Z) (symbol interval period : string)
  : request :=
  HistoricalPost (if PyStr.endswith symbol ".NS" then "NSE" else "BSE")
                 (_convert_symbol_to_angel_one symbol)
                 (now - days (period_days period)) now
                 (angel_interval interval).

Definition get_historical_data (now : Z) (symbol interval period : string)
  : St state (option pyval) :=
  guarded now (fetch now (historical_request now symbol interval period)
                     format_historical).

Definition indices_request : request :=
  QuotePost ["NIFTY 50"; "NIFTY BANK"; "NIFTY IT"] ["SENSEX"].

Definition get_indices_data (now : Z) : St state (option pyval) :=
  guarded now (fetch now indices_request (format_indices now)).

(** The four data operations. *)
Inductive operation : Type :=
| GetMarketStatus
| GetStockQuote (symbol : string)
| GetHistoricalData (symbol interval period : string)
| GetIndicesData.

Definition perform (now : Z) (op : operation) : St state (option pyval) :=
  match op with
  | GetMarketStatus => get_market_status now
  | GetStockQuote symbol => get_stock_quote now symbol
  | GetHistoricalData symbol interval period =>
      get_historical_data now symbol interval period
  | GetIndicesData => get_indices_data now
  end.

(** The request an operation sends once it is authenticated. *)
Definition data_request (now : Z) (op : operation) : request :=
  match op with
  | GetMarketStatus => MarketStatusGet
  | GetStockQuote symbol => quote_request symbol
  | GetHistoricalData symbol interval period =>
      historical_request now symbol interval period
  | GetIndicesData => indices_request
  end.

(** A run of operations, each at its own time. *)
Fixpoint perform_all (ops : list (Z * operation))
  : St state (list (option pyval)) :=
  match ops with
  | [] => mret []
  | (now, op) :: rest =>
      r ← perform now op;
      rs ← perform_all rest;
      mret (r :: rs)
  end.

End Server.

End AngelOneService.

(* ===================================================================== *)
(** ** services/currency_service.py *)
(* ===================================================================== *)

Module CurrencyService.

(** Attributes of the global [currency_service] object, and the number of
    requests sent to the exchange-rate API so far. *)
Record state : Type := State {
  usd_to_inr_rate : fval;
  last_update : option Z;
  api_key : option string;               (* [os.getenv('CURRENCY_API_KEY')] *)
  fetches : nat
}.

(** The object built by [__init__]. *)
Definition initial (api_key : option string) : state :=
  State (Fin 83) None api_key 0.

(** [timedelta(seconds=self.cache_duration)] in microseconds. *)
Definition cache_duration : Z := 3600 * 1000000.

(** [bool(self.api_key)] *)
Definition api_key_configured (st : state) : bool :=
  match api_key st with
  | Some key => PyStr.truthy key
  | None => false
  end.

(** [self.last_update and
     datetime.now() - self.last_update < timedelta(seconds=self.cache_duration)] *)
Definition cache_is_fresh (now : Z) (st : state) : bool :=
  match last_update st with
  | Some updated => now - updated <? cache_duration
  | None => false
  end.

(** What [requests.get(url, timeout=10)] leads to: an exception (also
    from [raise_for_status] or an undecodable body), or the decoded
    body. *)
Inductive api_response : Type :=
| ApiRaises
| ApiJson (data : pyval).

Section Api.

(** The exchange-rate endpoint, as it answers at a given time. *)
Context (api : Z → api_response).
(** [float] on a rate or an amount given as text. *)
Context (py : text_conversions).

(** [Some rate] is [return float(inr_rate)]; every exception is caught
    and gives [None], like a missing or falsy rate. *)
Definition _fetch_real_time_rate (now : Z) : St state (option fval) :=
  λ st,
    (match api now with
     | ApiRaises => None
     | ApiJson data =>
         rates ← py_get data "rates" (PDict ∅);
         inr_rate ← py_get rates "INR" PNone;
         if py_truthy inr_rate then py_float py inr_rate else None
     end,
     State (usd_to_inr_rate st) (last_update st) (api_key st)
           (S (fetches st))).

(** [get_usd_to_inr_rate]: [now] is the clock reading of the cache test
    and of the request, [stamped] the one stored in [last_update]. *)
Definition get_usd_to_inr_rate (now stamped : Z) : St state fval :=
  λ st,
    if cache_is_fresh now st then (usd_to_inr_rate st, st)
    else if api_key_configured st then
      let '(rate, st1) := _fetch_real_time_rate now st in
      match rate with
      | Some rate =>
          if fne0 rate                                    (* [if rate:] *)
          then (rate, State rate (Some stamped) (api_key st1) (fetches st1))
          else (usd_to_inr_rate st1, st1)
      | None => (usd_to_inr_rate st1, st1)
      end
    else (usd_to_inr_rate st, st).

(** [convert_usd_to_inr]; the result [None] is the exception raised by
    [float] on an amount that is not a number. *)
Definition convert_usd_to_inr (now stamped : Z) (usd_amount : pyval)
  : St state (option fval) :=
  match usd_amount with
  | PNone => mret (Some (Fin 0))
  | _ =>
      rate ← get_usd_to_inr_rate now stamped;
      mret (amount ← py_float py usd_amount; Some (fmul amount rate))
  end.

End Api.

End CurrencyService.

(* ===================================================================== *)
(** ** main_combined.py: the Angel One and currency endpoints *)
(* ===================================================================== *)

Module Endpoints.

(** What a handler produces: a JSON body, or an [HTTPException]. *)
Inductive http_result : Type :=
| Ok (body : pyval)
| HttpError (status_code : Z) (detail : string).

Definition status_of (r : http_result) : Z :=
  match r with
  | Ok _ => 200
  | HttpError status_code _ => status_code
  end.

(** [len(v)]; [None] is the [TypeError] of a value without a length
    (the text of a timestamp is not measured). *)
Definition py_len (v : pyval) : option Z :=
  match v with
  | PList l => Some (Z.of_nat (length l))
  | PDict d => Some (Z.of_nat (size d))
  | PStr s => Some (Z.of_nat (String.length s))
  | _ => None
  end.

Section AngelOne.

Context (server : Z → AngelOneService.request → AngelOneService.response).
Context (py : text_conversions).

(** The shape shared by the four Angel One handlers: 503 when the
    service is not enabled, 404 when the service call gives a falsy
    result, 500 when building the body raises. *)
Definition angel_handler
  (call_service : St AngelOneService.state (option pyval))
  (not_found failed : string) (body_of : pyval → option pyval)
  : St AngelOneService.state http_result :=
  λ st,
    if negb (AngelOneService.enabled st)
    then (HttpError 503 "Angel One service not enabled", st)
    else
      let '(data, st') := call_service st in
      (match data with
       | Some data =>
           if py_truthy data then
             match body_of data with
             | Some body => Ok body
             | None => HttpError 500 failed
             end
           else HttpError 404 not_found
       | None => HttpError 404 not_found
       end, st').

Definition get_angel_one_quote (now : Z) (symbol : string)
  : St AngelOneService.state http_result :=
  angel_handler (AngelOneService.get_stock_quote server py now symbol)
                ("No quote data found for " +:+ symbol)
                "Failed to get quote" Some.

Definition get_angel_one_historical (now : Z) (symbol interval period : string)
  : St AngelOneService.state http_result :=
  angel_handler
    (AngelOneService.get_historical_data server py now symbol interval period)
    ("No historical data found for " +:+ symbol)
    "Failed to get historical data"
    (λ historical_data,
       count ← py_len historical_data;
       Some (PDict (<["symbol" := PStr symbol]>
                   (<["interval" := PStr interval]>
                   (<["period" := PStr period]>
                   (<["data" := historical_data]>
                   (<["count" := PInt count]>
                   (<["last_updated" := PTime now]> ∅)))))))).

Definition get_angel_one_indices (now : Z)
  : St AngelOneService.state http_result :=
  angel_handler (AngelOneService.get_indices_data server py now)
                "No indices data found" "Failed to get indices data" Some.

Definition get_angel_one_market_status (now : Z)
  : St AngelOneService.state http_result :=
  angel_handler (AngelOneService.get_market_status server now)
                "No market status data found" "Failed to get market status"
                Some.

(** The four handlers. *)
Inductive angel_endpoint : Type :=
| AngelQuote (symbol : string)
| AngelHistorical (symbol interval period : string)
| AngelIndices
| AngelMarketStatus.

Definition handle (now : Z) (e : angel_endpoint)
  : St AngelOneService.state http_result :=
  match e with
  | AngelQuote symbol => get_angel_one_quote now symbol
  | AngelHistorical symbol interval period =>
      get_angel_one_historical now symbol interval period
  | AngelIndices => get_angel_one_indices now
  | AngelMarketStatus => get_angel_one_market_status now
  end.

(** The service operation behind a handler. *)
Definition operation_of (e : angel_endpoint) : AngelOneService.operation :=
  match e with
  | AngelQuote symbol => AngelOneService.GetStockQuote symbol
  | AngelHistorical symbol interval period =>
      AngelOneService.GetHistoricalData symbol interval period
  | AngelIndices => AngelOneService.GetIndicesData
  | AngelMarketStatus => AngelOneService.GetMarketStatus
  end.

End AngelOne.

Section Currency.

Context (api : Z → CurrencyService.api_response).
Context (py : text_conversions).
(** [currency_service.format_inr], the text of an amount. *)
Context (format_inr : fval → string).
(** [str(e)] of an [HTTPException] with a status code and a detail. *)
Context (http_exception_str : Z → string → string).

(** [convert_currency]: the handler has a single [except Exception], which
    also catches the [HTTPException] raised in its own [try] block.  The
    two calls of [get_usd_to_inr_rate] read the clock at [now1], [stamped1]
    and at [now2], [stamped2]; [now3] is the time of the answer. *)
Definition convert_currency (now1 stamped1 now2 stamped2 now3 : Z)
  (amount : fval) (from_currency to_currency : string)
  : St CurrencyService.state http_result :=
  if String.eqb (PyStr.upper from_currency) "USD"
     && String.eqb (PyStr.upper to_currency) "INR"
  then
    converted ← CurrencyService.convert_usd_to_inr api py now1 stamped1
                  (PFloat amount);
    match converted with
    | Some converted_amount =>
        exchange_rate ← CurrencyService.get_usd_to_inr_rate api py now2 stamped2;
        mret (Ok (PDict
          (<["original_amount" := PFloat amount]>
          (<["original_currency" := PStr from_currency]>
          (<["converted_amount" := PFloat converted_amount]>
          (<["converted_currency" := PStr to_currency]>
          (<["formatted_amount" := PStr (format_inr converted_amount)]>
          (<["exchange_rate" := PFloat exchange_rate]>
          (<["last_updated" := PTime now3]> ∅)))))))))
    | None =>                        (* not reached: the amount is a float *)
        mret (HttpError 500 "Failed to convert currency")
    end
  else
    mret (HttpError 500
            ("Failed to convert currency: "
             +:+ http_exception_str 400
                   "Only USD to INR conversion is currently supported")).

End Currency.

End Endpoints.

(* ===================================================================== *)
(** ** The response cache *)
(* ===================================================================== *)

Module Cache.

Section Store.

Context {V : Type}.

(** Modelled from the spec: [models/database.py] ([init_db],
    [get_cached_data], [cache_data]) is not part of the sources at hand.
    The cache is a process-wide map from a key to a value and the time
    its entry expires. *)
Definition cache_data (key : string) (value : V) (expiry_minutes : Z)
  (now : Z) : St (gmap string (V * Z)) () :=
  λ store, (tt, <[key := (value, now + minutes expiry_minutes)]> store).

(** Modelled from the spec: [get_cached_data] answers absent when there
    is no entry or when the current time exceeds the stored expiry; it
    does not remove anything from the store. *)
Definition get_cached_data (key : string) (now : Z)
  : St (gmap string (V * Z)) (option V) :=
  λ store,
    (match store !! key with
     | Some (value, expiry) => if expiry <? now then None else Some value
     | None => None
     end, store).

End Store.

End Cache.

(* ===================================================================== *)
(** ** Fallback candidates *)
(* ===================================================================== *)

Module Documented.

(** The symbol without its exchange suffix: only the trailing '.NS' or
    '.BSE' is removed. *)
Definition strip_exchange_suffix (symbol : string) : string :=
  if PyStr.endswith symbol ".NS"
  then PyStr.take (String.length symbol - 3) symbol
  else if PyStr.endswith symbol ".BSE"
  then PyStr.take (String.length symbol - 4) symbol
  else symbol.

(** The candidate list in the documented order: the mapped symbol when
    there is one, the bare ticker, the bare ticker with '.BSE', the bare
    ticker with '.NS'; the symbol alone when it is not Indian. *)
Definition fallback_candidates (symbol : string) : list string :=
  if SymbolMapping.is_indian_symbol symbol then
    let bare := strip_exchange_suffix symbol in
    match SymbolMapping.get_us_symbol symbol with
    | Some mapped => [mapped]
    | None => []
    end ++ [bare; bare +:+ ".BSE"; bare +:+ ".NS"]
  else [symbol].

(** A ticker without a dot in it. *)
Fixpoint dot_free (s : string) : bool :=
  match s with
  | EmptyString => true
  | String c s' => negb (Ascii.eqb "." c) && dot_free s'
  end.

End Documented.

(* ===================================================================== *)
(** ** Rational views of the indicator cells *)
(* ===================================================================== *)

Module Rational.

Local Open Scope Q_scope.

(** What [delta.where(delta > 0, 0)] keeps of one delta. *)
Definition gain_of (d : fval) : Q :=
  match d with
  | Fin q => if Qlt_bool 0 q then q else 0
  | _ => 0
  end.

(** What [-delta.where(delta < 0, 0)] keeps of one delta. *)
Definition loss_of (d : fval) : Q :=
  match d with
  | Fin q => - (if Qlt_bool q 0 then q else 0)
  | _ => - 0
  end.

Definition not_infinite (d : fval) : Prop := d ≠ PInf ∧ d ≠ NInf.

(** [beta ^ n] *)
Fixpoint Qpow (beta : Q) (n : nat) : Q :=
  match n with
  | O => 1
  | S k => beta * Qpow beta k
  end.

(** The sum of [beta^(k+i) * l_i] over the cells [l_i] of [l]. *)
Fixpoint weighted_from (beta : Q) (k : nat) (l : list Q) : Q :=
  match l with
  | [] => 0
  | x :: l' => Qpow beta k * x + weighted_from beta (S k) l'
  end.

(** The cells weighted by age, [beta^i] for the cell [i] places behind
    the newest one; the list starts with the newest cell. *)
Definition weighted_sum (beta : Q) (newest_first : list Q) : Q :=
  weighted_from beta 0 newest_first.

(** The step of the [ewm] loop on rational cells. *)
Definition ewm_step_q (beta : Q) (acc : Q * Q) (cur : Q) : Q * Q :=
  let '(weighted, old_wt) := acc in
  let old_wt := old_wt * beta in
  (if negb (Qeq_bool weighted cur)
   then (old_wt * weighted + 1 * cur) / (old_wt + 1)
   else weighted,
   old_wt + 1).

Fixpoint ewm_loop_q (beta : Q) (acc : Q * Q) (vals : list Q) : list Q :=
  match vals with
  | [] => []
  | cur :: rest =>
      let acc' := ewm_step_q beta acc cur in
      fst acc' :: ewm_loop_q beta acc' rest
  end.

(** The RSI formula [100 - 100 / (1 + gain / loss)] on the mean gain and
    the mean loss of the last window. *)
Definition rsi_of_means (gain loss : Q) : fval :=
  fsub (Fin 100) (fdiv (Fin 100) (fadd (Fin 1) (fdiv (Fin gain) (Fin loss)))).

End Rational.

(* ===================================================================== *)
(** ** Sample collaborators used by the examples below *)
(* ===================================================================== *)

Module Samples.

Definition sample_row : hist_row :=
  HistRow (Fin 100) (Fin 110) (Fin 95) (Fin 105) 1200.

Definition sample_info : pydict :=
  <["previousClose" := PFloat (Fin 100)]> (<["currency" := PStr "USD"]> ∅).

(** yfinance answering every symbol with one bar. *)
Definition yf_up : string → yf_ticker :=
  λ _, YfTicker (Some sample_info) (λ _, Some [sample_row]).

(** yfinance answering with a previous close of zero. *)
Definition yf_zero_close : string → yf_ticker :=
  λ _, YfTicker (Some (<["previousClose" := PInt 0]> ∅))
                (λ _, Some [sample_row]).

Definition av_row : pydict :=
  <["05. price" := PFloat (Fin 105)]> (<["01. symbol" := PStr "AAPL"]> ∅).

(** Alpha Vantage answering every symbol with a quote row. *)
Definition av_up : string → av_response := λ _, AvFrame [av_row].

(** Alpha Vantage refusing every call with its daily-quota message. *)
Definition av_limited : string → av_response :=
  λ _, AvRaises "Thank you for using Alpha Vantage! Our standard API Rate Limit is 25 requests per day.".

(** Alpha Vantage refusing every quote as a premium endpoint. *)
Definition av_premium : string → av_response :=
  λ _, AvRaises "This is a premium endpoint.".

Definition series_frame : frame :=
  Frame ["1. open"; "2. high"; "3. low"; "4. close"; "5. volume"] None
        [(0, [Fin 100; Fin 110; Fin 95; Fin 105; Fin 1200])].

(** Alpha Vantage time series answering every symbol with one bar. *)
Definition daily_up : string → string → av_frame_response :=
  λ _ _, AvSeries series_frame.

Definition intraday_up : string → string → string → av_frame_response :=
  λ _ _ _, AvSeries series_frame.

(** Alpha Vantage time series refusing every call. *)
Definition daily_limited : string → string → av_frame_response :=
  λ _ _, AvSeriesRaises "Our standard API call frequency is 25 requests per day; premium plans lift it".

Definition intraday_limited : string → string → string → av_frame_response :=
  λ _ _ _, AvSeriesRaises "Intraday data is a premium feature".

(** A three-month history as yfinance gives it: 60 daily bars with the
    seven default columns, closing at 100, 101, ... *)
Definition history_frame : frame :=
  Frame ["Open"; "High"; "Low"; "Close"; "Volume"; "Dividends"; "Stock Splits"]
        (Some "Date")
        ((λ i : nat,
            let close := Fin (inject_Z (100 + Z.of_nat i)) in
            (Z.of_nat i, [close; close; close; close; Fin 1200; Fin 0; Fin 0]))
           <$> seq 0 60).

Definition yf_history_up : string → string → option string → option frame :=
  λ _ _ _, Some history_frame.

(** The Alpha Vantage indicator calls answering with one row. *)
Definition ti_up : string → string → option Z → av_frame_response :=
  λ _ _ _, AvSeries series_frame.

(** The Alpha Vantage service right after [__init__] with an API key. *)
Definition av_fresh : AlphaVantageService.state :=
  AlphaVantageService.State true None None [].

(** The same service in cooldown until time [hours 24]. *)
Definition av_cooling : AlphaVantageService.state :=
  AlphaVantageService.State true (Some true) (Some (hours 24)) [].

End Samples.

Module TextSamples.

(** The value of a run of ASCII digits; [None] for any other text. *)
Fixpoint digits_value (acc : Z) (s : string) : option Z :=
  match s with
  | EmptyString => Some acc
  | String c rest =>
      let n := Z.of_nat (nat_of_ascii c) in
      if (48 <=? n) && (n <=? 57)
      then digits_value (10 * acc + (n - 48)) rest
      else None
  end.

Definition natural_of_text (s : string) : option Z :=
  if PyStr.truthy s then digits_value 0 s else None.

(** Conversions that read a plain run of ASCII digits as Python does and
    reject every other text. *)
Definition plain_digits : text_conversions :=
  TextConversions (λ s, (λ z, Fin (inject_Z z)) <$> natural_of_text s)
                  natural_of_text.

End TextSamples.

Module AngelSamples.

Import AngelOneService.

(** A server that is unreachable before time 100 and grants the token
    'jwt' from then on; data requests are always answered. *)
Definition server : Z → request → response :=
  λ now r,
    match r with
    | LoginPost _ _ _ =>
        if now <? 100 then RespRaises
        else RespJson (<["status" := PBool true]>
                      (<["data" := PDict (<["jwtToken" := PStr "jwt"]> ∅)]> ∅))
    | _ =>
        RespJson (<["status" := PBool true]>
                 (<["data" :=
                      PDict (<["nse" := PDict (<["marketOpen" := PBool true]> ∅)]> ∅)]>
                  ∅))
    end.

(** The service right after [__init__], with credentials configured. *)
Definition fresh : state := State true "C123" "secret" "0000" PNone None None [].

(** The service holding a token that expires at time 1000. *)
Definition signed_in : state :=
  State true "C123" "secret" "0000" (PStr "jwt") (Some 1000)
        (Some (PStr "jwt")) [].

(** Two candles as the historical endpoint lists them. *)
Definition sample_candles : list pyval :=
  [PList [PStr "2024-01-01T09:15:00+05:30"; PFloat (Fin 100); PInt 110;
          PInt 95; PFloat (Fin 105); PInt 1200];
   PList [PStr "2024-01-02T09:15:00+05:30"; PInt 105; PInt 112; PInt 101;
          PFloat (Fin 111); PStr "900"]].

(** The same server, answering a historical request with the two
    candles. *)
Definition candles_server : Z → request → response :=
  λ now r,
    match r with
    | HistoricalPost _ _ _ _ _ =>
        RespJson
          (<["status" := PBool true]>
          (<["data" :=
               PDict (<["fetched" :=
                          PList [PDict (<["data" := PList sample_candles]> ∅)]]>
                      ∅)]> ∅))
    | _ => server now r
    end.

(** The service without credentials: [enabled] is false. *)
Definition disabled : state := State false "" "" "" PNone None None [].

End AngelSamples.

Module CurrencySamples.

Import CurrencyService.

(** An exchange-rate endpoint that is down before time 100 and quotes
    84.5 rupees to the dollar from then on. *)
Definition api : Z → api_response :=
  λ now,
    if now <? 100 then ApiRaises
    else ApiJson (PDict (<["base" := PStr "USD"]>
                        (<["rates" :=
                             PDict (<["INR" := PFloat (Fin (169 # 2))]> ∅)]>
                         ∅))).

(** The service right after [__init__], with an API key configured. *)
Definition keyed : state := initial (Some "key").

(** Stand-ins for the text of an amount and of an exception. *)
Definition format_inr : fval → string := λ _, "INR".
Definition http_exception_str : Z → string → string := λ _ detail, detail.

End CurrencySamples.

(* ===================================================================== *)
(** * Properties *)
(* ===================================================================== *)

Example ex_is_indian : SymbolMapping.is_indian_symbol "RELIANCE.NS" = true.
Proof. reflexivity. Qed.
Example ex_is_us : SymbolMapping.is_indian_symbol "AAPL" = false.
Proof. reflexivity. Qed.
Example ex_fb : SymbolMapping.get_alpha_vantage_fallback_symbols "HDFCBANK.NS"
  = ["HDB"; "HDFCBANK"; "HDFCBANK.BSE"; "HDFCBANK.NS"].
Proof. vm_compute. reflexivity. Qed.
Example ex_fb2 : SymbolMapping.get_alpha_vantage_fallback_symbols "AB.NSX.NS"
  = ["ABX"; "ABX.BSE"; "ABX.NS"].
Proof. vm_compute. reflexivity. Qed.

Example ex_sma : HybridDataService.sma 2 [Fin 1; Fin 2; Fin 4] = Some (Fin (6 # 2)).
Proof. vm_compute. reflexivity. Qed.

(* ===================================================================== *)
(** ** The hybrid resolver *)
(* ===================================================================== *)

Section HybridResolver.

Context (yf : string → yf_ticker).
Context (ts_get_quote_endpoint : string → av_response).
Context (now : Z).

Lemma yahoo_quote_body_source symbol q divs :
  AlphaVantageHybrid.yahoo_quote_body yf now symbol = (Some (Some q), divs) →
  q !! "source" = Some (PStr "Yahoo Finance (Hybrid Fallback)").
Proof.
  unfold AlphaVantageHybrid.yahoo_quote_body.
  destruct (info (yf symbol)) as [i|]; [|discriminate].
  destruct (history (yf symbol) "1d") as [h|]; [|discriminate].
  destruct (iloc_last h) as [row|]; [|discriminate].
  destruct (negb (dict_truthy i)); [discriminate|].
  destruct (as_number _) as [pc|]; [|discriminate].
  destruct (AlphaVantageHybrid.change_percent_of _ _) as [cp dv].
  intros [= <- _]. by simplify_map_eq.
Qed.

Lemma yahoo_fallback_source symbol log q log' :
  AlphaVantageHybrid._get_yahoo_fallback yf now symbol log = (Some q, log') →
  q !! "source" = Some (PStr "Yahoo Finance (Hybrid Fallback)")
  ∧ log' = log ++ [YahooCall symbol].
Proof.
  unfold AlphaVantageHybrid._get_yahoo_fallback.
  destruct (AlphaVantageHybrid.yahoo_quote_body yf now symbol)
    as [[[q'|]|] divs] eqn:E; simpl; intros [= ? ?]; subst.
  split; [|done]. eauto using yahoo_quote_body_source.
Qed.

(** C1. For a symbol ending in '.NS' or '.BSE', [get_quote] makes exactly
    one provider call, to Yahoo Finance, and none to Alpha Vantage,
    whether or not the Alpha Vantage client is enabled; a result that is
    present carries the source 'Yahoo Finance (Hybrid Fallback)', which
    names Yahoo Finance. *)
Theorem indian_quote_only_consults_yahoo (enabled : bool) (symbol : string) :
  SymbolMapping.is_indian_symbol symbol = true →
  let '(result, log) :=
    run (AlphaVantageHybrid.get_quote yf ts_get_quote_endpoint now
           enabled symbol) [] in
  log = [YahooCall symbol]
  ∧ existsb is_alpha_vantage_call log = false
  ∧ ∀ q, result = Some q →
      ∃ source, q !! "source" = Some (PStr source)
                ∧ PyStr.startswith source "Yahoo Finance" = true.
Proof.
  intros Hin. unfold run, AlphaVantageHybrid.get_quote.
  change (AlphaVantageHybrid._is_indian_symbol symbol)
    with (SymbolMapping.is_indian_symbol symbol).
  rewrite Hin.
  destruct (AlphaVantageHybrid._get_yahoo_fallback yf now symbol [])
    as [result log] eqn:E.
  assert (log = [YahooCall symbol]) as ->.
  { unfold AlphaVantageHybrid._get_yahoo_fallback in E. by inversion E. }
  split; [done|]. split; [done|].
  intros q ->. apply yahoo_fallback_source in E as [Hsrc _].
  exists "Yahoo Finance (Hybrid Fallback)". by split.
Qed.

(** C2, as amended. For a symbol that ends in neither '.NS' nor '.BSE':
    with the Alpha Vantage client enabled, the first provider call of
    [get_quote] is the Alpha Vantage quote call for that symbol, and when
    that call returns a valid quote (by the test of the code: [data] is
    not [None] and [data.empty] is false) the result is present with
    source 'Alpha Vantage' and Yahoo Finance is not called; with the
    client not enabled the only provider call is to Yahoo Finance. *)
Theorem us_quote_prefers_alpha_vantage (enabled : bool) (symbol : string) :
  SymbolMapping.is_indian_symbol symbol = false →
  let '(result, log) :=
    run (AlphaVantageHybrid.get_quote yf ts_get_quote_endpoint now
           enabled symbol) [] in
  if enabled then
    head log = Some (AlphaVantageCall symbol)
    ∧ ∀ rows,
        ts_get_quote_endpoint symbol = AvFrame rows →
        quote_frame_empty rows = false →
        (∃ q, result = Some q ∧ q !! "source" = Some (PStr "Alpha Vantage"))
        ∧ log = [AlphaVantageCall symbol]
        ∧ existsb is_yahoo_call log = false
  else log = [YahooCall symbol].
Proof.
  intros Hus. unfold run, AlphaVantageHybrid.get_quote.
  change (AlphaVantageHybrid._is_indian_symbol symbol)
    with (SymbolMapping.is_indian_symbol symbol).
  rewrite Hus.
  unfold mbind, St_bind, AlphaVantageHybrid.try_alpha_vantage,
    AlphaVantageHybrid._get_yahoo_fallback, mret, St_ret.
  destruct enabled; simpl; [|done].
  destruct (ts_get_quote_endpoint symbol) as [msg| |[|row rows]] eqn:E;
    simpl.
  1-3: by (split; [done|]; intros rs [= <-] Hvalid).
  destruct (bool_decide (row = ∅)) eqn:Hrow; simpl;
    (split; [done|]); intros rs [= <-] Hvalid;
    cbn [quote_frame_empty] in Hvalid; [congruence|].
  split; [|done].
  eexists; split; [done|].
  unfold AlphaVantageHybrid.alpha_vantage_quote.
  by rewrite lookup_insert_eq.
Qed.

End HybridResolver.

(** C1 at 'RELIANCE.NS' with both providers answering. *)
Lemma indian_quote_only_consults_yahoo_witness :
  let '(result, log) :=
    run (AlphaVantageHybrid.get_quote Samples.yf_up Samples.av_up 0
           true "RELIANCE.NS") [] in
  log = [YahooCall "RELIANCE.NS"]
  ∧ existsb is_alpha_vantage_call log = false
  ∧ ∀ q, result = Some q →
      ∃ source, q !! "source" = Some (PStr source)
                ∧ PyStr.startswith source "Yahoo Finance" = true.
Proof.
  apply (indian_quote_only_consults_yahoo Samples.yf_up Samples.av_up 0
           true "RELIANCE.NS").
  reflexivity.
Defined.

(** C2 at 'AAPL' with both providers answering. *)
Lemma us_quote_prefers_alpha_vantage_witness :
  SymbolMapping.is_indian_symbol "AAPL" = false
  ∧ let '(result, log) :=
      run (AlphaVantageHybrid.get_quote Samples.yf_up Samples.av_up 0
             true "AAPL") [] in
    head log = Some (AlphaVantageCall "AAPL")
    ∧ (∃ q, result = Some q ∧ q !! "source" = Some (PStr "Alpha Vantage"))
    ∧ log = [AlphaVantageCall "AAPL"]
    ∧ existsb is_yahoo_call log = false.
Proof.
  split; [reflexivity|].
  pose proof (us_quote_prefers_alpha_vantage Samples.yf_up Samples.av_up 0
                true "AAPL" eq_refl) as H.
  destruct (run _ _) as [result log].
  destruct H as [Hfirst Hvalid].
  split; [exact Hfirst|].
  exact (Hvalid [Samples.av_row] eq_refl eq_refl).
Defined.

(** C2 as stated fails when the client is not enabled (no API key): for
    'AAPL', with Alpha Vantage ready to answer with a valid row, the only
    provider call is to Yahoo Finance and the result carries the Yahoo
    source. *)
Lemma us_quote_disabled_skips_alpha_vantage :
  SymbolMapping.is_indian_symbol "AAPL" = false
  ∧ Samples.av_up "AAPL" = AvFrame [Samples.av_row]
  ∧ quote_frame_empty [Samples.av_row] = false
  ∧ ∃ q,
      run (AlphaVantageHybrid.get_quote Samples.yf_up Samples.av_up 0
             false "AAPL") []
      = (Some q, [YahooCall "AAPL"])
      ∧ head [YahooCall "AAPL"] ≠ Some (AlphaVantageCall "AAPL")
      ∧ q !! "source" = Some (PStr "Yahoo Finance (Hybrid Fallback)")
      ∧ q !! "source" ≠ Some (PStr "Alpha Vantage").
Proof.
  split; [reflexivity|]. split; [reflexivity|]. split; [reflexivity|].
  eexists. split; [reflexivity|].
  split; [discriminate|].
  split; [by simplify_map_eq|].
  by simplify_map_eq.
Qed.

Section YahooQuoteArithmetic.

Context (yf : string → yf_ticker).
Context (now : Z).

Lemma change_percent_of_divisors change previous_close :
  Forall (λ d, fne0 (snd d) = true)
         (snd (AlphaVantageHybrid.change_percent_of change previous_close)).
Proof.
  unfold AlphaVantageHybrid.change_percent_of.
  destruct (fne0 previous_close) eqn:E; simpl; [|constructor].
  constructor; [exact E|constructor].
Qed.

Lemma change_percent_of_zero change previous_close :
  fne0 previous_close = false →
  AlphaVantageHybrid.change_percent_of change previous_close = (Fin 0, []).
Proof.
  intros E. unfold AlphaVantageHybrid.change_percent_of. by rewrite E.
Qed.

(** C10. While the hybrid service builds the Yahoo Finance quote, no
    division has a zero divisor; and when the previous close is zero the
    'change_percent' field of the quote is 0 and no division is
    evaluated at all. *)
Theorem yahoo_quote_never_divides_by_zero (symbol : string) :
  let '(result, divisions) :=
    AlphaVantageHybrid.yahoo_quote_body yf now symbol in
  Forall (λ d, fne0 (snd d) = true) divisions
  ∧ ∀ q previous_close,
      result = Some (Some q) →
      q !! "previous_close" = Some (PFloat previous_close) →
      fne0 previous_close = false →
      q !! "change_percent" = Some (PFloat (Fin 0)) ∧ divisions = [].
Proof.
  unfold AlphaVantageHybrid.yahoo_quote_body.
  destruct (info (yf symbol)) as [i|];
    [|split; [constructor|intros ?? [=]]].
  destruct (history (yf symbol) "1d") as [h|];
    [|split; [constructor|intros ?? [=]]].
  destruct (iloc_last h) as [row|];
    [|split; [constructor|intros ?? [=]]].
  destruct (negb (dict_truthy i));
    [split; [constructor|intros ?? [=]]|].
  destruct (as_number _) as [pc|];
    [|split; [constructor|intros ?? [=]]].
  pose proof (change_percent_of_divisors (fsub (Close row) pc) pc) as Hdiv.
  pose proof (change_percent_of_zero (fsub (Close row) pc) pc) as Hzero.
  destruct (AlphaVantageHybrid.change_percent_of _ _) as [cp divs].
  simpl in *. split; [exact Hdiv|].
  intros q pc' [= <-] Hpc Hz.
  simplify_map_eq. specialize (Hzero Hz). by simplify_eq.
Qed.

End YahooQuoteArithmetic.

(** C10 on a ticker whose previous close is the integer 0. *)
Example yahoo_quote_zero_previous_close :
  ∃ q, AlphaVantageHybrid.yahoo_quote_body Samples.yf_zero_close 0 "PENNY"
       = (Some (Some q), [])
       ∧ q !! "change_percent" = Some (PFloat (Fin 0)).
Proof. eexists. split; [reflexivity|]. by simplify_map_eq. Qed.

(** [HybridDataService.get_stock_quote] on 'AAPL' with both providers
    answering: Yahoo Finance is asked first, Alpha Vantage second, and the
    merged quote has no 'source' entry but lists both providers. *)
Example hybrid_data_quote_asks_yahoo_first :
  ∃ q st',
    run (HybridDataService.get_stock_quote Samples.yf_up Samples.av_up true
           0 "AAPL")
        (AlphaVantageService.State true None None [])
    = (Some q, st')
    ∧ AlphaVantageService.calls st'
      = [YahooCall "AAPL"; AlphaVantageCall "AAPL"]
    ∧ q !! "source" = None
    ∧ q !! "data_sources"
      = Some (PList [PStr "Yahoo Finance"; PStr "Alpha Vantage"]).
Proof.
  eexists _, _. split; [reflexivity|].
  split; [reflexivity|].
  split; by simplify_map_eq.
Qed.

(* ===================================================================== *)
(** ** The Alpha Vantage rate-limit cooldown *)
(* ===================================================================== *)

Section RateLimit.

Import AlphaVantageService.

Context (yf : string → yf_ticker).
Context (ts_get_quote_endpoint : string → av_response).

Lemma add_calls_nil st : add_calls st [] = st.
Proof. destruct st; unfold add_calls; simpl. by rewrite app_nil_r. Qed.

Lemma fallback_result_source now symbol q :
  fallback_result yf now symbol = Some q →
  q !! "source" = Some (PStr "Yahoo Finance (Alpha Vantage Fallback)").
Proof.
  unfold fallback_result, fallback_quote_body.
  destruct (info (yf symbol)) as [i|]; [|discriminate].
  destruct (negb (dict_truthy i)); [discriminate|].
  destruct (history (yf symbol) "1d") as [h|]; [|discriminate].
  destruct (iloc_last h) as [row|]; [|discriminate].
  destruct (as_number _) as [pc|]; [|discriminate].
  intros [= <-]. by simplify_map_eq.
Qed.

Lemma get_fallback_quote_run now symbol st :
  _get_fallback_quote yf now symbol st
  = (fallback_result yf now symbol, add_calls st [YahooCall symbol]).
Proof. reflexivity. Qed.

(** A candidate without a quote, or with an error that is not about the
    rate limit, is logged and the loop goes on. *)
Lemma try_symbols_moves_on now symbol s rest st :
  moves_on (ts_get_quote_endpoint s) = true →
  try_symbols yf ts_get_quote_endpoint now symbol (s :: rest) st
  = try_symbols yf ts_get_quote_endpoint now symbol rest
      (add_calls st [AlphaVantageCall s]).
Proof.
  intros Hs. cbn [try_symbols]. unfold mbind, St_bind at 1. cbn [log_call].
  change (State (enabled st) (rate_limited st) (rate_limit_reset_time st)
            (calls st ++ [AlphaVantageCall s]))
    with (add_calls st [AlphaVantageCall s]).
  destruct (ts_get_quote_endpoint s) as [msg| |[|row rows]];
    cbn [moves_on] in Hs; try done.
  - apply negb_true_iff in Hs. by rewrite Hs.
  - by rewrite Hs.
Qed.

(** The loop, up to and including the candidate that hits the limit. *)
Lemma try_symbols_rate_limited now symbol pre try_symbol post error_msg st :
  forallb (λ s, moves_on (ts_get_quote_endpoint s)) pre = true →
  ts_get_quote_endpoint try_symbol = AvRaises error_msg →
  is_rate_limit_error error_msg = true →
  try_symbols yf ts_get_quote_endpoint now symbol
    (pre ++ try_symbol :: post) st
  = (fallback_result yf now symbol,
     State (enabled st) (Some true) (Some (now + hours 24))
           (calls st ++ map AlphaVantageCall (pre ++ [try_symbol])
                     ++ [YahooCall symbol])).
Proof.
  intros Hpre Hraise Hlimit. revert st Hpre.
  induction pre as [|s pre IH]; intros st Hpre.
  - simpl. unfold mbind, St_bind; simpl. rewrite Hraise, Hlimit. simpl.
    rewrite get_fallback_quote_run. unfold add_calls; simpl.
    by rewrite <- app_assoc.
  - simpl in Hpre. apply andb_prop in Hpre as [Hs Hpre].
    rewrite <- app_comm_cons.
    rewrite (try_symbols_moves_on now symbol s _ st Hs).
    rewrite (IH _ Hpre). simpl. by rewrite <- app_assoc.
Qed.

(** C3. (1) A quote request that is not in cooldown, whose candidates
    before [try_symbol] all fall through and whose Alpha Vantage call for
    [try_symbol] raises a message containing "rate limit" in any letter
    case: the flag is set, the reset time is 24 hours after the request,
    the result is the Yahoo Finance fallback quote (whose source, when
    present, is 'Yahoo Finance (Alpha Vantage Fallback)'), and Yahoo is
    called once after the Alpha Vantage calls.
    (2) Any request on an enabled service whose flag is set and whose
    reset time has not passed makes no Alpha Vantage call: it returns the
    Yahoo Finance fallback quote and leaves the flag and reset time as
    they were. *)
Theorem rate_limit_error_starts_cooldown :
  (∀ now symbol st pre try_symbol post error_msg,
     enabled st = true →
     fst (_is_rate_limited now st) = false →
     _get_fallback_symbols symbol = pre ++ try_symbol :: post →
     forallb (λ s, moves_on (ts_get_quote_endpoint s)) pre = true →
     ts_get_quote_endpoint try_symbol = AvRaises error_msg →
     PyStr.contains "rate limit" (PyStr.lower error_msg) = true →
     let '(result, st') :=
       run (get_stock_quote yf ts_get_quote_endpoint now symbol) st in
     rate_limited st' = Some true
     ∧ rate_limit_reset_time st' = Some (now + hours 24)
     ∧ result = fallback_result yf now symbol
     ∧ (∀ q, result = Some q →
          q !! "source"
          = Some (PStr "Yahoo Finance (Alpha Vantage Fallback)"))
     ∧ calls st' = calls st ++ map AlphaVantageCall (pre ++ [try_symbol])
                            ++ [YahooCall symbol])
  ∧ (∀ now symbol st reset_time,
       enabled st = true →
       rate_limited st = Some true →
       rate_limit_reset_time st = Some reset_time →
       now ≤ reset_time →
       run (get_stock_quote yf ts_get_quote_endpoint now symbol) st
       = (fallback_result yf now symbol, add_calls st [YahooCall symbol])
       ∧ rate_limited (add_calls st [YahooCall symbol]) = Some true
       ∧ rate_limit_reset_time (add_calls st [YahooCall symbol])
         = Some reset_time).
Proof.
  split.
  - intros now symbol st pre try_symbol post error_msg
      Hen Hfree Hsyms Hpre Hraise Hphrase.
    unfold run, get_stock_quote. rewrite Hen. simpl.
    unfold mbind, St_bind.
    destruct (_is_rate_limited now st) as [limited st1] eqn:E.
    simpl in Hfree. subst limited.
    assert (Hlimit : is_rate_limit_error error_msg = true).
    { unfold is_rate_limit_error. by rewrite Hphrase. }
    rewrite Hsyms.
    rewrite (try_symbols_rate_limited now symbol pre try_symbol post
               error_msg st1 Hpre Hraise Hlimit).
    assert (Hcalls : calls st1 = calls st).
    { unfold _is_rate_limited in E.
      destruct (rate_limited st) as [[|]|]; try by inversion E.
      destruct (rate_limit_reset_time st) as [t|]; [|by inversion E].
      destruct (t <? now); by inversion E. }
    simpl. rewrite Hcalls.
    repeat (split; [done|]).
    split; [|done]. apply fallback_result_source.
  - intros now symbol st reset_time Hen Hflag Hreset Hle.
    unfold run, get_stock_quote. rewrite Hen. simpl.
    unfold mbind, St_bind, _is_rate_limited.
    rewrite Hflag, Hreset.
    destruct (reset_time <? now) eqn:E; [apply Z.ltb_lt in E; lia|].
    rewrite get_fallback_quote_run. simpl. done.
Qed.

End RateLimit.

(** C3 on 'AAPL': the first request at time 0 meets the quota message, a
    second request one second later goes straight to Yahoo Finance. *)
Lemma rate_limit_error_starts_cooldown_witness :
  (let '(result, st') :=
     run (AlphaVantageService.get_stock_quote Samples.yf_up Samples.av_limited
            0 "AAPL")
         (AlphaVantageService.State true None None []) in
   AlphaVantageService.rate_limited st' = Some true
   ∧ AlphaVantageService.rate_limit_reset_time st' = Some (hours 24)
   ∧ AlphaVantageService.calls st'
     = [AlphaVantageCall "AAPL"; YahooCall "AAPL"])
  ∧ run (AlphaVantageService.get_stock_quote Samples.yf_up Samples.av_limited
           1000000 "AAPL")
        (AlphaVantageService.State true (Some true) (Some (hours 24))
           [AlphaVantageCall "AAPL"; YahooCall "AAPL"])
    = (AlphaVantageService.fallback_result Samples.yf_up 1000000 "AAPL",
       AlphaVantageService.State true (Some true) (Some (hours 24))
         [AlphaVantageCall "AAPL"; YahooCall "AAPL"; YahooCall "AAPL"]).
Proof.
  destruct (rate_limit_error_starts_cooldown Samples.yf_up Samples.av_limited)
    as [Hfirst Hnext].
  split.
  - pose proof (Hfirst 0 "AAPL" (AlphaVantageService.State true None None [])
                  [] "AAPL" [] _
                  eq_refl eq_refl eq_refl eq_refl eq_refl eq_refl) as H.
    destruct (run _ _) as [result st'].
    destruct H as (Hflag & Hreset & _ & _ & Hcalls).
    split; [exact Hflag|]. split; [exact Hreset|]. exact Hcalls.
  - refine (proj1 (Hnext 1000000 "AAPL"
                     (AlphaVantageService.State true (Some true)
                        (Some (hours 24))
                        [AlphaVantageCall "AAPL"; YahooCall "AAPL"])
                     (hours 24) eq_refl eq_refl eq_refl _)).
    vm_compute. discriminate.
Defined.

(* ===================================================================== *)
(** ** Fallback candidates *)
(* ===================================================================== *)

Section PlainTickers.

Lemma length_append (a b : string) :
  String.length (a +:+ b) = (String.length a + String.length b)%nat.
Proof. induction a as [|c a IH]; simpl; [done|]. by rewrite IH. Qed.

Lemma drop_append (a b : string) : PyStr.drop (String.length a) (a +:+ b) = b.
Proof. induction a as [|c a IH]; simpl; [by destruct b|]. exact IH. Qed.

Lemma drop_append_more (a b : string) (k : nat) :
  PyStr.drop (String.length a + k) (a +:+ b) = PyStr.drop k b.
Proof. induction a as [|c a IH]; simpl; [done|]. exact IH. Qed.

Lemma take_append (a b : string) : PyStr.take (String.length a) (a +:+ b) = a.
Proof. induction a as [|c a IH]; simpl; [by destruct b|]. by rewrite IH. Qed.

Lemma append_empty_r (a : string) : a +:+ "" = a.
Proof.
  induction a as [|c a IH]; [done|].
  change (String c a +:+ "") with (String c (a +:+ "")). by rewrite IH.
Qed.

Lemma endswith_append (a suffix : string) :
  PyStr.endswith (a +:+ suffix) suffix = true.
Proof.
  unfold PyStr.endswith. rewrite length_append.
  replace (String.length a + String.length suffix - String.length suffix)%nat
    with (String.length a) by lia.
  rewrite drop_append, String.eqb_refl, andb_true_r.
  apply Nat.leb_le. lia.
Qed.

Lemma replace_dot_free (old : string) (a rest : string) :
  Documented.dot_free a = true →
  PyStr.replace_from (String "." old) "" 0 (a +:+ rest)
  = a +:+ PyStr.replace_from (String "." old) "" 0 rest.
Proof.
  intros Ha. induction a as [|x a IH]; [done|].
  cbn [Documented.dot_free] in Ha. apply andb_prop in Ha as [Hx Ha].
  apply negb_true_iff in Hx.
  change (String x a +:+ rest) with (String x (a +:+ rest)).
  cbn [PyStr.replace_from PyStr.startswith].
  rewrite Hx.
  by rewrite (IH Ha).
Qed.

Lemma mapping_values_truthy symbol us_symbol :
  SymbolMapping.get_us_symbol symbol = Some us_symbol →
  PyStr.truthy us_symbol = true.
Proof.
  unfold SymbolMapping.get_us_symbol, SymbolMapping.indian_to_us_mapping.
  intros H. apply elem_of_list_to_map_2 in H.
  repeat (apply elem_of_cons in H as [H|H]; [by inversion H|]).
  by apply elem_of_nil in H.
Qed.

(** On a ticker without a dot followed by '.NS' or '.BSE' the code and
    the documented list agree. *)
Lemma fallback_symbols_agree_on_plain_tickers (bare suffix : string) :
  suffix = ".NS" ∨ suffix = ".BSE" →
  Documented.dot_free bare = true →
  AlphaVantageService._get_fallback_symbols (bare +:+ suffix)
  = Documented.fallback_candidates (bare +:+ suffix).
Proof.
  intros Hsuffix Hbare.
  assert (Hbase : SymbolMapping.base_symbol (bare +:+ suffix) = bare).
  { unfold SymbolMapping.base_symbol, PyStr.replace.
    destruct Hsuffix as [-> | ->].
    - rewrite (replace_dot_free "NS" bare ".NS" Hbare).
      change (PyStr.replace_from ".NS" "" 0 ".NS") with "".
      rewrite (replace_dot_free "BSE" bare "" Hbare).
      change (PyStr.replace_from ".BSE" "" 0 "") with "".
      apply append_empty_r.
    - rewrite (replace_dot_free "NS" bare ".BSE" Hbare).
      change (PyStr.replace_from ".NS" "" 0 ".BSE") with ".BSE".
      rewrite (replace_dot_free "BSE" bare ".BSE" Hbare).
      change (PyStr.replace_from ".BSE" "" 0 ".BSE") with "".
      apply append_empty_r. }
  assert (Hstrip : Documented.strip_exchange_suffix (bare +:+ suffix) = bare).
  { unfold Documented.strip_exchange_suffix.
    destruct Hsuffix as [-> | ->].
    - rewrite endswith_append, length_append.
      replace (String.length bare + String.length ".NS" - 3)%nat
        with (String.length bare) by (simpl; lia).
      apply take_append.
    - assert (PyStr.endswith (bare +:+ ".BSE") ".NS" = false) as ->.
      { unfold PyStr.endswith. rewrite length_append.
        replace (String.length bare + String.length ".BSE"
                 - String.length ".NS")%nat
          with (String.length bare + 1)%nat by (simpl; lia).
        rewrite drop_append_more. by rewrite andb_false_r. }
      rewrite endswith_append, length_append.
      replace (String.length bare + String.length ".BSE" - 4)%nat
        with (String.length bare) by (simpl; lia).
      apply take_append. }
  assert (Hindian : SymbolMapping.is_indian_symbol (bare +:+ suffix) = true).
  { unfold SymbolMapping.is_indian_symbol.
    destruct Hsuffix as [-> | ->]; rewrite endswith_append;
      [done|by rewrite orb_true_r]. }
  unfold AlphaVantageService._get_fallback_symbols,
    Documented.fallback_candidates,
    SymbolMapping.get_alpha_vantage_fallback_symbols.
  rewrite Hindian, Hbase, Hstrip.
  destruct (SymbolMapping.get_us_symbol (bare +:+ suffix)) as [us|] eqn:E;
    [|done].
  by rewrite (mapping_values_truthy _ _ E).
Qed.

End PlainTickers.

(** C8 at 'AB.NSX.NS'.  The symbol ends in '.NS' and has no mapping
    entry.  The bare ticker is 'AB.NSX', but [replace] also removes the
    inner '.NS', so the candidates start from 'ABX'. *)
Theorem fallback_symbols_strip_inner_suffix :
  SymbolMapping.is_indian_symbol "AB.NSX.NS" = true
  ∧ AlphaVantageService._get_fallback_symbols "AB.NSX.NS"
    = ["ABX"; "ABX.BSE"; "ABX.NS"]
  ∧ Documented.fallback_candidates "AB.NSX.NS"
    = ["AB.NSX"; "AB.NSX.BSE"; "AB.NSX.NS"]
  ∧ AlphaVantageService._get_fallback_symbols "AB.NSX.NS"
    ≠ Documented.fallback_candidates "AB.NSX.NS".
Proof.
  split; [reflexivity|].
  split; [vm_compute; reflexivity|].
  split; [vm_compute; reflexivity|].
  vm_compute. discriminate.
Qed.

(* ===================================================================== *)
(** ** Angel One: every data operation sits behind the login *)
(* ===================================================================== *)

Section AngelOneLogin.

Import AngelOneService.

Context (server : Z → request → response).
Context (py : text_conversions).

Lemma add_requests_nil st : add_requests st [] = st.
Proof. destruct st; unfold add_requests; simpl. by rewrite app_nil_r. Qed.

Lemma add_requests_app st rs rs' :
  add_requests (add_requests st rs) rs' = add_requests st (rs ++ rs').
Proof. unfold add_requests; simpl. by rewrite app_assoc. Qed.

Lemma authenticate_add_requests now st rs :
  fst (_authenticate server now (add_requests st rs))
  = fst (_authenticate server now st).
Proof.
  unfold _authenticate, token_valid. simpl.
  destruct (enabled st); simpl; [|done].
  destruct (py_truthy (auth_token st) && _); simpl; [done|].
  destruct (server now _) as [|data]; simpl; [done|].
  destruct (body_ok data); [|done].
  destruct (dict_get data "data" PNone); try done.
  by destruct (d !! "jwtToken").
Qed.

(** A failed authentication sends at most the login request and leaves
    the session attributes alone. *)
Lemma authenticate_failure now st :
  fst (_authenticate server now st) = false →
  ∃ rs, snd (_authenticate server now st) = add_requests st rs
        ∧ forallb is_login rs = true.
Proof.
  unfold _authenticate.
  destruct (enabled st); simpl;
    [|intros _; exists []; by rewrite add_requests_nil].
  destruct (token_valid now st); simpl; [discriminate|].
  intros H. exists [login_request st]. split; [|done].
  destruct (server now _) as [|data]; simpl in *; [done|].
  destruct (body_ok data); [|done].
  destruct (dict_get data "data" PNone); try done.
  by destruct (d !! "jwtToken").
Qed.

Lemma perform_guarded now op st :
  ∃ format,
    perform server py now op st
    = guarded server now (fetch server now (data_request now op) format) st.
Proof. destruct op; eexists; reflexivity. Qed.

Lemma perform_unauthenticated now op st :
  fst (_authenticate server now st) = false →
  perform server py now op st = (None, snd (_authenticate server now st)).
Proof.
  intros H. destruct (perform_guarded now op st) as [format ->].
  unfold guarded, mbind, St_bind.
  destruct (_authenticate server now st) as [ok st1]. simpl in H. by subst.
Qed.

Lemma perform_all_unauthenticated ops : ∀ st,
  Forall (λ step, fst (_authenticate server step.1 st) = false) ops →
  ∃ rs, perform_all server py ops st
        = (map (λ _, None) ops, add_requests st rs)
        ∧ forallb is_login rs = true.
Proof.
  induction ops as [|[now op] ops IH]; intros st Hall.
  - exists []. by rewrite add_requests_nil.
  - apply Forall_cons in Hall as [Hnow Hall]. simpl in Hnow.
    destruct (authenticate_failure now st Hnow) as (rs & Hst & Hrs).
    destruct (IH (add_requests st rs)) as (rs' & Hrest & Hrs').
    { eapply Forall_impl; [exact Hall|]. intros step Hstep. simpl.
      by rewrite authenticate_add_requests. }
    exists (rs ++ rs'). split.
    + simpl. unfold mbind, St_bind at 1.
      rewrite (perform_unauthenticated now op st Hnow), Hst.
      unfold mbind, St_bind. rewrite Hrest. simpl.
      by rewrite add_requests_app.
    + rewrite forallb_app. by rewrite Hrs, Hrs'.
Qed.

(** C9. For each of the four data operations:
    (1) when the authentication step fails, the operation returns [None]
        and sends no data request (at most the login request goes out);
    (2) on an enabled service without a valid unexpired token the first
        request sent is the credential login, whatever its outcome; when
        the server grants a token the data request follows and the token
        expiry becomes 23 hours after the call;
    (3) with a valid unexpired token no login is sent, only the data
        request;
    (4) over any run of operations in which every authentication fails,
        every result is [None], no data request is sent, and the token
        attributes stay as they were, so the next call attempts the login
        again. *)
Theorem angel_one_operations_require_login :
  (∀ now op st,
     fst (_authenticate server now st) = false →
     ∃ rs, perform server py now op st = (None, add_requests st rs)
           ∧ forallb is_login rs = true)
  ∧ (∀ now op st,
       enabled st = true →
       token_valid now st = false →
       ∃ rest, requests (snd (perform server py now op st))
               = requests st ++ login_request st :: rest)
  ∧ (∀ now op st token,
       enabled st = true →
       token_valid now st = false →
       grants server now st token →
       let st' := snd (perform server py now op st) in
       requests st' = requests st ++ [login_request st; data_request now op]
       ∧ auth_token st' = token
       ∧ token_expiry st' = Some (now + hours 23))
  ∧ (∀ now op st,
       enabled st = true →
       token_valid now st = true →
       let st' := snd (perform server py now op st) in
       requests st' = requests st ++ [data_request now op]
       ∧ auth_token st' = auth_token st
       ∧ token_expiry st' = token_expiry st)
  ∧ (∀ ops st,
       Forall (λ step, fst (_authenticate server step.1 st) = false) ops →
       ∃ rs, perform_all server py ops st
             = (map (λ _, None) ops, add_requests st rs)
             ∧ forallb is_login rs = true).
Proof.
  split; [|split; [|split; [|split]]].
  - intros now op st Hfail.
    rewrite (perform_unauthenticated now op st Hfail).
    destruct (authenticate_failure now st Hfail) as (rs & -> & Hrs). eauto.
  - intros now op st Hen Hinvalid.
    destruct (perform_guarded now op st) as [format ->].
    unfold guarded, mbind, St_bind, _authenticate.
    rewrite Hen, Hinvalid. simpl. fold (login_request st).
    destruct (server now (login_request st)) as [|data]; simpl;
      [by exists []|].
    destruct (body_ok data); simpl; [|by exists []].
    destruct (dict_get data "data" PNone); simpl; try by exists [].
    destruct (d !! "jwtToken"); simpl; [|by exists []].
    exists [data_request now op]. unfold fetch. simpl.
    destruct (server now (data_request now op)) as [|body]; simpl;
      [|destruct (body_ok body); simpl];
      by rewrite <- app_assoc.
  - intros now op st token Hen Hinvalid (data & d & Hresp & Hok & Hdata & Htok).
    destruct (perform_guarded now op st) as [format ->].
    unfold guarded, mbind, St_bind, _authenticate.
    rewrite Hen, Hinvalid. simpl.
    unfold login_request in Hresp. rewrite Hresp, Hok, Hdata, Htok.
    unfold fetch. simpl.
    destruct (server now (data_request now op)) as [|body]; simpl;
      [|destruct (body_ok body); simpl];
      by rewrite <- app_assoc.
  - intros now op st Hen Hvalid.
    destruct (perform_guarded now op st) as [format ->].
    unfold guarded, mbind, St_bind, _authenticate.
    rewrite Hen, Hvalid. simpl. unfold fetch.
    destruct (server now (data_request now op)) as [|body]; simpl;
      [|destruct (body_ok body); simpl]; done.
  - apply perform_all_unauthenticated.
Qed.

End AngelOneLogin.

(** C9 on the sample server: a market-status call at time 0 fails to log
    in; a quote call at time 100 logs in first; a call at time 200 with a
    live token sends no login; two calls before time 100 both give
    [None]. *)
Lemma angel_one_operations_require_login_witness :
  (∃ rs, AngelOneService.perform AngelSamples.server TextSamples.plain_digits 0
           AngelOneService.GetMarketStatus AngelSamples.fresh
         = (None, AngelOneService.add_requests AngelSamples.fresh rs)
         ∧ forallb AngelOneService.is_login rs = true)
  ∧ (let st' := snd (AngelOneService.perform AngelSamples.server TextSamples.plain_digits 100
                       (AngelOneService.GetStockQuote "TCS.NS")
                       AngelSamples.fresh) in
     AngelOneService.requests st'
     = [AngelOneService.LoginPost "C123" "secret" "0000";
        AngelOneService.QuotePost ["TCS"] []]
     ∧ AngelOneService.auth_token st' = PStr "jwt"
     ∧ AngelOneService.token_expiry st' = Some (100 + hours 23))
  ∧ (let st' := snd (AngelOneService.perform AngelSamples.server TextSamples.plain_digits 200
                       AngelOneService.GetIndicesData
                       AngelSamples.signed_in) in
     AngelOneService.requests st'
     = [AngelOneService.QuotePost ["NIFTY 50"; "NIFTY BANK"; "NIFTY IT"]
          ["SENSEX"]]
     ∧ AngelOneService.auth_token st' = PStr "jwt"
     ∧ AngelOneService.token_expiry st' = Some 1000)
  ∧ (∃ rs, AngelOneService.perform_all AngelSamples.server TextSamples.plain_digits
             [(0, AngelOneService.GetMarketStatus);
              (1, AngelOneService.GetIndicesData)] AngelSamples.fresh
           = ([None; None], AngelOneService.add_requests AngelSamples.fresh rs)
           ∧ forallb AngelOneService.is_login rs = true).
Proof.
  destruct (angel_one_operations_require_login AngelSamples.server
              TextSamples.plain_digits)
    as (Hfail & _ & Hlogin & Hvalid & Hrun).
  split; [|split; [|split]].
  - exact (Hfail 0 AngelOneService.GetMarketStatus AngelSamples.fresh eq_refl).
  - apply (Hlogin 100 (AngelOneService.GetStockQuote "TCS.NS")
             AngelSamples.fresh (PStr "jwt") eq_refl eq_refl).
    eexists _, _. repeat split; reflexivity.
  - exact (Hvalid 200 AngelOneService.GetIndicesData AngelSamples.signed_in
             eq_refl eq_refl).
  - apply (Hrun [(0, AngelOneService.GetMarketStatus);
                 (1, AngelOneService.GetIndicesData)] AngelSamples.fresh).
    repeat constructor.
Defined.

(* ===================================================================== *)
(** ** The response cache *)
(* ===================================================================== *)

Section CacheLaws.

Context {V : Type}.

(** C5. After [cache_data key value ttl] at time [now] with a positive
    [ttl], [get_cached_data key] at the same time returns the value; at
    any time past the stored expiry it returns absent; and in both cases
    the read leaves the store as it was, the expired entry included. *)
Theorem cache_put_get_then_expire (store : gmap string (V * Z))
  (key : string) (value : V) (ttl now : Z) :
  0 < ttl →
  let store' := snd (run (Cache.cache_data key value ttl now) store) in
  run (Cache.get_cached_data key now) store' = (Some value, store')
  ∧ store' !! key = Some (value, now + minutes ttl)
  ∧ ∀ later, now + minutes ttl < later →
      run (Cache.get_cached_data key later) store' = (None, store').
Proof.
  intros Httl. unfold run, Cache.cache_data, Cache.get_cached_data, minutes.
  simpl. rewrite lookup_insert_eq.
  split; [|split; [done|]].
  - destruct (now + ttl * 60 * 1000000 <? now) eqn:E; [|done].
    apply Z.ltb_lt in E. lia.
  - intros later Hlater.
    destruct (now + ttl * 60 * 1000000 <? later) eqn:E; [done|].
    apply Z.ltb_ge in E. lia.
Qed.

End CacheLaws.

(** C5 with a one-minute entry written at time 0 and read back at once
    and after 61 seconds. *)
Lemma cache_put_get_then_expire_witness :
  let store' :=
    snd (run (Cache.cache_data "stock_AAPL_6mo_1d" 42%nat 1 0) ∅) in
  run (Cache.get_cached_data "stock_AAPL_6mo_1d" 0) store'
  = (Some 42%nat, store')
  ∧ run (Cache.get_cached_data "stock_AAPL_6mo_1d" 61000000) store'
    = (None, store').
Proof.
  pose proof (cache_put_get_then_expire (V := nat) ∅ "stock_AAPL_6mo_1d"
                42%nat 1 0 ltac:(lia)) as H.
  destruct H as (Hnow & _ & Hlater).
  split; [exact Hnow|]. apply Hlater. reflexivity.
Defined.

(* ===================================================================== *)
(** ** Indicators: SMA, RSI, EMA *)
(* ===================================================================== *)

Section Indicators.

Import Rational.

Local Open Scope Q_scope.

Lemma observations_fin (l : list Q) : Pandas.observations (Fin <$> l) = l.
Proof.
  unfold Pandas.observations.
  induction l as [|q l IH]; [done|]. cbn. f_equal. exact IH.
Qed.

Lemma observations_length (w : list fval) :
  (length (Pandas.observations w) ≤ length w)%nat.
Proof.
  unfold Pandas.observations.
  induction w as [|x w IH]; [done|].
  destruct x; cbn in *; lia.
Qed.

Lemma window_mean_fin (n : nat) (l : list Q) :
  length l = n → (1 ≤ n)%nat →
  Pandas.window_mean n (Fin <$> l) = Fin (Qmean l).
Proof.
  intros Hlen Hn. unfold Pandas.window_mean.
  rewrite observations_fin, Hlen.
  rewrite Nat.leb_refl. simpl.
  destruct n; [lia|]. done.
Qed.

Lemma window_mean_short (n : nat) (w : list fval) :
  (length w < n)%nat → Pandas.window_mean n w = NaN.
Proof.
  intros Hlen. unfold Pandas.window_mean.
  pose proof (observations_length w) as Hobs.
  destruct (n <=? length (Pandas.observations w))%nat eqn:E; [|done].
  apply Nat.leb_le in E. lia.
Qed.

Lemma rolling_mean_length n s : length (Pandas.rolling_mean n s) = length s.
Proof. unfold Pandas.rolling_mean. by rewrite length_fmap, length_seq. Qed.

Lemma rolling_mean_lookup n s i :
  (i < length s)%nat →
  Pandas.rolling_mean n s !! i
  = Some (Pandas.window_mean n (Pandas.window n i s)).
Proof.
  intros Hi. unfold Pandas.rolling_mean.
  rewrite list_lookup_fmap, lookup_seq_lt; done.
Qed.

Lemma window_trailing n (s : list fval) :
  (1 ≤ length s)%nat →
  Pandas.window n (length s - 1) s = drop (length s - n) s.
Proof.
  intros Hs. unfold Pandas.window.
  replace (length s - 1 + 1)%nat with (length s) by lia.
  by rewrite firstn_all.
Qed.

Lemma rolling_mean_last n (l : list Q) :
  (1 ≤ n ≤ length l)%nat →
  iloc_last (Pandas.rolling_mean n (Fin <$> l))
  = Some (Fin (Qmean (drop (length l - n) l))).
Proof.
  intros [Hn Hlen]. unfold iloc_last.
  rewrite last_lookup, rolling_mean_length, length_fmap.
  replace (Nat.pred (length l)) with (length l - 1)%nat by lia.
  rewrite rolling_mean_lookup by (rewrite length_fmap; lia).
  pose proof (window_trailing n (Fin <$> l)) as Hw.
  rewrite length_fmap in Hw. rewrite Hw by lia.
  rewrite <- fmap_drop.
  rewrite (window_mean_fin n); [done| |done].
  rewrite length_drop. lia.
Qed.

(** C6. For a series of at least [n] closes ([n] at least 1), the SMA
    entry is the arithmetic mean of the final [n] closes; the rolling
    series is NaN (absent) at each of its first [n - 1] positions, and
    from position [n - 1] on it is the mean of the [n] closes ending
    there. *)
Theorem sma_is_trailing_mean (close : list Q) (n : nat) :
  (1 ≤ n ≤ length close)%nat →
  HybridDataService.sma (Z.of_nat n) (Fin <$> close)
  = Some (Fin (Qmean (drop (length close - n) close)))
  ∧ (∀ i, (i < n - 1)%nat →
       HybridDataService.sma_series n (Fin <$> close) !! i = Some NaN)
  ∧ (∀ i, (n - 1 ≤ i < length close)%nat →
       HybridDataService.sma_series n (Fin <$> close) !! i
       = Some (Fin (Qmean (drop (i + 1 - n) (take (i + 1) close))))).
Proof.
  intros Hn. split; [|split].
  - unfold HybridDataService.sma, HybridDataService.sma_series.
    destruct (Z.of_nat n <? 0)%Z eqn:E; [apply Z.ltb_lt in E; lia|].
    rewrite Nat2Z.id. by apply rolling_mean_last.
  - intros i Hi. unfold HybridDataService.sma_series.
    rewrite rolling_mean_lookup by (rewrite length_fmap; lia).
    rewrite window_mean_short; [done|].
    unfold Pandas.window. rewrite length_drop, length_take, length_fmap. lia.
  - intros i Hi. unfold HybridDataService.sma_series.
    rewrite rolling_mean_lookup by (rewrite length_fmap; lia).
    unfold Pandas.window. rewrite <- fmap_take, <- fmap_drop.
    rewrite (window_mean_fin n); [done| |lia].
    rewrite length_drop, length_take. lia.
Qed.

Lemma Qsum_nonneg (l : list Q) : Forall (λ q, 0 <= q) l → 0 <= Qsum l.
Proof.
  induction 1 as [|q l Hq _ IH]; simpl; [apply Qle_refl|].
  unfold Qsum in *. simpl. lra.
Qed.

Lemma Qsum_pos (l : list Q) :
  Forall (λ q, 0 <= q) l → Exists (λ q, 0 < q) l → 0 < Qsum l.
Proof.
  intros Hall Hex. induction Hex as [q l Hq|q l _ IH].
  - apply Forall_cons in Hall as [_ Hl]. apply Qsum_nonneg in Hl.
    unfold Qsum in *. simpl. lra.
  - apply Forall_cons in Hall as [Hq Hl]. specialize (IH Hl).
    unfold Qsum in *. simpl. lra.
Qed.

Lemma Qsum_zero (l : list Q) : Forall (λ q, q == 0) l → Qsum l == 0.
Proof.
  induction 1 as [|q l Hq _ IH]; [done|].
  unfold Qsum in *. simpl. lra.
Qed.

Lemma Qmean_pos (l : list Q) : 0 < Qsum l → l ≠ [] → 0 < Qmean l.
Proof.
  intros Hsum Hne. unfold Qmean.
  apply Qlt_shift_div_l; [|lra].
  destruct l; [done|]. simpl length.
  change 0 with (inject_Z 0). rewrite <- Zlt_Qlt. lia.
Qed.

Lemma Qmean_zero (l : list Q) : Qsum l == 0 → Qmean l == 0.
Proof. intros H. unfold Qmean, Qdiv. rewrite H. ring. Qed.

Lemma Qlt_bool_true a b : a < b → Qlt_bool a b = true.
Proof.
  intros H. unfold Qlt_bool. apply negb_true_iff.
  destruct (Qle_bool b a) eqn:E; [|done].
  apply Qle_bool_iff in E. lra.
Qed.

Lemma Qlt_bool_iff a b : Qlt_bool a b = true ↔ a < b.
Proof.
  split; [|apply Qlt_bool_true].
  unfold Qlt_bool. intros H. apply negb_true_iff in H.
  apply Qnot_le_lt. intros Hle. apply Qle_bool_iff in Hle. congruence.
Qed.

Lemma Qis_zero_true a : a == 0 → Qis_zero a = true.
Proof. intros H. by apply Qeq_bool_iff. Qed.

Lemma Qis_zero_false a : 0 < a → Qis_zero a = false.
Proof.
  intros H. unfold Qis_zero. destruct (Qeq_bool a 0) eqn:E; [|done].
  apply Qeq_bool_iff in E. lra.
Qed.

Lemma zip_with_fsub_fin (a b : list Q) :
  zip_with fsub (Fin <$> a) (Fin <$> b)
  = Fin <$> zip_with (λ x y, x + - y) a b.
Proof.
  revert b. induction a as [|x a IH]; intros [|y b]; try done.
  cbn. f_equal. apply IH.
Qed.

Lemma diff_length (s : list Q) :
  length (Pandas.diff (Fin <$> s)) = length s.
Proof.
  destruct s as [|c rest]; [done|].
  change (Pandas.diff (Fin <$> c :: rest))
    with (NaN :: zip_with fsub (Fin <$> rest) (Fin <$> c :: rest)).
  rewrite zip_with_fsub_fin. cbn [length].
  rewrite length_fmap, length_zip_with. cbn [length]. lia.
Qed.

Lemma diff_not_infinite (s : list Q) :
  Forall not_infinite (Pandas.diff (Fin <$> s)).
Proof.
  destruct s as [|c rest]; [constructor|].
  change (Pandas.diff (Fin <$> c :: rest))
    with (NaN :: zip_with fsub (Fin <$> rest) (Fin <$> c :: rest)).
  constructor; [by split|].
  rewrite zip_with_fsub_fin. apply Forall_fmap, Forall_true.
  intros q. by split.
Qed.

Lemma where_gain (T : list fval) :
  Forall not_infinite T →
  Pandas.where_ (λ d, fgt d (Fin 0)) (Fin 0) T = Fin <$> (gain_of <$> T).
Proof.
  unfold Pandas.where_. induction 1 as [|d T [Hp Hn] _ IH]; [done|].
  cbn. f_equal; [|exact IH].
  destruct d; try done. cbn. by destruct (Qlt_bool 0 q).
Qed.

Lemma where_loss (T : list fval) :
  Forall not_infinite T →
  Pandas.neg (Pandas.where_ (λ d, flt d (Fin 0)) (Fin 0) T)
  = Fin <$> (loss_of <$> T).
Proof.
  unfold Pandas.neg, Pandas.where_. induction 1 as [|d T [Hp Hn] _ IH]; [done|].
  cbn. f_equal; [|exact IH].
  destruct d; try done. cbn. by destruct (Qlt_bool q 0).
Qed.

Lemma last_zip_with {A B C} (f : A → B → C) (a : list A) (b : list B) :
  length a = length b →
  last (zip_with f a b)
  = match last a, last b with
    | Some x, Some y => Some (f x y)
    | _, _ => None
    end.
Proof.
  intros Hlen. rewrite !last_lookup, length_zip_with, <- Hlen, Nat.min_id.
  rewrite lookup_zip_with.
  destruct (a !! Nat.pred (length a)) as [x|] eqn:Ea; simpl; [|done].
  rewrite Hlen in *. by destruct (b !! Nat.pred (length b)).
Qed.

Lemma gain_of_nonneg (T : list fval) : Forall (λ q, 0 <= q) (gain_of <$> T).
Proof.
  apply Forall_fmap, Forall_true. intros [q| | |]; simpl; try lra.
  destruct (Qlt_bool 0 q) eqn:E; [|lra].
  apply Qlt_bool_iff in E. lra.
Qed.

Lemma gain_of_pos (T : list fval) :
  Exists (λ d, fgt d (Fin 0) = true) T →
  Forall not_infinite T →
  Exists (λ q, 0 < q) (gain_of <$> T).
Proof.
  intros Hex Hall. rewrite Exists_fmap.
  rewrite Exists_exists in *. destruct Hex as (d & Hin & Hd).
  exists d. split; [done|].
  rewrite Forall_forall in Hall. destruct (Hall d Hin) as [Hp Hn].
  destruct d as [q| | |]; simpl in *; try done.
  rewrite Hd. by apply Qlt_bool_iff.
Qed.

Lemma loss_of_zero (T : list fval) :
  Forall (λ d, flt d (Fin 0) = false) T →
  Forall (λ q, q == 0) (loss_of <$> T).
Proof.
  intros H. apply Forall_fmap. eapply Forall_impl; [exact H|].
  intros [q| | |] Hd; simpl in *; try done.
  unfold flt in Hd. simpl in Hd. rewrite Hd. done.
Qed.

(** RSI over a window with a gain and no loss, for any period. *)
Lemma rsi_without_losses (prices : list Q) (n : nat) :
  (1 ≤ n ≤ length prices)%nat →
  let trailing :=
    drop (length prices - n) (Pandas.diff (Fin <$> prices)) in
  Forall (λ d, flt d (Fin 0) = false) trailing →
  Exists (λ d, fgt d (Fin 0) = true) trailing →
  HybridDataService._calculate_rsi (Fin <$> prices) (Z.of_nat n)
  = Some (Fin 100).
Proof.
  intros Hn trailing Hloss Hgain.
  unfold HybridDataService._calculate_rsi.
  destruct (Z.of_nat n <? 0)%Z eqn:E; [apply Z.ltb_lt in E; lia|].
  rewrite Nat2Z.id.
  pose proof (diff_not_infinite prices) as Hfin.
  pose proof (diff_length prices) as Hlen.
  rewrite (where_gain _ Hfin), (where_loss _ Hfin).
  unfold iloc_last, Pandas.div. rewrite fmap_last.
  rewrite last_zip_with by (by rewrite !rolling_mean_length, !length_fmap).
  pose proof (rolling_mean_last n (gain_of <$> Pandas.diff (Fin <$> prices)))
    as Hg.
  pose proof (rolling_mean_last n (loss_of <$> Pandas.diff (Fin <$> prices)))
    as Hl.
  unfold iloc_last in Hg, Hl.
  rewrite length_fmap, Hlen in Hg, Hl.
  rewrite Hg, Hl by lia. clear Hg Hl.
  rewrite <- !fmap_drop. fold trailing.
  assert (Htrail : trailing ≠ []).
  { intros Heq. rewrite Heq in Hgain. by apply Exists_nil in Hgain. }
  assert (Hfin' : Forall not_infinite trailing) by by apply Forall_drop.
  assert (Hg : 0 < Qmean (gain_of <$> trailing)).
  { apply Qmean_pos.
    - apply Qsum_pos; [apply gain_of_nonneg|by apply gain_of_pos].
    - by destruct trailing. }
  assert (Hl : Qmean (loss_of <$> trailing) == 0).
  { apply Qmean_zero, Qsum_zero. by apply loss_of_zero. }
  simpl. rewrite (Qis_zero_true _ Hl), (Qis_zero_false _ Hg).
  rewrite (Qlt_bool_true _ _ Hg). reflexivity.
Qed.

(** C4, as amended. For a series of at least 14 closes whose trailing
    window of 14 deltas holds no negative delta and at least one positive
    delta, [_calculate_rsi] returns 100 (no exception, no NaN). *)
Theorem rsi_is_100_with_gains_and_no_losses (prices : list Q) :
  (14 ≤ length prices)%nat →
  let trailing :=
    drop (length prices - 14) (Pandas.diff (Fin <$> prices)) in
  Forall (λ d, flt d (Fin 0) = false) trailing →
  Exists (λ d, fgt d (Fin 0) = true) trailing →
  HybridDataService._calculate_rsi (Fin <$> prices) 14 = Some (Fin 100).
Proof.
  intros Hlen trailing Hloss Hgain.
  apply (rsi_without_losses prices 14); [lia|exact Hloss|exact Hgain].
Qed.

Lemma ewm_step_fin beta w W x :
  0 <= beta → 0 < W →
  Pandas.ewm_step beta (Fin w, W) (Fin x)
  = (Fin (fst (ewm_step_q beta (w, W) x)), snd (ewm_step_q beta (w, W) x)).
Proof.
  intros Hb HW. unfold Pandas.ewm_step, ewm_step_q. simpl.
  destruct (negb (Qeq_bool w x)); [|done].
  assert (0 < W * beta + 1) as Hpos by nra.
  unfold Qis_zero. destruct (Qeq_bool (W * beta + 1) 0) eqn:E; [|done].
  apply Qeq_bool_iff in E. lra.
Qed.

Lemma ewm_loop_fin beta rest : ∀ w W,
  0 <= beta → 0 < W →
  Pandas.ewm_loop beta (Fin w, W) (Fin <$> rest)
  = Fin <$> ewm_loop_q beta (w, W) rest.
Proof.
  induction rest as [|x rest IH]; intros w W Hb HW; [done|].
  cbn [fmap list_fmap Pandas.ewm_loop ewm_loop_q].
  rewrite (ewm_step_fin beta w W x Hb HW).
  cbn [fst]. f_equal.
  destruct (ewm_step_q beta (w, W) x) as [w' W'] eqn:E.
  cbn [fst snd]. apply IH; [done|].
  unfold ewm_step_q in E. inversion E. nra.
Qed.

Lemma weighted_from_shift beta k l :
  weighted_from beta (S k) l == beta * weighted_from beta k l.
Proof.
  revert k. induction l as [|x l IH]; intros k; simpl; [ring|].
  rewrite IH. ring.
Qed.

Lemma weighted_sum_cons beta x l :
  weighted_sum beta (x :: l) == x + beta * weighted_sum beta l.
Proof.
  unfold weighted_sum. simpl. rewrite weighted_from_shift. ring.
Qed.

Lemma weights_pos beta n : 0 <= beta → 0 < weighted_sum beta (replicate (S n) 1).
Proof.
  intros Hb. induction n as [|n IH].
  - unfold weighted_sum. simpl. lra.
  - change (replicate (S (S n)) 1) with (1 :: replicate (S n) 1).
    rewrite weighted_sum_cons. nra.
Qed.

(** Loop invariant: [old_wt] is the sum of the weights and
    [weighted * old_wt] the weighted sum of the cells seen so far. *)
Lemma ewm_loop_q_weighted beta rest : ∀ w W seen t y,
  0 <= beta →
  W == weighted_sum beta (replicate (S (length seen - 1)) 1) →
  seen ≠ [] →
  w * W == weighted_sum beta seen →
  ewm_loop_q beta (w, W) rest !! t = Some y →
  y * weighted_sum beta (replicate (S (length seen + t)) 1)
  == weighted_sum beta (reverse (take (S t) rest) ++ seen).
Proof.
  induction rest as [|x rest IH]; intros w W seen t y Hb HW Hne Hw Hy;
    [done|].
  cbn [ewm_loop_q] in Hy.
  destruct (ewm_step_q beta (w, W) x) as [w' W'] eqn:E.
  assert (HWpos : 0 < W).
  { rewrite HW. by apply weights_pos. }
  assert (HW' : W' == weighted_sum beta (replicate (S (length seen)) 1)).
  { unfold ewm_step_q in E. inversion E.
    change (replicate (S (length seen)) 1)
      with (1 :: replicate (length seen) 1).
    rewrite weighted_sum_cons.
    destruct seen as [|s seen]; [done|].
    cbn [length] in *. replace (S (length seen) - 1)%nat with (length seen) in HW by lia.
    rewrite HW. ring. }
  assert (Hw' : w' * W' == weighted_sum beta (x :: seen)).
  { rewrite weighted_sum_cons, <- Hw.
    unfold ewm_step_q in E. inversion E as [[E1 E2]].
    destruct (Qeq_bool w x) eqn:Eq; simpl.
    - apply Qeq_bool_iff in Eq. rewrite Eq. ring.
    - field. nra. }
  destruct t as [|t].
  - cbn in Hy. inversion Hy; subst y.
    cbn [take reverse]. rewrite Nat.add_0_r.
    change (reverse [x] ++ seen) with (x :: seen).
    rewrite <- Hw'. by rewrite HW'.
  - cbn in Hy.
    specialize (IH w' W' (x :: seen) t y Hb).
    cbn [length] in IH.
    replace (S (length seen) - 0)%nat with (S (length seen)) in IH by lia.
    replace (S (length seen) - 1)%nat with (length seen) in IH by lia.
    specialize (IH HW' ltac:(done) Hw' Hy).
    replace (S (length seen + S t)) with (S (S (length seen) + t)) by lia.
    rewrite IH.
    cbn [take]. rewrite reverse_cons, <- app_assoc. done.
Qed.

Lemma alpha_of_span_formula (span : Z) :
  (1 <= span)%Z →
  Pandas.alpha_of_span span == 2 / (inject_Z span + 1)
  ∧ 0 < Pandas.alpha_of_span span <= 1.
Proof.
  intros Hspan. unfold Pandas.alpha_of_span.
  assert (1 <= inject_Z span) as Hq.
  { change 1 with (inject_Z 1). by rewrite <- Zle_Qle. }
  split; [field; repeat split; lra|].
  assert (0 <= (inject_Z span - 1) / 2) as Hc
    by (apply Qle_shift_div_l; lra).
  set (c := (inject_Z span - 1) / 2) in *.
  split.
  - apply Qlt_shift_div_l; lra.
  - apply Qle_shift_div_r; lra.
Qed.

(** C7, as amended. For a non-empty series of closes and a span of at
    least 1, the smoothing factor is [2 / (span + 1)]; the EMA series has
    one value per close; its first value is the first close itself; and
    the value at position [t] is the weighted average of the closes up to
    [t], the close [i] places back weighing [(1 - alpha)^i].  The EMA
    entry of the indicator dictionary is the last of these values. *)
Theorem ema_is_weighted_average_seeded_by_first_close
  (span : Z) (first : Q) (rest : list Q) :
  (1 <= span)%Z →
  let alpha := Pandas.alpha_of_span span in
  let close := first :: rest in
  alpha == 2 / (inject_Z span + 1)
  ∧ ∃ ys : list Q,
      Pandas.ewm_mean span (Fin <$> close) = Some (Fin <$> ys)
      ∧ HybridDataService.ema span (Fin <$> close) = Fin <$> last ys
      ∧ length ys = length close
      ∧ ys !! 0%nat = Some first
      ∧ ∀ t y, ys !! t = Some y →
          y * weighted_sum (1 - alpha) (replicate (S t) 1)
          == weighted_sum (1 - alpha) (reverse (take (S t) close)).
Proof.
  intros Hspan alpha close.
  destruct (alpha_of_span_formula span Hspan) as (Halpha & Hpos & Hle).
  fold alpha in Halpha, Hpos, Hle.
  assert (Hb : 0 <= 1 - alpha) by lra.
  split; [exact Halpha|].
  exists (first :: ewm_loop_q (1 - alpha) (first, 1) rest).
  assert (Hrun : Pandas.ewm_mean span (Fin <$> close)
                 = Some (Fin <$> first :: ewm_loop_q (1 - alpha) (first, 1) rest)).
  { unfold Pandas.ewm_mean.
    destruct (span <? 1)%Z eqn:E; [apply Z.ltb_lt in E; lia|].
    cbn [fmap list_fmap close]. fold alpha.
    rewrite ewm_loop_fin; [done|done|lra]. }
  split; [exact Hrun|].
  split.
  { unfold HybridDataService.ema. rewrite Hrun. cbn [mbind option_bind].
    unfold iloc_last. apply fmap_last. }
  split.
  { cbn [length]. f_equal.
    clear. generalize (first, 1). induction rest as [|x rest IH]; intros acc;
      [done|]. cbn. f_equal. apply IH. }
  split; [done|].
  intros [|t] y Hy.
  - cbn in Hy. inversion Hy; subst y.
    change (reverse (take 1 close)) with [first].
    unfold weighted_sum; simpl. ring.
  - cbn in Hy.
    assert (HW : 1 == weighted_sum (1 - alpha) (replicate (S (length [first] - 1)) 1))
      by (unfold weighted_sum; simpl; ring).
    assert (Hw : first * 1 == weighted_sum (1 - alpha) [first])
      by (unfold weighted_sum; simpl; ring).
    pose proof (ewm_loop_q_weighted (1 - alpha) rest first 1 [first] t y Hb
                  HW ltac:(done) Hw Hy) as Hinv.
    cbn [length] in Hinv.
    replace (S (1 + t)) with (S (S t)) in Hinv by lia.
    rewrite Hinv.
    unfold close. cbn [take]. by rewrite reverse_cons.
Qed.

End Indicators.

(** C6 on the closes 1, 2, 4 with a window of 2. *)
Lemma sma_is_trailing_mean_witness :
  HybridDataService.sma 2 (Fin <$> [1; 2; 4]%Q)
  = Some (Fin (Qmean (drop 1 [1; 2; 4]%Q)))
  ∧ HybridDataService.sma_series 2 (Fin <$> [1; 2; 4]%Q) !! 0%nat = Some NaN.
Proof.
  destruct (sma_is_trailing_mean [1; 2; 4]%Q 2 ltac:(simpl; lia))
    as (Hlast & Hfirst & _).
  split; [exact Hlast|]. apply Hfirst. simpl; lia.
Defined.

(** C4 on fifteen closes rising by one each day. *)
Lemma rsi_is_100_with_gains_and_no_losses_witness :
  HybridDataService._calculate_rsi
    (Fin <$> ((λ n, inject_Z (Z.of_nat n)) <$> seq 1 15)) 14
  = Some (Fin 100).
Proof.
  apply (rsi_is_100_with_gains_and_no_losses
           ((λ n, inject_Z (Z.of_nat n)) <$> seq 1 15)).
  - simpl. lia.
  - cbv. repeat constructor.
  - cbv. left. reflexivity.
Defined.

(** C4 as stated fails on a flat series: fifteen closes of 100 have no
    negative delta in the trailing window, and the RSI is NaN, not 100. *)
Lemma rsi_of_flat_window_is_nan :
  let prices := replicate 15 100%Q in
  let trailing := drop (length prices - 14) (Pandas.diff (Fin <$> prices)) in
  Forall (λ d, flt d (Fin 0) = false) trailing
  ∧ HybridDataService._calculate_rsi (Fin <$> prices) 14 = Some NaN
  ∧ HybridDataService._calculate_rsi (Fin <$> prices) 14 ≠ Some (Fin 100).
Proof.
  split; [cbv; repeat constructor|].
  split; [vm_compute; reflexivity|].
  vm_compute. discriminate.
Qed.

(** C7 on the closes 1, 3 with span 2. *)
Lemma ema_is_weighted_average_seeded_by_first_close_witness :
  ∃ ys : list Q,
    Pandas.ewm_mean 2 (Fin <$> [1; 3]%Q) = Some (Fin <$> ys)
    ∧ ys !! 0%nat = Some 1%Q.
Proof.
  destruct (ema_is_weighted_average_seeded_by_first_close 2 1%Q [3%Q]
              ltac:(lia)) as (_ & ys & Hrun & _ & _ & Hfirst & _).
  exists ys. split; [exact Hrun|exact Hfirst].
Defined.

(** C7 as stated fails: on the closes 1, 3 with span 2 the first EMA value
    is 1, the first close, while the mean of the series is 2. *)
Lemma ema_first_value_is_not_series_mean :
  Pandas.ewm_mean 2 (Fin <$> [1; 3]%Q) = Some [Fin 1; Fin (30 # 12)]
  ∧ Qmean [1; 3]%Q == 2
  ∧ ¬ feq (Fin 1) (Fin (Qmean [1; 3]%Q)).
Proof.
  split; [vm_compute; reflexivity|].
  split; [reflexivity|].
  simpl. intros H. vm_compute in H. discriminate.
Qed.

(* ===================================================================== *)
(** ** Alpha Vantage service: call budget, cooldown expiry, time series *)
(* ===================================================================== *)

(** Each statement below depends on the collaborators it mentions only. *)
Set Default Proof Using "Type".

Section AlphaVantageCalls.

Import AlphaVantageService.

Context (yf : string → yf_ticker).
Context (ts_get_quote_endpoint : string → av_response).
Context (ts_get_daily : string → string → av_frame_response).
Context (ts_get_intraday : string → string → string → av_frame_response).

Lemma fallback_symbols_length symbol :
  (1 ≤ length (_get_fallback_symbols symbol) ≤ 4)%nat.
Proof.
  unfold _get_fallback_symbols,
    SymbolMapping.get_alpha_vantage_fallback_symbols.
  destruct (SymbolMapping.is_indian_symbol symbol); [|simpl; lia].
  destruct (SymbolMapping.get_us_symbol symbol) as [us|]; [|simpl; lia].
  destruct (PyStr.truthy us); simpl; lia.
Qed.

Lemma get_fallback_quote_state now symbol st :
  snd (_get_fallback_quote yf now symbol st) = add_calls st [YahooCall symbol].
Proof. reflexivity. Qed.

(** Shape of the calls made by the candidate loop. *)
Lemma try_symbols_calls now symbol l : ∀ st,
  ∃ tried yahoo,
    calls (snd (try_symbols yf ts_get_quote_endpoint now symbol l st))
    = calls st ++ (AlphaVantageCall <$> tried) ++ yahoo
    ∧ tried `prefix_of` l
    ∧ (yahoo = [] ∨ yahoo = [YahooCall symbol])
    ∧ enabled (snd (try_symbols yf ts_get_quote_endpoint now symbol l st))
      = enabled st.
Proof.
  induction l as [|c l IH]; intros st.
  - exists [], [YahooCall symbol]. simpl.
    repeat split; auto using prefix_nil.
  - cbn [try_symbols]. unfold mbind, St_bind at 1. cbn [log_call].
    set (st1 := State (enabled st) (rate_limited st)
                  (rate_limit_reset_time st) (calls st ++ [AlphaVantageCall c])).
    assert (Hstep : ∀ st2,
      (∃ tried yahoo,
         calls st2 = calls st1 ++ (AlphaVantageCall <$> tried) ++ yahoo
         ∧ tried `prefix_of` l
         ∧ (yahoo = [] ∨ yahoo = [YahooCall symbol])
         ∧ enabled st2 = enabled st1) →
      ∃ tried yahoo,
         calls st2 = calls st ++ (AlphaVantageCall <$> tried) ++ yahoo
         ∧ tried `prefix_of` (c :: l)
         ∧ (yahoo = [] ∨ yahoo = [YahooCall symbol])
         ∧ enabled st2 = enabled st).
    { intros st2 (tried & yahoo & Hc & Hp & Hy & He).
      exists (c :: tried), yahoo. repeat split; auto.
      - rewrite Hc. subst st1. simpl. by rewrite <- app_assoc.
      - by apply prefix_cons. }
    destruct (ts_get_quote_endpoint c) as [msg| |[|row rows]].
    + destruct (is_rate_limit_error msg).
      * apply Hstep. exists [], [YahooCall symbol].
        repeat split; auto using prefix_nil.
      * apply Hstep, IH.
    + apply Hstep, IH.
    + apply Hstep, IH.
    + destruct (quote_frame_empty (row :: rows)); [apply Hstep, IH|].
      apply Hstep. exists [], []. simpl. rewrite app_nil_r.
      repeat split; auto using prefix_nil.
Qed.

Lemma is_rate_limited_calls now st :
  calls (snd (_is_rate_limited now st)) = calls st
  ∧ enabled (snd (_is_rate_limited now st)) = enabled st.
Proof.
  unfold _is_rate_limited.
  destruct (rate_limited st) as [[|]|]; try done.
  destruct (rate_limit_reset_time st) as [t|]; [|done].
  by destruct (t <? now).
Qed.

(** X1. A quote request makes at most four Alpha Vantage calls, all for
    candidates in their order, and at most one Yahoo Finance call, which
    comes last; [enabled] never changes. *)
Theorem quote_request_call_budget (now : Z) (symbol : string) (st : state) :
  let '(result, st') :=
    run (get_stock_quote yf ts_get_quote_endpoint now symbol) st in
  ∃ tried yahoo,
    calls st' = calls st ++ (AlphaVantageCall <$> tried) ++ yahoo
    ∧ tried `prefix_of` _get_fallback_symbols symbol
    ∧ (length tried ≤ 4)%nat
    ∧ (yahoo = [] ∨ yahoo = [YahooCall symbol])
    ∧ enabled st' = enabled st.
Proof.
  unfold run, get_stock_quote.
  destruct (enabled st) eqn:Hen; simpl.
  2:{ exists [], []. rewrite app_nil_r.
      repeat split; auto using prefix_nil; simpl; lia. }
  unfold mbind, St_bind.
  destruct (_is_rate_limited now st) as [limited st1] eqn:E.
  pose proof (is_rate_limited_calls now st) as [Hc He].
  rewrite E in Hc, He. simpl in Hc, He.
  destruct limited.
  - exists [], [YahooCall symbol]. simpl. rewrite Hc, He.
    repeat split; auto using prefix_nil; simpl; lia.
  - destruct (try_symbols_calls now symbol (_get_fallback_symbols symbol) st1)
      as (tried & yahoo & Hcalls & Hp & Hy & Hen').
    destruct (try_symbols _ _ _ _ _ st1) as [r st2]. simpl in *.
    exists tried, yahoo. rewrite Hcalls, Hc, Hen', He.
    repeat split; auto.
    apply prefix_length in Hp.
    pose proof (fallback_symbols_length symbol). lia.
Qed.


Lemma try_symbols_all_move_on now symbol l : ∀ st,
  forallb (λ s, moves_on (ts_get_quote_endpoint s)) l = true →
  try_symbols yf ts_get_quote_endpoint now symbol l st
  = (fallback_result yf now symbol,
     add_calls st ((AlphaVantageCall <$> l) ++ [YahooCall symbol])).
Proof.
  induction l as [|c l IH]; intros st Hall; [done|].
  cbn [forallb] in Hall. apply andb_prop in Hall as [Hc Hall].
  rewrite (try_symbols_moves_on yf ts_get_quote_endpoint now symbol c l st Hc).
  rewrite (IH _ Hall). f_equal.
  unfold add_calls. cbn [calls enabled rate_limited rate_limit_reset_time].
  f_equal. cbn [fmap list_fmap]. by rewrite <- !app_assoc.
Qed.

(** X2. When no candidate yields a quote and none hits the rate limit
    (empty answers, errors without the rate-limit phrases), every
    candidate is tried in order, the Yahoo Finance fallback is returned,
    and the flag and reset time stay as they were. *)
Theorem quote_tries_every_candidate_then_yahoo
  (now : Z) (symbol : string) (st : state) :
  enabled st = true →
  rate_limited st ≠ Some true →
  forallb (λ s, moves_on (ts_get_quote_endpoint s))
          (_get_fallback_symbols symbol) = true →
  run (get_stock_quote yf ts_get_quote_endpoint now symbol) st
  = (fallback_result yf now symbol,
     State true (rate_limited st) (rate_limit_reset_time st)
       (calls st ++ (AlphaVantageCall <$> _get_fallback_symbols symbol)
                 ++ [YahooCall symbol])).
Proof.
  intros Hen Hflag Hall. unfold run, get_stock_quote. rewrite Hen. simpl.
  unfold mbind, St_bind, _is_rate_limited.
  assert (Hst : (match rate_limited st with
                 | Some true =>
                     match rate_limit_reset_time st with
                     | Some reset_time =>
                         if reset_time <? now
                         then (false, State (enabled st) (Some false) None
                                        (calls st))
                         else (true, st)
                     | None => (true, st)
                     end
                 | _ => (false, st)
                 end) = (false, st)).
  { destruct (rate_limited st) as [[|]|]; done. }
  rewrite Hst.
  rewrite (try_symbols_all_move_on now symbol _ st Hall).
  unfold add_calls. by rewrite Hen.
Qed.

Lemma try_symbols_success now symbol pre c post row rows : ∀ st,
  forallb (λ s, moves_on (ts_get_quote_endpoint s)) pre = true →
  ts_get_quote_endpoint c = AvFrame (row :: rows) →
  quote_frame_empty (row :: rows) = false →
  try_symbols yf ts_get_quote_endpoint now symbol (pre ++ c :: post) st
  = (Some (alpha_vantage_quote now symbol c row),
     add_calls st (AlphaVantageCall <$> pre ++ [c])).
Proof.
  induction pre as [|s pre IH]; intros st Hpre Hc Hfull.
  - cbn [app try_symbols]. unfold mbind, St_bind. cbn [log_call].
    by rewrite Hc, Hfull.
  - cbn [forallb] in Hpre. apply andb_prop in Hpre as [Hs Hpre].
    rewrite <- app_comm_cons.
    rewrite (try_symbols_moves_on yf ts_get_quote_endpoint now symbol s _ st
               Hs).
    rewrite (IH _ Hpre Hc Hfull). f_equal.
    unfold add_calls. simpl. by rewrite <- !app_assoc.
Qed.

(** X3. The quote built from the first candidate that answers with a
    frame that is not empty (rows and columns: the code's [data.empty]
    test) keeps the symbol as requested under 'symbol', records the
    candidate under 'alpha_vantage_symbol', overwrites those four keys of
    the first row and keeps every other key; Yahoo Finance is not
    called. *)
Theorem quote_success_keeps_requested_symbol
  (now : Z) (symbol : string) (st : state)
  (pre post : list string) (try_symbol : string) (row : pydict)
  (rows : list pydict) :
  enabled st = true →
  rate_limited st ≠ Some true →
  _get_fallback_symbols symbol = pre ++ try_symbol :: post →
  forallb (λ s, moves_on (ts_get_quote_endpoint s)) pre = true →
  ts_get_quote_endpoint try_symbol = AvFrame (row :: rows) →
  quote_frame_empty (row :: rows) = false →
  ∃ q,
    run (get_stock_quote yf ts_get_quote_endpoint now symbol) st
    = (Some q,
       add_calls st (AlphaVantageCall <$> pre ++ [try_symbol]))
    ∧ q !! "symbol" = Some (PStr symbol)
    ∧ q !! "alpha_vantage_symbol" = Some (PStr try_symbol)
    ∧ q !! "source" = Some (PStr "Alpha Vantage")
    ∧ q !! "last_updated" = Some (PTime now)
    ∧ ∀ key, key ∉ ["symbol"; "alpha_vantage_symbol"; "last_updated";
                     "source"] →
        q !! key = row !! key.
Proof.
  clear ts_get_daily ts_get_intraday.
  intros Hen Hflag Hsyms Hpre Hc Hfull.
  exists (alpha_vantage_quote now symbol try_symbol row).
  split.
  - unfold run, get_stock_quote. rewrite Hen. simpl.
    unfold mbind, St_bind, _is_rate_limited.
    destruct (rate_limited st) as [[|]|]; try done;
      rewrite Hsyms;
      by apply (try_symbols_success now symbol pre try_symbol post row rows).
  - unfold alpha_vantage_quote.
    repeat (split; [by simplify_map_eq|]).
    intros key Hkey.
    rewrite !lookup_insert_ne; [done|..];
      intros <-; apply Hkey; set_solver.
Qed.

Lemma try_symbols_first_call now symbol c rest st :
  ∃ more,
    calls (snd (try_symbols yf ts_get_quote_endpoint now symbol
                  (c :: rest) st))
    = calls st ++ AlphaVantageCall c :: more.
Proof.
  cbn [try_symbols]. unfold mbind, St_bind at 1. cbn [log_call].
  set (st1 := State _ _ _ (calls st ++ [AlphaVantageCall c])).
  assert (Hrest : ∃ more,
    calls (snd (try_symbols yf ts_get_quote_endpoint now symbol rest st1))
    = calls st ++ AlphaVantageCall c :: more).
  { destruct (try_symbols_calls now symbol rest st1)
      as (tried & yahoo & Hcalls & _).
    eexists. rewrite Hcalls. subst st1. simpl. by rewrite <- app_assoc. }
  destruct (ts_get_quote_endpoint c) as [msg| |[|row rows]]; try exact Hrest.
  - destruct (is_rate_limit_error msg); [|exact Hrest].
    exists [YahooCall symbol]. simpl. by rewrite <- app_assoc.
  - destruct (quote_frame_empty (row :: rows)); [exact Hrest|].
    exists []. done.
Qed.

(** X4. Once the reset time has passed, a quote request on a flagged
    service calls Alpha Vantage again, first candidate first; when that
    candidate answers with a frame that is not empty (rows and columns),
    the quote of its first row is returned, the flag is cleared and the
    reset time removed. *)
Theorem cooldown_ends_after_reset_time
  (now reset_time : Z) (symbol try_symbol : string) (rest : list string)
  (st : state) :
  enabled st = true →
  rate_limited st = Some true →
  rate_limit_reset_time st = Some reset_time →
  reset_time < now →
  _get_fallback_symbols symbol = try_symbol :: rest →
  let '(result, st') :=
    run (get_stock_quote yf ts_get_quote_endpoint now symbol) st in
  (∃ more, calls st' = calls st ++ AlphaVantageCall try_symbol :: more)
  ∧ ∀ row rows,
      ts_get_quote_endpoint try_symbol = AvFrame (row :: rows) →
      quote_frame_empty (row :: rows) = false →
      result = Some (alpha_vantage_quote now symbol try_symbol row)
      ∧ st' = State true (Some false) None
                (calls st ++ [AlphaVantageCall try_symbol]).
Proof.
  intros Hen Hflag Hreset Hlt Hsyms.
  unfold run, get_stock_quote. rewrite Hen. simpl.
  unfold mbind, St_bind, _is_rate_limited. rewrite Hflag, Hreset.
  apply Z.ltb_lt in Hlt. rewrite Hlt, Hsyms.
  set (st1 := State (enabled st) (Some false) None (calls st)).
  pose proof (try_symbols_first_call now symbol try_symbol rest st1) as Hfirst.
  pose proof (try_symbols_success now symbol [] try_symbol rest) as Hok.
  destruct (try_symbols _ _ _ _ _ st1) as [result st'] eqn:E.
  split; [exact Hfirst|].
  intros row rows Hrow Hfull.
  specialize (Hok row rows st1 eq_refl Hrow Hfull). cbn [app] in Hok.
  rewrite E in Hok. inversion Hok; subst.
  split; [done|]. unfold add_calls, st1. simpl. by rewrite Hen.
Qed.


Lemma set_columns_shape names df df' :
  set_columns names df = Some df' →
  columns df' = names ∧ rows df' = rows df.
Proof.
  unfold set_columns. destruct (length names =? length (columns df))%nat;
    [|discriminate].
  by intros [= <-].
Qed.

Lemma frame_not_empty_rows df : frame_empty df = false → rows df ≠ [].
Proof. unfold frame_empty. by destruct (rows df). Qed.

Lemma try_daily_shape now outputsize l : ∀ st df,
  fst (try_daily ts_get_daily now outputsize l st) = Some df →
  columns df = ohlcv ∧ index_name df = Some "Date" ∧ rows df ≠ [].
Proof.
  induction l as [|c l IH]; intros st df; [discriminate|].
  cbn [try_daily]. unfold mbind, St_bind at 1. cbn [log_call].
  destruct (ts_get_daily c outputsize) as [msg| |data]; try apply IH.
  - destruct (mentions_limit msg); [discriminate|apply IH].
  - destruct (frame_empty data) eqn:Hempty; [apply IH|].
    destruct (set_columns ohlcv data) as [data'|] eqn:Hset; [|apply IH].
    intros [= <-]. apply set_columns_shape in Hset as [Hcols Hrows].
    simpl. rewrite Hcols, Hrows.
    split; [done|]. split; [done|]. by apply frame_not_empty_rows.
Qed.

Lemma try_daily_first_call now outputsize c rest st :
  ∃ more,
    calls (snd (try_daily ts_get_daily now outputsize (c :: rest) st))
    = calls st ++ AlphaVantageCall c :: more.
Proof.
  assert (Hmono : ∀ l st1, ∃ more,
    calls (snd (try_daily ts_get_daily now outputsize l st1))
    = calls st1 ++ more).
  { induction l as [|d l IH]; intros st1; [exists []; simpl; by rewrite app_nil_r|].
    cbn [try_daily]. unfold mbind, St_bind at 1. cbn [log_call].
    set (st2 := State _ _ _ (calls st1 ++ [AlphaVantageCall d])).
    assert (Hrest : ∃ more,
      calls (snd (try_daily ts_get_daily now outputsize l st2))
      = calls st1 ++ more).
    { destruct (IH st2) as [more Hmore]. eexists. rewrite Hmore.
      subst st2. simpl. by rewrite <- app_assoc. }
    destruct (ts_get_daily d outputsize) as [msg| |data]; try exact Hrest.
    - destruct (mentions_limit msg); [|exact Hrest]. by eexists.
    - destruct (frame_empty data); [exact Hrest|].
      destruct (set_columns ohlcv data); [by eexists|exact Hrest]. }
  cbn [try_daily]. unfold mbind, St_bind at 1. cbn [log_call].
  set (st1 := State _ _ _ (calls st ++ [AlphaVantageCall c])).
  assert (Hrest : ∃ more,
    calls (snd (try_daily ts_get_daily now outputsize rest st1))
    = calls st ++ AlphaVantageCall c :: more).
  { destruct (Hmono rest st1) as [more Hmore]. eexists. rewrite Hmore.
    subst st1. simpl. by rewrite <- app_assoc. }
  destruct (ts_get_daily c outputsize) as [msg| |data]; try exact Hrest.
  - destruct (mentions_limit msg); [|exact Hrest]. by exists [].
  - destruct (frame_empty data); [exact Hrest|].
    destruct (set_columns ohlcv data); [by exists []|exact Hrest].
Qed.

Lemma try_daily_rate_limited now outputsize pre c post error_msg : ∀ st,
  forallb (λ s, daily_moves_on (ts_get_daily s outputsize)) pre = true →
  ts_get_daily c outputsize = AvSeriesRaises error_msg →
  mentions_limit error_msg = true →
  try_daily ts_get_daily now outputsize (pre ++ c :: post) st
  = (None,
     State (enabled st) (Some true) (Some (now + hours 24))
           (calls st ++ (AlphaVantageCall <$> pre ++ [c]))).
Proof.
  induction pre as [|s pre IH]; intros st Hpre Hc Hmsg.
  - cbn [app try_daily]. unfold mbind, St_bind. cbn [log_call].
    by rewrite Hc, Hmsg.
  - cbn [forallb] in Hpre. apply andb_prop in Hpre as [Hs Hpre].
    cbn [app try_daily]. unfold mbind, St_bind at 1. cbn [log_call].
    set (st1 := State _ _ _ (calls st ++ [AlphaVantageCall s])).
    assert (Hrest :
      try_daily ts_get_daily now outputsize (pre ++ c :: post) st1
      = (None,
         State (enabled st) (Some true) (Some (now + hours 24))
           (calls st ++ (AlphaVantageCall <$> (s :: pre) ++ [c])))).
    { rewrite (IH st1 Hpre Hc Hmsg). subst st1. simpl.
      by rewrite <- !app_assoc. }
    destruct (ts_get_daily s outputsize) as [msg| |data];
      unfold daily_moves_on in Hs.
    + apply negb_true_iff in Hs. by rewrite Hs.
    + done.
    + apply orb_prop in Hs as [Hs|Hs]; [by rewrite Hs|].
      destruct (frame_empty data); [done|].
      unfold set_columns. apply negb_true_iff in Hs. by rewrite Hs.
Qed.

(** X5. A daily frame, when one is returned, comes from an enabled
    service, has exactly the columns Open, High, Low, Close, Volume, an
    index named 'Date' and at least one row. *)
Theorem daily_data_is_ohlcv_with_rows
  (now : Z) (symbol outputsize : string) (st : state) (df : frame) :
  fst (run (get_daily_data ts_get_daily now symbol outputsize) st) = Some df →
  enabled st = true
  ∧ columns df = ohlcv
  ∧ index_name df = Some "Date"
  ∧ rows df ≠ [].
Proof.
  unfold run, get_daily_data.
  destruct (enabled st); simpl; [|discriminate].
  intros H. split; [done|]. by eapply try_daily_shape.
Qed.

(** X6. [get_daily_data] never consults the cooldown: on an enabled
    service its first call goes to Alpha Vantage whatever the flag says.
    But an error mentioning a rate limit there makes it return [None] and
    starts the cooldown, so that quote requests in the next 24 hours go
    straight to Yahoo Finance. *)
Theorem daily_data_skips_cooldown_check_but_starts_it
  (now : Z) (symbol outputsize : string) (st : state) :
  enabled st = true →
  (∀ try_symbol rest,
     _get_fallback_symbols symbol = try_symbol :: rest →
     ∃ more,
       calls (snd (run (get_daily_data ts_get_daily now symbol outputsize) st))
       = calls st ++ AlphaVantageCall try_symbol :: more)
  ∧ (∀ pre try_symbol post error_msg,
       _get_fallback_symbols symbol = pre ++ try_symbol :: post →
       forallb (λ s, daily_moves_on (ts_get_daily s outputsize)) pre = true →
       ts_get_daily try_symbol outputsize = AvSeriesRaises error_msg →
       mentions_limit error_msg = true →
       let '(result, st') :=
         run (get_daily_data ts_get_daily now symbol outputsize) st in
       result = None
       ∧ rate_limited st' = Some true
       ∧ rate_limit_reset_time st' = Some (now + hours 24)
       ∧ ∀ later other,
           later ≤ now + hours 24 →
           run (get_stock_quote yf ts_get_quote_endpoint later other) st'
           = (fallback_result yf later other,
              add_calls st' [YahooCall other])).
Proof.
  intros Hen. split.
  - intros c rest Hsyms. unfold run, get_daily_data. rewrite Hen, Hsyms.
    simpl. apply try_daily_first_call.
  - intros pre c post msg Hsyms Hpre Hc Hmsg.
    unfold run at 1, get_daily_data. rewrite Hen, Hsyms. simpl.
    rewrite (try_daily_rate_limited now outputsize pre c post msg st
               Hpre Hc Hmsg).
    repeat (split; [done|]).
    intros later other Hlater.
    unfold run, get_stock_quote. simpl. rewrite Hen. simpl.
    unfold mbind, St_bind, _is_rate_limited. simpl.
    destruct (now + hours 24 <? later) eqn:E; [apply Z.ltb_lt in E; lia|].
    reflexivity.
Qed.

(** X7. [get_intraday_data] on an enabled service makes exactly one
    Alpha Vantage call, for the symbol as given (no candidate list); a
    frame it returns has the five OHLCV columns, an index named
    'Datetime' and at least one row; an error mentioning a rate limit
    gives [None] and starts the cooldown. *)
Theorem intraday_data_asks_once_for_the_symbol_as_given
  (now : Z) (symbol interval outputsize : string) (st : state) :
  enabled st = true →
  let '(result, st') :=
    run (get_intraday_data ts_get_intraday now symbol interval outputsize)
        st in
  calls st' = calls st ++ [AlphaVantageCall symbol]
  ∧ (∀ df, result = Some df →
       columns df = ohlcv ∧ index_name df = Some "Datetime" ∧ rows df ≠ [])
  ∧ (∀ error_msg,
       ts_get_intraday symbol interval outputsize = AvSeriesRaises error_msg →
       mentions_limit error_msg = true →
       result = None
       ∧ rate_limited st' = Some true
       ∧ rate_limit_reset_time st' = Some (now + hours 24)).
Proof.
  intros Hen. unfold run, get_intraday_data. rewrite Hen. simpl.
  unfold mbind, St_bind. cbn [log_call].
  destruct (ts_get_intraday symbol interval outputsize) as [msg| |data].
  - destruct (mentions_limit msg) eqn:Hmsg; simpl.
    + split; [done|]. split; [discriminate|]. by intros ? [= <-] _.
    + split; [done|]. split; [discriminate|].
      intros ? [= <-] H. congruence.
  - simpl. split; [done|]. split; [discriminate|]. discriminate.
  - destruct (frame_empty data) eqn:Hempty; simpl.
    { split; [done|]. split; [discriminate|]. discriminate. }
    destruct (set_columns ohlcv data) as [data'|] eqn:Hset; simpl.
    + split; [done|]. split; [|discriminate].
      intros df [= <-]. apply set_columns_shape in Hset as [Hcols Hrows].
      simpl. rewrite Hcols, Hrows. repeat split; try done.
      by apply frame_not_empty_rows.
    + split; [done|]. split; [discriminate|]. discriminate.
Qed.

End AlphaVantageCalls.

Lemma quote_tries_every_candidate_then_yahoo_witness :
  run (AlphaVantageService.get_stock_quote Samples.yf_up Samples.av_premium
         0 "TCS.NS") Samples.av_fresh
  = (AlphaVantageService.fallback_result Samples.yf_up 0 "TCS.NS",
     AlphaVantageService.State true None None
       [AlphaVantageCall "TCS.BSE"; AlphaVantageCall "TCS";
        AlphaVantageCall "TCS.BSE"; AlphaVantageCall "TCS.NS";
        YahooCall "TCS.NS"]).
Proof.
  exact (quote_tries_every_candidate_then_yahoo Samples.yf_up
           Samples.av_premium 0 "TCS.NS" Samples.av_fresh
           eq_refl ltac:(discriminate) eq_refl).
Defined.

Lemma quote_success_keeps_requested_symbol_witness :
  ∃ q,
    run (AlphaVantageService.get_stock_quote Samples.yf_up Samples.av_up
           0 "HDFCBANK.NS") Samples.av_fresh
    = (Some q, AlphaVantageService.State true None None
                 [AlphaVantageCall "HDB"])
    ∧ q !! "symbol" = Some (PStr "HDFCBANK.NS")
    ∧ q !! "alpha_vantage_symbol" = Some (PStr "HDB").
Proof.
  destruct (quote_success_keeps_requested_symbol Samples.yf_up Samples.av_up
              0 "HDFCBANK.NS" Samples.av_fresh []
              ["HDFCBANK"; "HDFCBANK.BSE"; "HDFCBANK.NS"] "HDB"
              Samples.av_row [] eq_refl ltac:(discriminate) eq_refl eq_refl
              eq_refl eq_refl) as (q & Hrun & Hsym & Hcand & _).
  exists q. split; [exact Hrun|]. split; [exact Hsym|exact Hcand].
Defined.

Lemma cooldown_ends_after_reset_time_witness :
  let '(result, st') :=
    run (AlphaVantageService.get_stock_quote Samples.yf_up Samples.av_up
           (hours 24 + 1) "AAPL") Samples.av_cooling in
  (∃ more,
     AlphaVantageService.calls st' = AlphaVantageCall "AAPL" :: more)
  ∧ AlphaVantageService.rate_limited st' = Some false
  ∧ AlphaVantageService.rate_limit_reset_time st' = None.
Proof.
  pose proof (cooldown_ends_after_reset_time Samples.yf_up Samples.av_up
                (hours 24 + 1) (hours 24) "AAPL" "AAPL" [] Samples.av_cooling
                eq_refl eq_refl eq_refl eq_refl eq_refl) as H.
  destruct (run _ _) as [result st']. destruct H as [Hcalls Hok].
  split; [exact Hcalls|].
  destruct (Hok Samples.av_row [] eq_refl eq_refl) as [_ ->].
  split; reflexivity.
Defined.

Lemma daily_data_is_ohlcv_with_rows_witness :
  ∃ df,
    fst (run (AlphaVantageService.get_daily_data Samples.daily_up 0 "AAPL"
                "compact") Samples.av_fresh) = Some df
    ∧ columns df = ohlcv.
Proof.
  eexists. split; [reflexivity|].
  exact (proj1 (proj2 (daily_data_is_ohlcv_with_rows Samples.daily_up 0
                         "AAPL" "compact" Samples.av_fresh _ eq_refl))).
Defined.

Lemma daily_data_skips_cooldown_check_but_starts_it_witness :
  (∃ more,
     AlphaVantageService.calls
       (snd (run (AlphaVantageService.get_daily_data Samples.daily_limited 0
                    "AAPL" "compact") Samples.av_cooling))
     = AlphaVantageCall "AAPL" :: more)
  ∧ let '(result, st') :=
      run (AlphaVantageService.get_daily_data Samples.daily_limited 0
             "AAPL" "compact") Samples.av_fresh in
    result = None
    ∧ AlphaVantageService.rate_limited st' = Some true.
Proof.
  split.
  - exact (proj1 (daily_data_skips_cooldown_check_but_starts_it Samples.yf_up
                    Samples.av_up Samples.daily_limited 0 "AAPL" "compact"
                    Samples.av_cooling eq_refl) "AAPL" [] eq_refl).
  - pose proof (proj2 (daily_data_skips_cooldown_check_but_starts_it
                         Samples.yf_up Samples.av_up Samples.daily_limited 0
                         "AAPL" "compact" Samples.av_fresh eq_refl)
                  [] "AAPL" [] _ eq_refl eq_refl eq_refl eq_refl) as H.
    destruct (run _ _) as [result st'].
    destruct H as (Hres & Hflag & _). split; [exact Hres|exact Hflag].
Defined.

Lemma intraday_data_asks_once_for_the_symbol_as_given_witness :
  let '(result, st') :=
    run (AlphaVantageService.get_intraday_data Samples.intraday_up 0
           "RELIANCE.NS" "5min" "compact") Samples.av_fresh in
  AlphaVantageService.calls st' = [AlphaVantageCall "RELIANCE.NS"].
Proof.
  pose proof (intraday_data_asks_once_for_the_symbol_as_given
                Samples.intraday_up 0 "RELIANCE.NS" "5min" "compact"
                Samples.av_fresh eq_refl) as H.
  destruct (run _ _) as [result st']. exact (proj1 H).
Defined.

(* ===================================================================== *)
(** ** Symbol mapping: conversion, reverse lookup, popular symbols *)
(* ===================================================================== *)

Section SymbolTables.

Import SymbolMapping.

Lemma mapping_is_items : indian_to_us_mapping = list_to_map indian_to_us_items.
Proof. reflexivity. Qed.

(** The first symbol the Alpha Vantage service asks for is the one
    [convert_for_alpha_vantage] gives. *)
Lemma converted_symbol_is_first_candidate (symbol : string) :
  head (AlphaVantageService._get_fallback_symbols symbol)
  = Some (convert_for_alpha_vantage symbol).
Proof.
  unfold AlphaVantageService._get_fallback_symbols,
    convert_for_alpha_vantage, get_alpha_vantage_fallback_symbols.
  destruct (is_indian_symbol symbol); [|done].
  destruct (get_us_symbol symbol) as [us|]; [|done].
  by destruct (PyStr.truthy us).
Qed.

Lemma us_symbol_in_items symbol us_symbol :
  get_us_symbol symbol = Some us_symbol ↔
  (symbol, us_symbol) ∈ indian_to_us_items.
Proof.
  unfold get_us_symbol. rewrite mapping_is_items.
  rewrite <- elem_of_list_to_map; [done|].
  apply (bool_decide_unpack (NoDup _)). by vm_compute.
Qed.


Lemma indian_symbol_in_items us_symbol symbol :
  get_indian_symbol us_symbol = Some symbol ↔
  (symbol, us_symbol) ∈ indian_to_us_items.
Proof.
  assert (Hrev : us_to_indian_mapping
                 = list_to_map (prod_swap <$> indian_to_us_items)).
  { apply (bool_decide_unpack (_ = _)). by vm_compute. }
  unfold get_indian_symbol. rewrite Hrev.
  rewrite <- elem_of_list_to_map.
  - rewrite list_elem_of_fmap. split.
    + intros ([s u] & [= -> ->] & Hin). exact Hin.
    + intros Hin. by exists (symbol, us_symbol).
  - apply (bool_decide_unpack (NoDup _)). by vm_compute.
Qed.

(** X8.  The reverse table is the exact inverse of the mapping table:
    [get_us_symbol] sends an Indian symbol to an equivalent if and only if
    [get_indian_symbol] sends that equivalent back to the same symbol (no
    two Indian symbols share an equivalent). *)
Theorem mapping_round_trip (symbol us_symbol : string) :
  get_us_symbol symbol = Some us_symbol ↔
  get_indian_symbol us_symbol = Some symbol.
Proof. by rewrite us_symbol_in_items, indian_symbol_in_items. Qed.

Lemma slice_to_prefix {A} (limit : Z) (l : list A) :
  slice_to limit l `prefix_of` l.
Proof. unfold slice_to. destruct (limit <? 0); apply prefix_take. Qed.

(** X9.  [get_popular_indian_symbols limit] is a prefix of the keys of
    the mapping table in their order; it has [limit] symbols for a limit
    from 0 to 20, and [20 + limit] symbols for a negative limit down to
    -20 (a Python slice counts a negative bound from the end); every symbol
    in it is an Indian symbol with a mapped equivalent. *)
Theorem popular_symbols_are_mapped_indian_symbols (limit : Z) :
  get_popular_indian_symbols limit `prefix_of` get_all_indian_symbols
  ∧ (0 <= limit <= 20 →
     length (get_popular_indian_symbols limit) = Z.to_nat limit)
  ∧ (-20 <= limit < 0 →
     length (get_popular_indian_symbols limit) = Z.to_nat (20 + limit))
  ∧ ∀ symbol, symbol ∈ get_popular_indian_symbols limit →
      is_indian_symbol symbol = true ∧ is_Some (get_us_symbol symbol).
Proof.
  assert (Hall : get_all_indian_symbols = popular) by reflexivity.
  split; [rewrite Hall; apply slice_to_prefix|].
  split; [|split].
  - intros Hl. unfold get_popular_indian_symbols, slice_to.
    destruct (limit <? 0) eqn:E; [apply Z.ltb_lt in E; lia|].
    rewrite length_take. change (length popular) with 20%nat. lia.
  - intros Hl. unfold get_popular_indian_symbols, slice_to.
    destruct (limit <? 0) eqn:E; [|apply Z.ltb_ge in E; lia].
    rewrite length_take. change (length popular) with 20%nat. lia.
  - intros symbol Hin.
    assert (Hpop : symbol ∈ popular).
    { eapply elem_of_prefix; [exact Hin|apply slice_to_prefix]. }
    clear Hin. revert symbol Hpop. apply Forall_forall.
    apply (bool_decide_unpack
             (Forall (λ s, is_indian_symbol s = true
                           ∧ is_Some (get_us_symbol s)) popular)).
    by vm_compute.
Qed.


(** X10.  [get_symbol_info] on the equivalent of a mapped Indian symbol:
    an equivalent that itself ends in '.NS' or '.BSE' is reported as a BSE
    symbol without an Indian equivalent, the reverse table is consulted
    only for the others (exchange 'US'); a US equivalent is never
    reported. *)
Theorem symbol_info_of_mapped_target (symbol us_symbol : string) :
  get_us_symbol symbol = Some us_symbol →
  let info := SymbolMappingService.get_symbol_info us_symbol in
  info !! "us_equivalent" = Some PNone
  ∧ info !! "indian_equivalent"
    = Some (if is_indian_symbol us_symbol then PNone else PStr symbol)
  ∧ info !! "exchange"
    = Some (PStr (if is_indian_symbol us_symbol then "BSE" else "US")).
Proof.
  intros Hmap. apply us_symbol_in_items in Hmap.
  pose proof (proj2 (indian_symbol_in_items us_symbol symbol) Hmap) as Hback.
  unfold SymbolMappingService.get_symbol_info.
  destruct (is_indian_symbol us_symbol) eqn:Hind.
  - assert (Hus : get_us_symbol us_symbol = None
                  ∧ PyStr.endswith us_symbol ".NS" = false).
    { assert (Hall : Forall (λ kv : string * string,
                               get_us_symbol kv.2 = None
                               ∧ PyStr.endswith kv.2 ".NS" = false)
                            indian_to_us_items).
      { apply (bool_decide_unpack (Forall _ _)). by vm_compute. }
      rewrite Forall_forall in Hall. exact (Hall _ Hmap). }
    destruct Hus as [-> ->]. by simplify_map_eq.
  - fold (get_indian_symbol us_symbol). rewrite Hback. by simplify_map_eq.
Qed.

End SymbolTables.

Lemma symbol_info_of_mapped_target_witness :
  let info := SymbolMappingService.get_symbol_info "HDB" in
  info !! "us_equivalent" = Some PNone
  ∧ info !! "indian_equivalent" = Some (PStr "HDFCBANK.NS")
  ∧ info !! "exchange" = Some (PStr "US").
Proof.
  exact (symbol_info_of_mapped_target "HDFCBANK.NS" "HDB" eq_refl).
Defined.


(* ===================================================================== *)
(** ** Indicators: ranges and edge cases *)
(* ===================================================================== *)

Section IndicatorRanges.

Import Rational.

Local Open Scope Q_scope.

Lemma rsi_trailing_formula (prices : list Q) (n : nat) :
  (1 ≤ n ≤ length prices)%nat →
  let trailing :=
    drop (length prices - n) (Pandas.diff (Fin <$> prices)) in
  HybridDataService._calculate_rsi (Fin <$> prices) (Z.of_nat n)
  = Some (rsi_of_means (Qmean (gain_of <$> trailing))
                       (Qmean (loss_of <$> trailing))).
Proof.
  intros Hn trailing.
  unfold HybridDataService._calculate_rsi.
  destruct (Z.of_nat n <? 0)%Z eqn:E; [apply Z.ltb_lt in E; lia|].
  rewrite Nat2Z.id.
  pose proof (diff_not_infinite prices) as Hfin.
  pose proof (diff_length prices) as Hlen.
  rewrite (where_gain _ Hfin), (where_loss _ Hfin).
  unfold iloc_last, Pandas.div. rewrite fmap_last.
  rewrite last_zip_with by (by rewrite !rolling_mean_length, !length_fmap).
  pose proof (rolling_mean_last n (gain_of <$> Pandas.diff (Fin <$> prices)))
    as Hg.
  pose proof (rolling_mean_last n (loss_of <$> Pandas.diff (Fin <$> prices)))
    as Hl.
  unfold iloc_last in Hg, Hl.
  rewrite length_fmap, Hlen in Hg, Hl.
  rewrite Hg, Hl by lia.
  rewrite <- !fmap_drop. reflexivity.
Qed.

Lemma loss_of_nonneg (T : list fval) : Forall (λ q, 0 <= q) (loss_of <$> T).
Proof.
  apply Forall_fmap, Forall_true. intros [q| | |]; simpl; try lra.
  destruct (Qlt_bool q 0) eqn:E; [|lra].
  apply Qlt_bool_iff in E. lra.
Qed.

Lemma Qmean_nonneg (l : list Q) : Forall (λ q, 0 <= q) l → 0 <= Qmean l.
Proof.
  intros H. apply Qsum_nonneg in H. unfold Qmean.
  destruct l as [|x l].
  - simpl. unfold Qdiv. simpl. lra.
  - apply Qle_shift_div_l; [|lra].
    simpl length. change 0 with (inject_Z 0). rewrite <- Zlt_Qlt. lia.
Qed.

Lemma Qis_zero_spec a : Qis_zero a = true ↔ a == 0.
Proof. unfold Qis_zero. apply Qeq_bool_iff. Qed.

Lemma rsi_of_means_range (gain loss : Q) :
  0 <= gain → 0 <= loss →
  rsi_of_means gain loss = NaN
  ∨ ∃ r, rsi_of_means gain loss = Fin r ∧ 0 <= r <= 100.
Proof.
  intros Hg Hl. unfold rsi_of_means. cbn [fdiv].
  destruct (Qis_zero loss) eqn:El.
  - destruct (Qis_zero gain) eqn:Eg; [by left|].
    assert (Qlt_bool 0 gain = true) as ->.
    { apply Qlt_bool_true. destruct (Qeq_dec gain 0) as [H0|H0].
      - apply Qis_zero_spec in H0. congruence.
      - lra. }
    right. exists 100. split; [reflexivity|lra].
  - assert (Hlpos : 0 < loss).
    { destruct (Qeq_dec loss 0) as [H0|H0].
      - apply Qis_zero_spec in H0. congruence.
      - lra. }
    assert (Hx : 0 <= gain / loss) by (apply Qle_shift_div_l; lra).
    cbn [fadd fdiv].
    destruct (Qis_zero (1 + gain / loss)) eqn:E1.
    { apply Qis_zero_spec in E1. lra. }
    cbn [fsub fneg fadd]. right. eexists. split; [reflexivity|].
    set (x := gain / loss) in *.
    assert (0 < 100 / (1 + x)) by (apply Qlt_shift_div_l; lra).
    assert (100 / (1 + x) <= 100) by (apply Qle_shift_div_r; lra).
    lra.
Qed.

(** X11.  On finite prices and a period between 1 and the number of
    prices, [_calculate_rsi] returns NaN or a number between 0 and 100. *)
Theorem rsi_is_nan_or_within_0_and_100 (prices : list Q) (period : nat) :
  (1 ≤ period ≤ length prices)%nat →
  ∃ v,
    HybridDataService._calculate_rsi (Fin <$> prices) (Z.of_nat period)
    = Some v
    ∧ (v = NaN ∨ ∃ r, v = Fin r ∧ 0 <= r <= 100).
Proof.
  intros Hn. eexists. split; [by apply rsi_trailing_formula|].
  apply rsi_of_means_range; apply Qmean_nonneg;
    [apply gain_of_nonneg|apply loss_of_nonneg].
Qed.

Lemma gain_of_zero (T : list fval) :
  Forall (λ d, fgt d (Fin 0) = false) T →
  Forall (λ q, q == 0) (gain_of <$> T).
Proof.
  intros H. apply Forall_fmap. eapply Forall_impl; [exact H|].
  intros [q| | |] Hd; simpl in *; try done. by rewrite Hd.
Qed.

Lemma loss_of_pos (T : list fval) :
  Exists (λ d, flt d (Fin 0) = true) T →
  Forall not_infinite T →
  Exists (λ q, 0 < q) (loss_of <$> T).
Proof.
  intros Hex Hall. rewrite Exists_fmap.
  rewrite Exists_exists in *. destruct Hex as (d & Hin & Hd).
  exists d. split; [done|].
  rewrite Forall_forall in Hall. destruct (Hall d Hin) as [Hp Hn].
  destruct d as [q| | |]; simpl in *; try done.
  unfold flt in Hd. simpl in Hd. rewrite Hd.
  apply Qlt_bool_iff in Hd. lra.
Qed.

(** X12.  When no price of the last window rose and at least one fell,
    [_calculate_rsi] returns 0. *)
Theorem rsi_is_0_with_losses_and_no_gains (prices : list Q) (period : nat) :
  (1 ≤ period ≤ length prices)%nat →
  let trailing :=
    drop (length prices - period) (Pandas.diff (Fin <$> prices)) in
  Forall (λ d, fgt d (Fin 0) = false) trailing →
  Exists (λ d, flt d (Fin 0) = true) trailing →
  ∃ r,
    HybridDataService._calculate_rsi (Fin <$> prices) (Z.of_nat period)
    = Some (Fin r)
    ∧ r == 0.
Proof.
  intros Hn trailing Hgain Hloss.
  rewrite (rsi_trailing_formula prices period Hn). fold trailing.
  assert (Hfin : Forall not_infinite trailing)
    by (apply Forall_drop, diff_not_infinite).
  assert (Hg : Qmean (gain_of <$> trailing) == 0).
  { apply Qmean_zero, Qsum_zero. by apply gain_of_zero. }
  assert (Hl : 0 < Qmean (loss_of <$> trailing)).
  { apply Qmean_pos.
    - apply Qsum_pos; [apply loss_of_nonneg|by apply loss_of_pos].
    - intros Heq. apply fmap_nil_inv in Heq. rewrite Heq in Hloss.
      by apply Exists_nil in Hloss. }
  set (g := Qmean (gain_of <$> trailing)) in *.
  set (l := Qmean (loss_of <$> trailing)) in *.
  unfold rsi_of_means. cbn [fdiv].
  rewrite (Qis_zero_false _ Hl). cbn [fadd fdiv].
  assert (Hx : g / l == 0) by (rewrite Hg; field; lra).
  destruct (Qis_zero (1 + g / l)) eqn:E1.
  { apply Qis_zero_spec in E1. lra. }
  cbn [fsub fneg fadd]. eexists. split; [reflexivity|].
  rewrite Hx. field.
Qed.


Lemma diff_length_any (s : list fval) : length (Pandas.diff s) = length s.
Proof.
  destruct s as [|x rest]; [done|].
  unfold Pandas.diff. cbn [length]. rewrite length_zip_with. cbn [length]. lia.
Qed.

Lemma rolling_mean_last_short (n : nat) (s : list fval) :
  s ≠ [] → (length s < n)%nat →
  last (Pandas.rolling_mean n s) = Some NaN.
Proof.
  intros Hne Hlen. rewrite last_lookup, rolling_mean_length.
  assert (1 ≤ length s)%nat by (destruct s; [done|simpl; lia]).
  rewrite rolling_mean_lookup by lia.
  rewrite window_mean_short; [done|].
  unfold Pandas.window. rewrite length_drop, length_take. lia.
Qed.

(** With fewer prices than the period, [_calculate_rsi] returns NaN for a
    series that is not empty, and [None] for an empty one. *)
Lemma rsi_of_short_series (prices : list fval) (period : Z) :
  (Z.of_nat (length prices) < period)%Z →
  HybridDataService._calculate_rsi prices period
  = match prices with
    | [] => None
    | _ => Some NaN
    end.
Proof.
  intros Hlen. unfold HybridDataService._calculate_rsi.
  destruct (period <? 0)%Z eqn:E; [apply Z.ltb_lt in E; lia|].
  destruct prices as [|p prices]; [done|].
  set (s := p :: prices) in *.
  unfold iloc_last, Pandas.div. rewrite fmap_last.
  rewrite last_zip_with.
  2:{ rewrite !rolling_mean_length. unfold Pandas.neg, Pandas.where_.
      by rewrite !length_fmap. }
  assert (Hshort : ∀ t : list fval,
            length t = length s →
            last (Pandas.rolling_mean (Z.to_nat period) t) = Some NaN).
  { intros t Ht. apply rolling_mean_last_short; [|lia].
    intros ->. subst s. discriminate Ht. }
  rewrite !Hshort; [done|..];
    unfold Pandas.neg, Pandas.where_;
    by rewrite ?length_fmap, diff_length_any.
Qed.

(** The simple moving average of a series with prices, outside its
    normal range. *)
Lemma sma_of_short_series
  (period : Z) (close : list fval) :
  close ≠ [] →
  (period < 0 → HybridDataService.sma period close = None)%Z
  ∧ (0 <= period → Z.of_nat (length close) < period →
     HybridDataService.sma period close = Some NaN)%Z
  ∧ HybridDataService.sma 0 close = Some NaN.
Proof.
  intros Hne.
  unfold HybridDataService.sma, HybridDataService.sma_series.
  split; [|split].
  - intros H. apply Z.ltb_lt in H. by rewrite H.
  - intros H0 Hlen.
    destruct (period <? 0)%Z eqn:E; [apply Z.ltb_lt in E; lia|].
    apply rolling_mean_last_short; [done|lia].
  - cbn [Z.ltb Z.compare Z.to_nat].
    unfold iloc_last. rewrite last_lookup, rolling_mean_length.
    assert (1 ≤ length close)%nat by (destruct close; [done|simpl; lia]).
    rewrite rolling_mean_lookup by lia.
    unfold Pandas.window, Pandas.window_mean.
    rewrite Nat.sub_0_r, drop_ge by (rewrite length_take; lia).
    reflexivity.
Qed.

(** X13.  Outside their normal range, on the Close column of a history
    with rows: the moving average [rolling(window=period).mean().iloc[-1]]
    and [_calculate_rsi] are both NaN when the series has fewer prices
    than the period, and the moving average raises for a negative period
    (the entry becomes [None]).  [_calculate_rsi] called on an empty
    series returns [None] (the [IndexError] of [iloc[-1]] is caught). *)
Theorem sma_and_rsi_of_short_or_empty_series
  (period : Z) (close : list fval) :
  HybridDataService._calculate_rsi [] period = None
  ∧ (close ≠ [] →
     (Z.of_nat (length close) < period →
      HybridDataService.sma period close = Some NaN
      ∧ HybridDataService._calculate_rsi close period = Some NaN)%Z
     ∧ (period < 0 → HybridDataService.sma period close = None)%Z).
Proof.
  split.
  - unfold HybridDataService._calculate_rsi. by destruct (period <? 0)%Z.
  - intros Hne.
    destruct (sma_of_short_series period close Hne) as (Hneg & Hshort & _).
    split; [|exact Hneg].
    intros Hlen. split; [apply Hshort; [lia|done]|].
    rewrite rsi_of_short_series by done. by destruct close.
Qed.

Lemma ewm_loop_q_bounds beta lo hi rest : ∀ w W,
  0 <= beta → 0 < W → lo <= w <= hi →
  Forall (λ x, lo <= x <= hi) rest →
  Forall (λ y, lo <= y <= hi) (ewm_loop_q beta (w, W) rest).
Proof.
  induction rest as [|x rest IH]; intros w W Hb HW Hw Hall; [constructor|].
  apply Forall_cons in Hall as [Hx Hall].
  cbn [ewm_loop_q]. unfold ewm_step_q. cbn [fst].
  set (w' := if negb (Qeq_bool w x)
             then (W * beta * w + 1 * x) / (W * beta + 1) else w).
  assert (Hpos : 0 < W * beta + 1) by nra.
  assert (Hbound : lo <= w' <= hi).
  { subst w'. destruct (negb (Qeq_bool w x)); [|done].
    assert (Hk : 0 <= W * beta) by nra.
    set (k := W * beta) in *.
    split.
    - apply Qle_shift_div_l; [done|]. nra.
    - apply Qle_shift_div_r; [done|]. nra. }
  constructor; [exact Hbound|]. by apply IH.
Qed.

(** X14.  On finite closes that all lie between [lo] and [hi], every cell
    of [ewm(span).mean()] lies between [lo] and [hi], and so does the EMA
    value taken from its last cell. *)
Theorem ema_stays_within_the_range_of_closes
  (span : Z) (first : Q) (rest : list Q) (lo hi : Q) :
  (1 <= span)%Z →
  Forall (λ x, lo <= x <= hi) (first :: rest) →
  ∃ ys : list Q,
    Pandas.ewm_mean span (Fin <$> first :: rest) = Some (Fin <$> ys)
    ∧ length ys = length (first :: rest)
    ∧ Forall (λ y, lo <= y <= hi) ys
    ∧ ∃ y, HybridDataService.ema span (Fin <$> first :: rest) = Some (Fin y)
           ∧ lo <= y <= hi.
Proof.
  intros Hspan Hall.
  destruct (alpha_of_span_formula span Hspan) as (_ & Hpos & Hle).
  set (alpha := Pandas.alpha_of_span span) in *.
  assert (Hb : 0 <= 1 - alpha) by lra.
  apply Forall_cons in Hall as [Hfirst Hrest].
  set (ys := first :: ewm_loop_q (1 - alpha) (first, 1) rest).
  assert (Hrun : Pandas.ewm_mean span (Fin <$> first :: rest)
                 = Some (Fin <$> ys)).
  { unfold Pandas.ewm_mean.
    destruct (span <? 1)%Z eqn:E; [apply Z.ltb_lt in E; lia|].
    cbn [fmap list_fmap]. fold alpha.
    rewrite ewm_loop_fin; [done|done|lra]. }
  assert (Hys : Forall (λ y, lo <= y <= hi) ys).
  { constructor; [done|]. apply ewm_loop_q_bounds; try done; lra. }
  exists ys. split; [exact Hrun|]. split.
  { unfold ys. cbn [length]. f_equal.
    clear. generalize (first, 1). induction rest as [|x rest IH]; intros acc;
      [done|]. cbn. f_equal. apply IH. }
  split; [exact Hys|].
  unfold HybridDataService.ema. rewrite Hrun. cbn [mbind option_bind].
  unfold iloc_last. rewrite fmap_last.
  destruct (last ys) as [y|] eqn:Hlast.
  - exists y. split; [done|].
    rewrite Forall_forall in Hys. apply Hys.
    rewrite last_lookup in Hlast. by eapply list_elem_of_lookup_2.
  - apply last_None in Hlast. discriminate.
Qed.

Lemma Qeq_bool_refl' (q : Q) : Qeq_bool q q = true.
Proof. apply Qeq_bool_iff. reflexivity. Qed.

Lemma ewm_loop_flat beta q k : ∀ W,
  Pandas.ewm_loop beta (Fin q, W) (replicate k (Fin q)) = replicate k (Fin q).
Proof.
  induction k as [|k IH]; intros W; [done|].
  cbn [replicate Pandas.ewm_loop].
  assert (Hstep : Pandas.ewm_step beta (Fin q, W) (Fin q)
                  = (Fin q, W * beta + 1)).
  { unfold Pandas.ewm_step. cbn [is_nan negb Pandas.fne].
    by rewrite Qeq_bool_refl'. }
  rewrite Hstep. cbn [fst]. f_equal. apply IH.
Qed.

Lemma ewm_mean_flat span q k :
  (1 <= span)%Z →
  Pandas.ewm_mean span (replicate k (Fin q)) = Some (replicate k (Fin q)).
Proof.
  intros Hspan. unfold Pandas.ewm_mean.
  destruct (span <? 1)%Z eqn:E; [apply Z.ltb_lt in E; lia|].
  destruct k as [|k]; [done|].
  cbn [replicate]. by rewrite ewm_loop_flat.
Qed.

Lemma zip_with_replicate {A B C} (f : A → B → C) k a b :
  zip_with f (replicate k a) (replicate k b) = replicate k (f a b).
Proof. induction k as [|k IH]; [done|]. cbn. by rewrite IH. Qed.

Lemma last_replicate {A} k (a : A) : last (replicate (S k) a) = Some a.
Proof.
  rewrite last_lookup, length_replicate. apply lookup_replicate_2.
  simpl. lia.
Qed.

(** X15.  [_calculate_macd] on a series whose prices are all equal
    returns a MACD line, a signal line and a histogram that are all 0; on
    an empty series, or with a span below 1, it returns [None]. *)
Theorem macd_of_flat_or_empty_series (fast slow signal : Z) :
  (1 <= fast → 1 <= slow → 1 <= signal →
   ∀ (close : Q) (k : nat),
     ∃ m s h,
       HybridDataService._calculate_macd (replicate (S k) (Fin close))
         fast slow signal
       = Some (<["macd" := PFloat (Fin m)]>
              (<["signal" := PFloat (Fin s)]>
              (<["histogram" := PFloat (Fin h)]> ∅)))
       ∧ m == 0 ∧ s == 0 ∧ h == 0)%Z
  ∧ HybridDataService._calculate_macd [] fast slow signal = None
  ∧ ((fast < 1 ∨ slow < 1 ∨ signal < 1)%Z →
     ∀ prices, HybridDataService._calculate_macd prices fast slow signal
               = None).
Proof.
  split; [|split].
  - intros Hf Hs Hg close k.
    unfold HybridDataService._calculate_macd.
    rewrite !ewm_mean_flat by done. cbn [mbind option_bind].
    rewrite zip_with_replicate. cbn [fsub fneg fadd].
    rewrite ewm_mean_flat by done. cbn [mbind option_bind].
    rewrite zip_with_replicate. cbn [fsub fneg fadd].
    unfold iloc_last. rewrite !last_replicate. cbn [mbind option_bind].
    eexists _, _, _. split; [reflexivity|].
    repeat split; ring.
  - unfold HybridDataService._calculate_macd, Pandas.ewm_mean.
    destruct (fast <? 1)%Z; [done|]. destruct (slow <? 1)%Z; [done|].
    cbn. by destruct (signal <? 1)%Z.
  - intros Hbad prices.
    unfold HybridDataService._calculate_macd, Pandas.ewm_mean.
    destruct (fast <? 1)%Z eqn:Ef; [done|].
    destruct (slow <? 1)%Z eqn:Es; [by destruct prices|].
    destruct (signal <? 1)%Z eqn:Eg.
    + destruct prices; done.
    + apply Z.ltb_ge in Ef, Es, Eg. lia.
Qed.

End IndicatorRanges.

Lemma rsi_is_nan_or_within_0_and_100_witness :
  ∃ v,
    HybridDataService._calculate_rsi (Fin <$> [1; 3; 2]%Q) 2 = Some v
    ∧ (v = NaN ∨ ∃ r, v = Fin r ∧ (0 <= r <= 100)%Q).
Proof.
  exact (rsi_is_nan_or_within_0_and_100 [1; 3; 2]%Q 2
           ltac:(simpl; lia)).
Defined.

Lemma rsi_is_0_with_losses_and_no_gains_witness :
  ∃ r,
    HybridDataService._calculate_rsi (Fin <$> [3; 2; 1]%Q) 2 = Some (Fin r)
    ∧ (r == 0)%Q.
Proof.
  exact (rsi_is_0_with_losses_and_no_gains [3; 2; 1]%Q 2
           ltac:(simpl; lia)
           ltac:(vm_compute; repeat constructor)
           ltac:(vm_compute; apply Exists_cons_hd; reflexivity)).
Defined.

Lemma sma_and_rsi_of_short_or_empty_series_witness :
  HybridDataService.sma 14 [Fin 100; Fin 101] = Some NaN
  ∧ HybridDataService._calculate_rsi [Fin 100; Fin 101] 14 = Some NaN.
Proof.
  exact (proj1 (proj2 (sma_and_rsi_of_short_or_empty_series 14
                         [Fin 100; Fin 101])
                  ltac:(discriminate))
           ltac:(simpl; lia)).
Defined.

Lemma ema_stays_within_the_range_of_closes_witness :
  ∃ ys : list Q,
    Pandas.ewm_mean 3 (Fin <$> [1; 3; 2]%Q) = Some (Fin <$> ys)
    ∧ length ys = 3%nat
    ∧ Forall (λ y, (1 <= y <= 3)%Q) ys
    ∧ ∃ y, HybridDataService.ema 3 (Fin <$> [1; 3; 2]%Q) = Some (Fin y)
           ∧ (1 <= y <= 3)%Q.
Proof.
  exact (ema_stays_within_the_range_of_closes 3 1%Q [3; 2]%Q 1%Q 3%Q
           ltac:(lia)
           ltac:(repeat constructor; discriminate)).
Defined.


(* ===================================================================== *)
(** ** The hybrid resolver: time series and indicators *)
(* ===================================================================== *)

Section HybridFrames.

Import AlphaVantageHybridFrames.

Context (yf : string → yf_ticker).
Context (ts_get_quote_endpoint : string → av_response).
Context (now : Z).
Context (yf_history : string → string → option string → option frame).
Context (ts_get_daily : string → string → av_frame_response).
Context (ts_get_intraday : string → string → string → av_frame_response).
Context (ti_get : string → string → option Z → av_frame_response).

(** X16.  For a symbol ending in '.NS' or '.BSE', the daily, intraday and
    indicator operations of the hybrid resolver make exactly one provider
    call, to Yahoo Finance, and return what its fallback computes, whether
    or not the Alpha Vantage client is enabled. *)
Theorem indian_series_only_consult_yahoo
  (enabled : bool) (symbol function : string) (time_period : Z) :
  SymbolMapping.is_indian_symbol symbol = true →
  run (get_daily_data yf_history ts_get_daily enabled symbol) []
  = (yahoo_frame_body yf_history symbol "daily", [YahooCall symbol])
  ∧ run (get_intraday_data yf_history ts_get_intraday enabled symbol) []
    = (yahoo_frame_body yf_history symbol "intraday", [YahooCall symbol])
  ∧ run (get_technical_indicators yf_history ti_get enabled symbol function
           time_period) []
    = (yahoo_frame_body yf_history symbol "indicators", [YahooCall symbol]).
Proof.
  intros Hin.
  unfold run, get_daily_data, get_intraday_data, get_technical_indicators.
  change (AlphaVantageHybrid._is_indian_symbol symbol)
    with (SymbolMapping.is_indian_symbol symbol).
  by rewrite Hin.
Qed.

(** X17.  Every operation of the hybrid resolver (quote, daily, intraday,
    indicators) makes at most one call to each provider, always for the
    symbol as given, and never calls Alpha Vantage after Yahoo Finance. *)
Theorem hybrid_resolver_call_budget
  (enabled : bool) (symbol function : string) (time_period : Z) :
  within_budget symbol
    (snd (run (AlphaVantageHybrid.get_quote yf ts_get_quote_endpoint now
                 enabled symbol) []))
  ∧ within_budget symbol
      (snd (run (get_daily_data yf_history ts_get_daily enabled symbol) []))
  ∧ within_budget symbol
      (snd (run (get_intraday_data yf_history ts_get_intraday enabled symbol)
                []))
  ∧ within_budget symbol
      (snd (run (get_technical_indicators yf_history ti_get enabled symbol
                   function time_period) [])).
Proof.
  unfold within_budget, run, AlphaVantageHybrid.get_quote, get_daily_data,
    get_intraday_data, get_technical_indicators.
  destruct (AlphaVantageHybrid._is_indian_symbol symbol);
    [repeat split; simpl; auto|].
  unfold mbind, St_bind, AlphaVantageHybrid.try_alpha_vantage, try_series,
    AlphaVantageHybrid._get_yahoo_fallback, _get_yahoo_fallback, mret, St_ret.
  destruct enabled; simpl; [|repeat split; auto].
  split; [|split; [|split]].
  - destruct (ts_get_quote_endpoint symbol) as [?| |[|row ?]]; simpl; auto.
    destruct (bool_decide (row = ∅)); simpl; auto.
  - destruct (ts_get_daily symbol "compact") as [?| |data]; simpl; auto.
    destruct (frame_empty data); simpl; auto.
    destruct (set_columns ohlcv data); simpl; auto.
  - destruct (ts_get_intraday symbol "5min" "compact") as [?| |data];
      simpl; auto.
    destruct (frame_empty data); simpl; auto.
    destruct (set_columns ohlcv data); simpl; auto.
  - destruct (indicator_call ti_get symbol function time_period)
      as [[?| |data]|]; simpl; auto.
    destruct (frame_empty data); simpl; auto.
Qed.

(** X18.  For a US symbol and an indicator name in ASCII other than SMA,
    EMA, RSI and MACD (in any letter case), [get_technical_indicators]
    with the client enabled returns [None] without calling any provider,
    while with the client not enabled it ignores the name and returns the
    indicator frame of the Yahoo Finance fallback. *)
Theorem unsupported_indicator_depends_on_enabled
  (symbol function : string) (time_period : Z) :
  SymbolMapping.is_indian_symbol symbol = false →
  PyStr.is_ascii function = true →
  PyStr.upper function ∉ ["SMA"; "EMA"; "RSI"; "MACD"] →
  run (get_technical_indicators yf_history ti_get true symbol function
         time_period) []
  = (None, [])
  ∧ run (get_technical_indicators yf_history ti_get false symbol function
           time_period) []
    = (yahoo_frame_body yf_history symbol "indicators", [YahooCall symbol]).
Proof.
  clear yf ts_get_quote_endpoint now ts_get_daily ts_get_intraday.
  intros Hus _ Hname.
  unfold run, get_technical_indicators.
  change (AlphaVantageHybrid._is_indian_symbol symbol)
    with (SymbolMapping.is_indian_symbol symbol).
  rewrite Hus. split; [|done].
  unfold indicator_call.
  assert (Hne : ∀ name, name ∈ ["SMA"; "EMA"; "RSI"; "MACD"] →
                        String.eqb (PyStr.upper function) name = false).
  { intros name Hin. apply String.eqb_neq. intros Heq. apply Hname.
    by rewrite Heq. }
  rewrite !Hne by set_solver. done.
Qed.


Lemma filter_none {A} (P : A → Prop) `{∀ x, Decision (P x)} (l : list A) :
  Forall (λ x, ¬ P x) l → filter P l = [].
Proof.
  induction 1 as [|x l Hx _ IH]; [done|].
  by rewrite filter_cons_False.
Qed.

Lemma rolling_mean_early (n i : nat) (s : list fval) :
  (i + 1 < n)%nat → default NaN (Pandas.rolling_mean n s !! i) = NaN.
Proof.
  intros Hi. destruct (decide (i < length s)%nat) as [Hlt|Hge].
  - rewrite rolling_mean_lookup by done. simpl.
    apply window_mean_short.
    unfold Pandas.window. rewrite length_drop, length_take. lia.
  - rewrite lookup_ge_None_2; [done|]. rewrite rolling_mean_length. lia.
Qed.

(** Rows of the indicator frame before [dropna]: the first 49 hold a NaN. *)
Lemma indicator_rows_early index_name index series sma_20 close rest :
  series = ("SMA_20", sma_20) :: ("SMA_50", Pandas.rolling_mean 50 close)
           :: rest →
  Forall (λ row, ¬ no_nan_cell row)
         (take 49 (rows (frame_of_series index_name index series))).
Proof.
  intros ->. apply Forall_lookup. intros j row Hrow.
  apply lookup_take_Some in Hrow as [Hrow Hj].
  unfold frame_of_series in Hrow. cbn [rows] in Hrow.
  apply lookup_zip_with_Some in Hrow as (label & i & -> & _ & Hi).
  apply lookup_seq in Hi as [-> _]. cbn [plus].
  unfold no_nan_cell. cbn [snd fmap list_fmap forallb].
  rewrite (rolling_mean_early 50 j close) by lia.
  cbn. by rewrite andb_false_r.
Qed.

(** X19.  The indicator frame of the Yahoo Finance fallback has the six
    indicator columns, holds no NaN cell, and has at least 49 rows fewer
    than the three-month history it is computed from (the 50-day average
    is undefined on the first 49 rows, which [dropna] removes): a history
    of fewer than 50 rows gives a frame without rows. *)
Theorem yahoo_indicators_drop_the_first_49_rows
  (symbol : string) (hist : frame) (close : list fval) :
  yf_history symbol "3mo" None = Some hist →
  frame_empty hist = false →
  column "Close" hist = Some close →
  ∃ df,
    yahoo_frame_body yf_history symbol "indicators" = Some df
    ∧ columns df = indicator_columns
    ∧ (length (rows df) ≤ length (rows hist) - 49)%nat
    ∧ Forall no_nan_cell (rows df).
Proof.
  clear yf ts_get_quote_endpoint now ts_get_daily ts_get_intraday ti_get.
  intros Hhist Hne Hclose.
  unfold yahoo_frame_body. cbn [String.eqb Ascii.eqb Bool.eqb].
  rewrite Hhist. cbn [mbind option_bind]. rewrite Hne, Hclose.
  cbn [mbind option_bind]. unfold indicators_of.
  destruct (Pandas.ewm_mean 12 close) as [ema_12|] eqn:E12;
    [|by destruct close].
  destruct (Pandas.ewm_mean 26 close) as [ema_26|] eqn:E26;
    [|by destruct close].
  cbn [mbind option_bind].
  destruct (Pandas.ewm_mean 9 (zip_with fsub ema_12 ema_26)) as [sig|] eqn:E9;
    [|by destruct (zip_with fsub ema_12 ema_26)].
  cbn [mbind option_bind]. eexists. split; [reflexivity|].
  split; [reflexivity|].
  unfold dropna. cbn [rows columns index_name].
  set (series := [("SMA_20", _); ("SMA_50", _); ("RSI", _); ("MACD", _);
                  ("MACD_Signal", _); ("MACD_Histogram", _)]).
  set (all_rows := rows (frame_of_series (index_name hist) (rows hist).*1
                           series)).
  change (zip_with _ _ _) with all_rows.
  split.
  - rewrite <- (take_drop 49 all_rows), filter_app.
    rewrite (filter_none _ (take 49 all_rows)).
    2:{ subst all_rows series. eapply indicator_rows_early. reflexivity. }
    cbn [app]. etrans; [apply length_filter|].
    rewrite length_drop. subst all_rows. unfold frame_of_series.
    cbn [rows]. rewrite length_zip_with, length_seq, !length_fmap. lia.
  - apply Forall_forall. intros row Hrow.
    by apply list_elem_of_filter in Hrow as [Hrow _].
Qed.

(** X20.  The daily fallback of the hybrid resolver relabels the Yahoo
    Finance history with five column names, the one of the hybrid data
    service with seven: the first returns a frame only for a history of
    exactly five columns, the second only for one of exactly seven, so no
    history gives a daily frame in both services. *)
Theorem yahoo_daily_frame_fits_one_service_only (symbol : string) :
  (∀ df,
     yahoo_frame_body yf_history symbol "daily" = Some df →
     ∃ hist, yf_history symbol "1mo" None = Some hist
             ∧ length (columns hist) = 5%nat
             ∧ columns df = ohlcv ∧ rows df = rows hist)
  ∧ (∀ df,
       HybridDataService.yahoo_daily_body yf_history symbol "1mo" = Some df →
       ∃ hist, yf_history symbol "1mo" None = Some hist
               ∧ length (columns hist) = 7%nat
               ∧ columns df = ohlcv)
  ∧ ¬ (is_Some (yahoo_frame_body yf_history symbol "daily")
       ∧ is_Some (HybridDataService.yahoo_daily_body yf_history symbol "1mo")).
Proof.
  clear yf ts_get_quote_endpoint now ts_get_daily ts_get_intraday ti_get.
  assert (H5 : ∀ df,
    yahoo_frame_body yf_history symbol "daily" = Some df →
    ∃ hist, yf_history symbol "1mo" None = Some hist
            ∧ length (columns hist) = 5%nat
            ∧ columns df = ohlcv ∧ rows df = rows hist).
  { intros df. unfold yahoo_frame_body. cbn [String.eqb Ascii.eqb Bool.eqb].
    destruct (yf_history symbol "1mo" None) as [hist|]; [|discriminate].
    cbn [mbind option_bind].
    destruct (frame_empty hist); [discriminate|].
    unfold set_columns.
    destruct (length ohlcv =? length (columns hist))%nat eqn:E;
      [|discriminate].
    apply Nat.eqb_eq in E. intros [= <-]. exists hist. by repeat split. }
  assert (H7 : ∀ df,
    HybridDataService.yahoo_daily_body yf_history symbol "1mo" = Some df →
    ∃ hist, yf_history symbol "1mo" None = Some hist
            ∧ length (columns hist) = 7%nat
            ∧ columns df = ohlcv).
  { intros df. unfold HybridDataService.yahoo_daily_body.
    destruct (yf_history symbol "1mo" None) as [hist|]; [|discriminate].
    cbn [mbind option_bind].
    destruct (frame_empty hist); [discriminate|].
    unfold set_columns.
    destruct (length HybridDataService.yahoo_history_columns
              =? length (columns hist))%nat eqn:E; [|discriminate].
    apply Nat.eqb_eq in E. cbn [mbind option_bind].
    unfold select_columns. cbn [columns].
    destruct (mapM _ ohlcv) as [positions|]; [|discriminate].
    cbn [mbind option_bind]. intros [= <-]. exists hist. by repeat split. }
  split; [exact H5|]. split; [exact H7|].
  intros [[df5 Hdf5] [df7 Hdf7]].
  destruct (H5 _ Hdf5) as (hist & Hh & Hlen & _).
  destruct (H7 _ Hdf7) as (hist' & Hh' & Hlen' & _).
  rewrite Hh in Hh'. inversion Hh'; subst. lia.
Qed.

End HybridFrames.

Lemma indian_series_only_consult_yahoo_witness :
  run (AlphaVantageHybridFrames.get_daily_data Samples.yf_history_up
         Samples.daily_up true "TCS.NS") []
  = (AlphaVantageHybridFrames.yahoo_frame_body Samples.yf_history_up
       "TCS.NS" "daily", [YahooCall "TCS.NS"]).
Proof.
  exact (proj1 (indian_series_only_consult_yahoo Samples.yf_history_up
                  Samples.daily_up Samples.intraday_up Samples.ti_up
                  true "TCS.NS" "SMA" 20 eq_refl)).
Defined.

Lemma unsupported_indicator_depends_on_enabled_witness :
  run (AlphaVantageHybridFrames.get_technical_indicators
         Samples.yf_history_up Samples.ti_up true "AAPL" "bbands" 20) []
  = (None, []).
Proof.
  exact (proj1 (unsupported_indicator_depends_on_enabled
                  Samples.yf_history_up Samples.ti_up "AAPL" "bbands" 20
                  eq_refl eq_refl
                  ltac:(vm_compute; intros H;
                        repeat (apply elem_of_cons in H as [H|H];
                                [discriminate H|]);
                        by apply elem_of_nil in H))).
Defined.

Lemma yahoo_indicators_drop_the_first_49_rows_witness :
  ∃ df,
    AlphaVantageHybridFrames.yahoo_frame_body Samples.yf_history_up "TCS.NS"
      "indicators" = Some df
    ∧ columns df = AlphaVantageHybridFrames.indicator_columns
    ∧ (length (rows df) ≤ 60 - 49)%nat
    ∧ Forall no_nan_cell (rows df).
Proof.
  exact (yahoo_indicators_drop_the_first_49_rows Samples.yf_history_up
           "TCS.NS" Samples.history_frame _ eq_refl eq_refl eq_refl).
Defined.


(* ===================================================================== *)
(** ** The hybrid data service: quotes and daily frames *)
(* ===================================================================== *)

Section HybridData.

Import AlphaVantageService.

Context (yf : string → yf_ticker).
Context (ts_get_quote_endpoint : string → av_response).
Context (yf_history : string → string → option string → option frame).
Context (ts_get_daily : string → string → av_frame_response).

Lemma yahoo_quote_truthy now symbol yf_data :
  HybridDataService.yahoo_quote_body yf now symbol = Some (Some yf_data) →
  dict_truthy yf_data = true.
Proof.
  unfold HybridDataService.yahoo_quote_body.
  destruct (info (yf symbol)) as [i|]; [|discriminate].
  destruct (negb (dict_truthy i)); [discriminate|].
  destruct (history (yf symbol) "1d") as [hist|]; [|discriminate].
  destruct (iloc_last hist) as [row|]; [|discriminate].
  destruct (as_number _); [|discriminate].
  intros [= <-]. unfold dict_truthy, py_truthy.
  rewrite bool_decide_eq_false_2; [done|]. apply insert_non_empty.
Qed.

(** The fallback quote of the Alpha Vantage service is the Yahoo Finance
    quote of the hybrid data service with a 'source' entry. *)
Lemma fallback_of_yahoo_quote now symbol yf_data :
  HybridDataService.yahoo_quote_body yf now symbol = Some (Some yf_data) →
  fallback_result yf now symbol
  = Some (<["source" := PStr "Yahoo Finance (Alpha Vantage Fallback)"]>
          yf_data).
Proof.
  unfold HybridDataService.yahoo_quote_body, fallback_result,
    fallback_quote_body.
  destruct (info (yf symbol)) as [i|]; [|discriminate].
  destruct (negb (dict_truthy i)); [discriminate|].
  destruct (history (yf symbol) "1d") as [hist|]; [|discriminate].
  destruct (iloc_last hist) as [row|]; [|discriminate].
  destruct (as_number _); [|discriminate].
  intros [= <-]. reflexivity.
Qed.

Lemma yahoo_quote_keys now symbol yf_data :
  HybridDataService.yahoo_quote_body yf now symbol = Some (Some yf_data) →
  yf_data !! "source" = None ∧ yf_data !! "alpha_vantage_data" = None.
Proof.
  unfold HybridDataService.yahoo_quote_body.
  destruct (info (yf symbol)) as [i|]; [|discriminate].
  destruct (negb (dict_truthy i)); [discriminate|].
  destruct (history (yf symbol) "1d") as [hist|]; [|discriminate].
  destruct (iloc_last hist) as [row|]; [|discriminate].
  destruct (as_number _); [|discriminate].
  intros [= <-]. split; reflexivity.
Qed.

Lemma get_stock_quote_cooling now symbol st reset_time :
  enabled st = true →
  rate_limited st = Some true →
  rate_limit_reset_time st = Some reset_time →
  now <= reset_time →
  run (get_stock_quote yf ts_get_quote_endpoint now symbol) st
  = (fallback_result yf now symbol, add_calls st [YahooCall symbol]).
Proof.
  intros Hen Hflag Hreset Hnow.
  unfold run, get_stock_quote. rewrite Hen. cbn [negb].
  unfold mbind, St_bind, _is_rate_limited. rewrite Hflag, Hreset.
  destruct (reset_time <? now) eqn:E; [apply Z.ltb_lt in E; lia|].
  reflexivity.
Qed.

Lemma get_stock_quote_appends now symbol st :
  ∃ more,
    calls (snd (run (get_stock_quote yf ts_get_quote_endpoint now symbol) st))
    = calls st ++ more.
Proof.
  unfold run, get_stock_quote.
  destruct (enabled st); cbn [negb];
    [|exists []; by rewrite app_nil_r].
  unfold mbind, St_bind.
  pose proof (is_rate_limited_calls now st) as [Hc _].
  destruct (_is_rate_limited now st) as [limited st1]. cbn [snd] in Hc.
  destruct limited.
  - exists [YahooCall symbol]. rewrite get_fallback_quote_state. cbn.
    by rewrite Hc.
  - destruct (try_symbols_calls yf ts_get_quote_endpoint now symbol
                (_get_fallback_symbols symbol) st1)
      as (tried & yahoo & Hcalls & _).
    eexists. rewrite Hcalls, Hc. reflexivity.
Qed.

(** X21.  [HybridDataService.get_stock_quote] calls Yahoo Finance first for
    every symbol, enabled or not.  When Yahoo Finance gives a quote, the
    result is that quote with every field kept and a 'data_sources' list
    that starts with 'Yahoo Finance' and may continue with 'Alpha Vantage'
    only; it has no 'source' entry; with Alpha Vantage not enabled nothing
    is added and no other call is made. *)
Theorem hybrid_quote_asks_yahoo_first_and_keeps_its_fields
  (alpha_vantage_enabled : bool) (now : Z) (symbol : string) (st : state) :
  let '(result, st') :=
    run (HybridDataService.get_stock_quote yf ts_get_quote_endpoint
           alpha_vantage_enabled now symbol) st in
  (∃ more, calls st' = calls st ++ YahooCall symbol :: more)
  ∧ (∀ yf_data,
       HybridDataService.yahoo_quote_body yf now symbol
       = Some (Some yf_data) →
       ∃ q sources,
         result = Some q
         ∧ q !! "data_sources" = Some (PList (PStr "Yahoo Finance" :: sources))
         ∧ (sources = [] ∨ sources = [PStr "Alpha Vantage"])
         ∧ q !! "source" = None
         ∧ (∀ key, key ≠ "data_sources" → key ≠ "alpha_vantage_data" →
              q !! key = yf_data !! key)
         ∧ (alpha_vantage_enabled = false →
            sources = [] ∧ q !! "alpha_vantage_data" = None
            ∧ calls st' = calls st ++ [YahooCall symbol])).
Proof.
  unfold run, HybridDataService.get_stock_quote,
    HybridDataService._get_yahoo_quote,
    HybridDataService._get_alpha_vantage_quote.
  unfold mbind, St_bind, mret, St_ret, log_call.
  set (st1 := State (enabled st) (rate_limited st) (rate_limit_reset_time st)
                (calls st ++ [YahooCall symbol])).
  assert (Hav : ∀ r st2,
            get_stock_quote yf ts_get_quote_endpoint now symbol st1 = (r, st2) →
            ∃ more, calls st2 = calls st ++ YahooCall symbol :: more).
  { intros r st2 H.
    destruct (get_stock_quote_appends now symbol st1) as [more Hm].
    unfold run in Hm. rewrite H in Hm. cbn [snd] in Hm.
    exists more. rewrite Hm. subst st1. cbn [calls].
    by rewrite <- app_assoc. }
  destruct (HybridDataService.yahoo_quote_body yf now symbol)
    as [[yf_data|]|] eqn:Hbody.
  - pose proof (yahoo_quote_truthy _ _ _ Hbody) as Htruthy.
    rewrite Htruthy.
    pose proof (yahoo_quote_keys _ _ _ Hbody) as [Hsrc Hno_av].
    assert (Hkeep : ∀ (v : pyval) key,
              key ≠ "data_sources" →
              (<["data_sources" := v]> yf_data) !! key = yf_data !! key).
    { intros v key Hk. by rewrite lookup_insert_ne. }
    destruct alpha_vantage_enabled.
    + destruct (get_stock_quote yf ts_get_quote_endpoint now symbol st1)
        as [av_data st2] eqn:Hrun.
      destruct av_data as [av_data|]; [destruct (dict_truthy av_data)|];
        (split; [by eapply Hav|]); intros ? [= <-].
      * eexists _, [PStr "Alpha Vantage"]. split; [reflexivity|].
        split; [apply lookup_insert_eq|]. split; [by right|].
        split; [by rewrite !lookup_insert_ne|].
        split; [intros key ??; by rewrite !lookup_insert_ne|]. discriminate.
      * eexists _, []. split; [reflexivity|].
        split; [apply lookup_insert_eq|]. split; [by left|].
        split; [by rewrite Hkeep|].
        split; [intros key ??; by rewrite Hkeep|]. discriminate.
      * eexists _, []. split; [reflexivity|].
        split; [apply lookup_insert_eq|]. split; [by left|].
        split; [by rewrite Hkeep|].
        split; [intros key ??; by rewrite Hkeep|]. discriminate.
    + split; [by exists []|].
      intros ? [= <-]. eexists _, []. split; [reflexivity|].
      split; [apply lookup_insert_eq|]. split; [by left|].
      split; [by rewrite Hkeep|].
      split; [intros key ??; by rewrite Hkeep|].
      intros _. split; [done|]. split; [by rewrite Hkeep|done].
  - destruct alpha_vantage_enabled;
      [|split; [by exists []|discriminate]].
    destruct (get_stock_quote yf ts_get_quote_endpoint now symbol st1)
      as [av_data st2] eqn:Hrun.
    split; [by eapply Hav|discriminate].
  - destruct alpha_vantage_enabled;
      [|split; [by exists []|discriminate]].
    destruct (get_stock_quote yf ts_get_quote_endpoint now symbol st1)
      as [av_data st2] eqn:Hrun.
    split; [by eapply Hav|discriminate].
Qed.

(** X22.  During the Alpha Vantage cooldown the hybrid data service calls
    Yahoo Finance twice and no one else: the quote it returns lists
    'Alpha Vantage' among its data sources, and its 'alpha_vantage_data'
    is the same Yahoo Finance quote with the source
    'Yahoo Finance (Alpha Vantage Fallback)' (the two reads of Yahoo
    Finance within the request are taken to give the same answer). *)
Theorem hybrid_quote_in_cooldown_lists_yahoo_data_as_alpha_vantage
  (now reset_time : Z) (symbol : string) (st : state) (yf_data : pydict) :
  enabled st = true →
  rate_limited st = Some true →
  rate_limit_reset_time st = Some reset_time →
  now <= reset_time →
  HybridDataService.yahoo_quote_body yf now symbol = Some (Some yf_data) →
  run (HybridDataService.get_stock_quote yf ts_get_quote_endpoint true now
         symbol) st
  = (Some (<["data_sources" :=
              PList [PStr "Yahoo Finance"; PStr "Alpha Vantage"]]>
          (<["alpha_vantage_data" :=
               PDict (<["source" :=
                          PStr "Yahoo Finance (Alpha Vantage Fallback)"]>
                      yf_data)]> yf_data)),
     add_calls st [YahooCall symbol; YahooCall symbol]).
Proof.
  intros Hen Hflag Hreset Hnow Hbody.
  unfold run, HybridDataService.get_stock_quote,
    HybridDataService._get_yahoo_quote,
    HybridDataService._get_alpha_vantage_quote.
  unfold mbind, St_bind, mret, St_ret, log_call.
  rewrite Hbody, (yahoo_quote_truthy _ _ _ Hbody).
  set (st1 := State _ _ _ _).
  pose proof (get_stock_quote_cooling now symbol st1 reset_time
                Hen Hflag Hreset Hnow) as Hrun.
  unfold run in Hrun. rewrite Hrun.
  rewrite (fallback_of_yahoo_quote _ _ _ Hbody).
  assert (Ht : dict_truthy
                 (<["source" := PStr "Yahoo Finance (Alpha Vantage Fallback)"]>
                  yf_data) = true).
  { unfold dict_truthy, py_truthy.
    rewrite bool_decide_eq_false_2; [done|]. apply insert_non_empty. }
  rewrite Ht. cbn [mret St_ret]. f_equal.
  unfold add_calls. subst st1. cbn. by rewrite <- app_assoc.
Qed.

Lemma get_daily_data_appends now symbol outputsize st :
  ∃ more,
    calls (snd (get_daily_data ts_get_daily now symbol outputsize st))
    = calls st ++ more.
Proof.
  unfold get_daily_data.
  destruct (enabled st); cbn [negb]; [|exists []; by rewrite app_nil_r].
  destruct (_get_fallback_symbols symbol) as [|c rest].
  - exists []. cbn. by rewrite app_nil_r.
  - destruct (try_daily_first_call ts_get_daily now outputsize c rest st)
      as [more Hmore]. eauto.
Qed.

Lemma get_daily_data_shape now symbol outputsize st df :
  fst (get_daily_data ts_get_daily now symbol outputsize st) = Some df →
  columns df = ohlcv ∧ index_name df = Some "Date" ∧ rows df ≠ [].
Proof.
  unfold get_daily_data.
  destruct (enabled st); cbn [negb]; [|discriminate].
  apply try_daily_shape.
Qed.

(** The Yahoo Finance frame of the hybrid data service. *)
Lemma yahoo_daily_body_shape symbol period df :
  HybridDataService.yahoo_daily_body yf_history symbol period = Some df →
  ∃ hist,
    yf_history symbol period None = Some hist
    ∧ frame_empty hist = false
    ∧ length (columns hist) = 7%nat
    ∧ df = Frame ohlcv (Some "Date")
             ((λ row, (row.1, (λ i, default NaN (row.2 !! i))
                                <$> [0; 1; 2; 3; 4]%nat))
                <$> rows hist).
Proof.
  unfold HybridDataService.yahoo_daily_body.
  destruct (yf_history symbol period None) as [hist|]; [|discriminate].
  cbn [mbind option_bind].
  destruct (frame_empty hist) eqn:Hempty; [discriminate|].
  unfold set_columns.
  destruct (length HybridDataService.yahoo_history_columns
            =? length (columns hist))%nat eqn:E; [|discriminate].
  apply Nat.eqb_eq in E. cbn [mbind option_bind].
  intros [= <-]. exists hist. by repeat split.
Qed.

(** X23.  [HybridDataService.get_daily_data] calls Yahoo Finance first; a
    frame it returns has the columns Open, High, Low, Close, Volume, an
    index named 'Date' and at least one row.  A Yahoo Finance history of
    seven columns with rows is returned cut to its first five cells per
    row, without any Alpha Vantage call; with Alpha Vantage not enabled
    the Yahoo Finance answer is final. *)
Theorem hybrid_daily_data_prefers_yahoo_and_is_ohlcv
  (alpha_vantage_enabled : bool) (now : Z) (symbol period : string)
  (st : state) :
  let '(result, st') :=
    run (HybridDataService.get_daily_data yf_history ts_get_daily
           alpha_vantage_enabled now symbol period) st in
  (∃ more, calls st' = calls st ++ YahooCall symbol :: more)
  ∧ (∀ df, result = Some df →
       columns df = ohlcv ∧ index_name df = Some "Date" ∧ rows df ≠ [])
  ∧ (∀ hist,
       yf_history symbol period None = Some hist →
       frame_empty hist = false →
       length (columns hist) = 7%nat →
       result
       = Some (Frame ohlcv (Some "Date")
                 ((λ row, (row.1, (λ i, default NaN (row.2 !! i))
                                    <$> [0; 1; 2; 3; 4]%nat))
                    <$> rows hist))
       ∧ calls st' = calls st ++ [YahooCall symbol])
  ∧ (alpha_vantage_enabled = false →
     result = HybridDataService.yahoo_daily_body yf_history symbol period
     ∧ calls st' = calls st ++ [YahooCall symbol]).
Proof.
  unfold run, HybridDataService.get_daily_data,
    HybridDataService._get_yahoo_daily_data,
    HybridDataService._get_alpha_vantage_daily_data.
  unfold mbind, St_bind, mret, St_ret, log_call.
  set (st1 := State (enabled st) (rate_limited st) (rate_limit_reset_time st)
                (calls st ++ [YahooCall symbol])).
  assert (Hav : ∀ r st2,
            get_daily_data ts_get_daily now symbol "compact" st1 = (r, st2) →
            (∃ more, calls st2 = calls st ++ YahooCall symbol :: more)
            ∧ ∀ df, r = Some df →
                columns df = ohlcv ∧ index_name df = Some "Date"
                ∧ rows df ≠ []).
  { intros r st2 H. split.
    - destruct (get_daily_data_appends now symbol "compact" st1)
        as [more Hm].
      rewrite H in Hm. cbn [snd] in Hm.
      exists more. rewrite Hm. subst st1. cbn [calls].
      by rewrite <- app_assoc.
    - intros df ->.
      apply (get_daily_data_shape now symbol "compact" st1). by rewrite H. }
  destruct (HybridDataService.yahoo_daily_body yf_history symbol period)
    as [yf_data|] eqn:Hbody.
  - destruct (yahoo_daily_body_shape _ _ _ Hbody)
      as (hist & Hhist & Hne & Hlen & ->).
    assert (Hfull : frame_empty
              (Frame ohlcv (Some "Date")
                 ((λ row, (row.1, (λ i, default NaN (row.2 !! i))
                                    <$> [0; 1; 2; 3; 4]%nat))
                    <$> rows hist)) = false).
    { unfold frame_empty in *. cbn [rows columns].
      by destruct (rows hist). }
    rewrite Hfull.
    split; [by exists []|]. split; [|split].
    + intros df [= <-]. cbn [columns index_name rows].
      split; [done|]. split; [done|].
      apply frame_not_empty_rows in Hne. by destruct (rows hist).
    + intros hist' Hhist' _ _. rewrite Hhist in Hhist'.
      by inversion Hhist'; subst.
    + done.
  - assert (Hno : ∀ hist,
              yf_history symbol period None = Some hist →
              frame_empty hist = false →
              length (columns hist) = 7%nat → False).
    { intros hist Hhist Hne Hlen. revert Hbody.
      unfold HybridDataService.yahoo_daily_body.
      rewrite Hhist. cbn [mbind option_bind]. rewrite Hne.
      unfold set_columns. rewrite Hlen. discriminate. }
    destruct alpha_vantage_enabled.
    + destruct (get_daily_data ts_get_daily now symbol "compact" st1)
        as [r st2] eqn:Hrun.
      destruct (Hav r st2 eq_refl) as [Hcalls Hshape].
      split; [done|]. split; [done|].
      split; [intros hist ???; by destruct (Hno hist)|discriminate].
    + split; [by exists []|]. split; [discriminate|].
      split; [intros hist ???; by destruct (Hno hist)|done].
Qed.

End HybridData.

(* ===================================================================== *)
(** ** Angel One: the session token and the exchanges *)
(* ===================================================================== *)

Section AngelOneSession.

Import AngelOneService.

Context (server : Z → request → response).
Context (py : text_conversions).

Lemma perform_is_guarded now op st :
  ∃ format,
    perform server py now op st
    = guarded server now (fetch server now (data_request now op) format) st.
Proof. destruct op; eexists; reflexivity. Qed.

Lemma fetch_state now req format st :
  snd (fetch server now req format st) = sent req st.
Proof.
  unfold fetch. destruct (server now req) as [|data]; [done|].
  by destruct (body_ok data).
Qed.

(** With a valid token the operation is its data request alone. *)
Lemma perform_with_valid_token now op st :
  enabled st = true →
  token_valid now st = true →
  snd (perform server py now op st) = sent (data_request now op) st.
Proof.
  intros Hen Hvalid. destruct (perform_is_guarded now op st) as [format ->].
  unfold guarded, mbind, St_bind, _authenticate.
  rewrite Hen, Hvalid. cbn [negb]. apply fetch_state.
Qed.

(** Without one, the login goes out first. *)
Lemma perform_without_valid_token now op st :
  enabled st = true →
  token_valid now st = false →
  ∃ rest, requests (snd (perform server py now op st))
          = requests st ++ login_request st :: rest.
Proof.
  intros Hen Hinvalid. destruct (perform_is_guarded now op st) as [format ->].
  unfold guarded, mbind, St_bind, _authenticate.
  rewrite Hen, Hinvalid. cbn [negb]. fold (login_request st).
  destruct (server now (login_request st)) as [|data]; cbn;
    [by exists []|].
  destruct (body_ok data); cbn; [|by exists []].
  destruct (dict_get data "data" PNone); cbn; try by exists [].
  destruct (d !! "jwtToken"); cbn; [|by exists []].
  exists [data_request now op]. rewrite fetch_state. cbn.
  by rewrite <- app_assoc.
Qed.

Lemma perform_after_grant now op st token :
  enabled st = true →
  token_valid now st = false →
  grants server now st token →
  snd (perform server py now op st)
  = sent (data_request now op)
         (logged_in token (now + hours 23) (sent (login_request st) st)).
Proof.
  intros Hen Hinvalid (data & d & Hresp & Hok & Hdata & Htok).
  destruct (perform_is_guarded now op st) as [format ->].
  unfold guarded, mbind, St_bind, _authenticate.
  rewrite Hen, Hinvalid. cbn [negb].
  unfold login_request in *. rewrite Hresp, Hok, Hdata, Htok.
  apply fetch_state.
Qed.

(** X24.  After a login that the server grants at time [now], a truthy
    token is reused by every operation before [now + 23 hours] (the data
    request goes out alone), and from that time on the next operation
    logs in again first.  A falsy token (an empty string, [None]) is never
    reused: every later operation starts with the login. *)
Theorem session_token_is_reused_until_it_expires
  (now : Z) (op : operation) (st : state) (token : pyval) :
  enabled st = true →
  token_valid now st = false →
  grants server now st token →
  let st' := snd (perform server py now op st) in
  (py_truthy token = true →
   ∀ later op',
     (later < now + hours 23 →
      requests (snd (perform server py later op' st'))
      = requests st' ++ [data_request later op'])
     ∧ (now + hours 23 <= later →
        ∃ rest, requests (snd (perform server py later op' st'))
                = requests st' ++ login_request st :: rest))
  ∧ (py_truthy token = false →
     ∀ later op',
       ∃ rest, requests (snd (perform server py later op' st'))
               = requests st' ++ login_request st :: rest).
Proof.
  intros Hen Hinvalid Hgrant st'.
  assert (Hst' : st' = sent (data_request now op)
                         (logged_in token (now + hours 23)
                            (sent (login_request st) st)))
    by (by apply perform_after_grant).
  assert (Hen' : enabled st' = true) by (by rewrite Hst').
  assert (Hlogin : login_request st' = login_request st) by (by rewrite Hst').
  assert (Hvalid : ∀ later,
            token_valid later st'
            = py_truthy token && (later <? now + hours 23)).
  { intros later. by rewrite Hst'. }
  split.
  - intros Htoken later op'. split.
    + intros Hlater.
      rewrite perform_with_valid_token; [done|done|].
      rewrite Hvalid, Htoken. by apply Z.ltb_lt.
    + intros Hlater. rewrite <- Hlogin.
      apply perform_without_valid_token; [done|].
      rewrite Hvalid, Htoken. by apply Z.ltb_ge.
  - intros Htoken later op'. rewrite <- Hlogin.
    apply perform_without_valid_token; [done|].
    by rewrite Hvalid, Htoken.
Qed.

Lemma drop_succ (n : nat) (s : string) :
  PyStr.drop (S n) s = PyStr.drop 1 (PyStr.drop n s).
Proof.
  revert s. induction n as [|n IH]; intros s; [done|].
  destruct s as [|c s]; [done|].
  change (PyStr.drop (S (S n)) (String c s)) with (PyStr.drop (S n) s).
  change (PyStr.drop (S n) (String c s)) with (PyStr.drop n s).
  apply IH.
Qed.

(** No symbol ends in both '.NS' and '.BSE'. *)
Lemma endswith_ns_not_bse (symbol : string) :
  PyStr.endswith symbol ".NS" = true → PyStr.endswith symbol ".BSE" = false.
Proof.
  unfold PyStr.endswith. cbn [String.length].
  intros H. apply andb_prop in H as [Hlen Hns].
  apply Nat.leb_le in Hlen. apply String.eqb_eq in Hns.
  destruct (4 <=? String.length symbol)%nat eqn:E; [|done].
  apply Nat.leb_le in E. cbn [andb].
  apply String.eqb_neq. intros Hbse.
  replace (String.length symbol - 3)%nat
    with (S (String.length symbol - 4)) in Hns by lia.
  rewrite drop_succ, Hbse in Hns. discriminate.
Qed.

(** X25.  The quote request lists the converted symbol under NSE for a
    symbol ending in '.NS', under BSE for one ending in '.BSE', never
    under both, and under no exchange at all for any other symbol.  A
    quote that is returned carries the symbol as given, the currency INR,
    the source 'Angel One' and the exchange 'NSE' for a '.NS' symbol and
    'BSE' for every other one. *)
Theorem quote_exchange_follows_the_suffix (now : Z) (symbol : string) :
  let angel_symbol := _convert_symbol_to_angel_one symbol in
  quote_request symbol
  = (if PyStr.endswith symbol ".NS" then QuotePost [angel_symbol] []
     else if PyStr.endswith symbol ".BSE" then QuotePost [] [angel_symbol]
     else QuotePost [] [])
  ∧ ∀ quote_info q,
      format_quote py now symbol quote_info = Some (PDict q) →
      q !! "exchange"
      = Some (PStr (if PyStr.endswith symbol ".NS" then "NSE" else "BSE"))
      ∧ q !! "symbol" = Some (PStr symbol)
      ∧ q !! "currency" = Some (PStr "INR")
      ∧ q !! "source" = Some (PStr "Angel One").
Proof.
  split.
  - unfold quote_request.
    destruct (PyStr.endswith symbol ".NS") eqn:Hns.
    + by rewrite (endswith_ns_not_bse symbol Hns).
    + by destruct (PyStr.endswith symbol ".BSE").
  - intros quote_info q. unfold format_quote.
    destruct (fetched quote_info) as [[[| | | | | |[|first rest]|]|]|];
      try discriminate.
    destruct (float_field py first "ltp"); [|discriminate].
    destruct (float_field py first "open"); [|discriminate].
    destruct (float_field py first "high"); [|discriminate].
    destruct (float_field py first "low"); [|discriminate].
    destruct (float_field py first "close"); [|discriminate].
    cbn [mbind option_bind].
    destruct (py_get first "volume" (PInt 0) ≫= py_int py); [|discriminate].
    cbn [mbind option_bind].
    destruct (float_field py first "netPrice"); [|discriminate].
    cbn [mbind option_bind].
    destruct (net_change_percent py first); [|discriminate].
    cbn [mbind option_bind].
    destruct (float_field py first "marketCap"); [|discriminate].
    cbn [mbind option_bind].
    intros [= <-]. repeat split; reflexivity.
Qed.

End AngelOneSession.

(* ===================================================================== *)
(** ** Angel One: candles and the statuses of the endpoints *)
(* ===================================================================== *)

Section AngelOneEndpoints.

Import AngelOneService.

Context (server : Z → request → response).
Context (py : text_conversions).

Lemma guarded_with_valid_token now operation st :
  enabled st = true →
  token_valid now st = true →
  guarded server now operation st = operation st.
Proof.
  intros Hen Hvalid. unfold guarded, mbind, St_bind, _authenticate.
  by rewrite Hen, Hvalid.
Qed.

Lemma format_historical_candles info first others candles :
  info !! "fetched" = Some (PList (first :: others)) →
  py_get first "data" (PList []) = Some (PList candles) →
  format_historical py (PDict info) = PList <$> mapM (format_candle py) candles.
Proof.
  intros Hfetched Hdata. unfold format_historical, fetched.
  rewrite Hfetched. cbn [py_truthy]. by rewrite Hdata.
Qed.

(** Whatever [get_historical_data] returns is a list. *)
Lemma format_historical_is_list historical_info v :
  format_historical py historical_info = Some v → ∃ l, v = PList l.
Proof.
  unfold format_historical.
  destruct (fetched historical_info) as [[[| | | | | |[|first rest]|]|]|];
    try discriminate.
  destruct (py_get first "data" (PList [])) as [[| | | | | |cs|]|];
    try discriminate.
  cbn [mbind option_bind].
  destruct (mapM (format_candle py) cs) as [l|]; [|discriminate].
  intros [= <-]. eauto.
Qed.

(** X26.  With the session logged in and a historical answer whose first
    fetched entry holds a list of candles, each a list of cells,
    [get_historical_data] formats all candles or none: one candle that
    cannot be formatted (fewer than six cells, or a cell that [float] or
    [int] refuses) makes the result [None], and the endpoint answer 404.
    No candles at all give an empty list, which the endpoint also answers
    with 404.  Otherwise the endpoint returns the formatted candles with a
    'count' equal to their number. *)
Theorem one_malformed_candle_loses_the_history
  (now : Z) (symbol interval period : string) (st : state)
  (data info : pydict) (first : pyval) (others candles : list pyval) :
  enabled st = true →
  token_valid now st = true →
  server now (historical_request now symbol interval period)
  = RespJson data →
  body_ok data = true →
  dict_get data "data" PNone = PDict info →
  info !! "fetched" = Some (PList (first :: others)) →
  py_get first "data" (PList []) = Some (PList candles) →
  Forall (λ candle, ∃ cells, candle = PList cells) candles →
  let result :=
    fst (run (get_historical_data server py now symbol interval period) st) in
  let response :=
    fst (run (Endpoints.get_angel_one_historical server py now symbol interval
                period) st) in
  let not_found :=
    Endpoints.HttpError 404 ("No historical data found for " +:+ symbol) in
  result = PList <$> mapM (format_candle py) candles
  ∧ (Exists (λ candle, format_candle py candle = None) candles →
     result = None ∧ response = not_found)
  ∧ (candles = [] → result = Some (PList []) ∧ response = not_found)
  ∧ (candles ≠ [] →
     Forall (λ candle, is_Some (format_candle py candle)) candles →
     ∃ formatted body,
       result = Some (PList formatted)
       ∧ length formatted = length candles
       ∧ response = Endpoints.Ok (PDict body)
       ∧ body !! "data" = Some (PList formatted)
       ∧ body !! "count" = Some (PInt (Z.of_nat (length candles)))).
Proof.
  intros Hen Hvalid Hresp Hok Hdata Hfetched Hcandles _ result response
    not_found.
  assert (Hresult : run (get_historical_data server py now symbol interval
                           period) st
            = (PList <$> mapM (format_candle py) candles,
               sent (historical_request now symbol interval period) st)).
  { unfold run, get_historical_data.
    rewrite guarded_with_valid_token by done.
    unfold fetch. rewrite Hresp, Hok, Hdata.
    by rewrite (format_historical_candles info first others candles). }
  assert (Hresponse : response
            = match PList <$> mapM (format_candle py) candles with
              | Some historical_data =>
                  if py_truthy historical_data then
                    match
                      count ← Endpoints.py_len historical_data;
                      Some (PDict (<["symbol" := PStr symbol]>
                                  (<["interval" := PStr interval]>
                                  (<["period" := PStr period]>
                                  (<["data" := historical_data]>
                                  (<["count" := PInt count]>
                                  (<["last_updated" := PTime now]> ∅)))))))
                    with
                    | Some body => Endpoints.Ok body
                    | None => Endpoints.HttpError 500
                                "Failed to get historical data"
                    end
                  else not_found
              | None => not_found
              end).
  { subst response. unfold run, Endpoints.get_angel_one_historical,
      Endpoints.angel_handler.
    rewrite Hen. cbn [negb]. unfold run in Hresult. by rewrite Hresult. }
  assert (Hres : result = PList <$> mapM (format_candle py) candles).
  { subst result. by rewrite Hresult. }
  split; [exact Hres|]. split; [|split].
  - intros Hbad. apply mapM_None_2 in Hbad.
    rewrite Hres, Hresponse, Hbad. done.
  - intros ->. by rewrite Hres, Hresponse.
  - intros Hne Hall.
    apply mapM_is_Some_2 in Hall as [formatted Hformatted].
    pose proof (length_mapM _ _ _ Hformatted) as Hlen.
    exists formatted. eexists.
    rewrite Hres, Hresponse, Hformatted. cbn [fmap option_fmap option_map].
    assert (Hnonempty : py_truthy (PList formatted) = true).
    { destruct formatted; [|done]. by destruct candles. }
    rewrite Hnonempty. cbn [Endpoints.py_len mbind option_bind].
    split; [done|]. split; [done|]. split; [reflexivity|].
    split; [reflexivity|]. by rewrite Hlen.
Qed.

Lemma handler_cases now e st :
  ∃ call_service not_found failed body_of,
    Endpoints.handle server py now e st
    = Endpoints.angel_handler call_service not_found failed body_of st
    ∧ call_service = perform server py now (Endpoints.operation_of e)
    ∧ (∀ v, fst (call_service st) = Some v → is_Some (body_of v)).
Proof.
  destruct e as [symbol|symbol interval period| |];
    eexists _, _, _, _; (split; [reflexivity|]); (split; [reflexivity|]);
    try (intros v _; by eexists).
  intros v Hv.
  assert (∃ l, v = PList l) as [l ->]; [|by eexists].
  revert Hv. cbn [perform Endpoints.operation_of].
  unfold get_historical_data, guarded, mbind, St_bind.
  destruct (_authenticate server now st) as [[|] st1]; [|discriminate].
  unfold fetch.
  destruct (server now _) as [|data]; [discriminate|].
  destruct (body_ok data); [|discriminate].
  apply format_historical_is_list.
Qed.

Lemma perform_not_authenticated now op st :
  fst (_authenticate server now st) = false →
  perform server py now op st = (None, snd (_authenticate server now st)).
Proof.
  intros H.
  assert (∃ format,
    perform server py now op st
    = guarded server now (fetch server now (data_request now op) format) st)
    as [format ->] by (destruct op; eexists; reflexivity).
  unfold guarded, mbind, St_bind.
  destruct (_authenticate server now st) as [ok st1]. simpl in H. by subst.
Qed.

Lemma authenticate_failure_requests now st :
  fst (_authenticate server now st) = false →
  ∃ rs, snd (_authenticate server now st) = add_requests st rs
        ∧ forallb is_login rs = true.
Proof.
  unfold _authenticate.
  destruct (enabled st); simpl.
  2:{ intros _. exists []. split; [|done]. destruct st.
      unfold add_requests. simpl. by rewrite app_nil_r. }
  destruct (token_valid now st); simpl; [discriminate|].
  intros H. exists [login_request st]. split; [|done].
  destruct (server now _) as [|data]; simpl in *; [done|].
  destruct (body_ok data); [|done].
  destruct (dict_get data "data" PNone); try done.
  by destruct (d !! "jwtToken").
Qed.

(** X27.  The four Angel One endpoints answer 503 without touching the
    service when it is not enabled, 404 when the login fails (at most the
    login request is sent), and never any status other than 200, 404 and
    503; an answer 200 comes from an enabled service whose operation
    returned a truthy result. *)
Theorem angel_endpoints_answer_503_404_or_200
  (now : Z) (e : Endpoints.angel_endpoint) (st : state) :
  let '(response, st') := run (Endpoints.handle server py now e) st in
  (enabled st = false →
   response = Endpoints.HttpError 503 "Angel One service not enabled"
   ∧ st' = st)
  ∧ (enabled st = true →
     fst (_authenticate server now st) = false →
     Endpoints.status_of response = 404
     ∧ ∃ rs, st' = add_requests st rs ∧ forallb is_login rs = true)
  ∧ Endpoints.status_of response ∈ [200; 404; 503]
  ∧ (Endpoints.status_of response = 200 →
     enabled st = true
     ∧ ∃ v, fst (perform server py now (Endpoints.operation_of e) st) = Some v
            ∧ py_truthy v = true).
Proof.
  unfold run.
  destruct (handler_cases now e st)
    as (call_service & not_found & failed & body_of & -> & -> & Hbody).
  unfold Endpoints.angel_handler.
  destruct (enabled st) eqn:Hen; cbn [negb].
  2:{ split; [done|]. split; [discriminate|].
      split; [cbn; set_solver|]. cbn. discriminate. }
  destruct (perform server py now (Endpoints.operation_of e) st)
    as [data st'] eqn:Hrun.
  split; [discriminate|]. split; [|split].
  - intros _ Hfail.
    rewrite (perform_not_authenticated now _ st Hfail) in Hrun.
    inversion Hrun; subst. split; [done|].
    by apply authenticate_failure_requests.
  - destruct data as [v|]; [|cbn; set_solver].
    destruct (py_truthy v); [|cbn; set_solver].
    destruct (Hbody v eq_refl) as [body ->]. cbn. set_solver.
  - destruct data as [v|]; [|cbn; discriminate].
    destruct (py_truthy v) eqn:Ht; [|cbn; discriminate].
    intros _. split; [done|]. by exists v.
Qed.

End AngelOneEndpoints.

(* ===================================================================== *)
(** ** The currency service and the conversion endpoint *)
(* ===================================================================== *)

Section CurrencyRates.

Import CurrencyService.

Context (api : Z → api_response).
Context (py : text_conversions).
Context (format_inr : fval → string).
Context (http_exception_str : Z → string → string).

Lemma fetch_rate_state now st :
  snd (_fetch_real_time_rate api py now st)
  = State (usd_to_inr_rate st) (last_update st) (api_key st)
          (S (fetches st)).
Proof. reflexivity. Qed.

(** What a call does, by the three cases of the method. *)
Lemma get_rate_cases now stamped st :
  run (get_usd_to_inr_rate api py now stamped) st
  = if cache_is_fresh now st || negb (api_key_configured st)
    then (usd_to_inr_rate st, st)
    else
      match fst (_fetch_real_time_rate api py now st) with
      | Some rate =>
          if fne0 rate
          then (rate, State rate (Some stamped) (api_key st) (S (fetches st)))
          else (usd_to_inr_rate st,
                State (usd_to_inr_rate st) (last_update st) (api_key st)
                      (S (fetches st)))
      | None =>
          (usd_to_inr_rate st,
           State (usd_to_inr_rate st) (last_update st) (api_key st)
                 (S (fetches st)))
      end.
Proof.
  unfold run, get_usd_to_inr_rate.
  destruct (cache_is_fresh now st); [done|].
  destruct (api_key_configured st); [|done]. cbn [orb negb].
  destruct (_fetch_real_time_rate api py now st) as [rate st1] eqn:E.
  pose proof (fetch_rate_state now st) as Hst. rewrite E in Hst. cbn [snd] in Hst.
  subst st1. cbn [fst]. destruct rate as [rate|]; [|done].
  by destruct (fne0 rate).
Qed.

(** Without an API key the rate is never requested: every call returns
    the stored rate and leaves the service as it was. *)
Lemma rate_without_api_key_is_never_fetched
  (now stamped : Z) (st : state) :
  api_key_configured st = false →
  run (get_usd_to_inr_rate api py now stamped) st = (usd_to_inr_rate st, st)
  ∧ (∀ usd_amount amount,
       py_float py usd_amount = Some amount →
       run (convert_usd_to_inr api py now stamped usd_amount) st
       = (Some (fmul amount (usd_to_inr_rate st)), st))
  ∧ run (convert_usd_to_inr api py now stamped PNone) st = (Some (Fin 0), st).
Proof.
  intros Hkey.
  assert (Hget : run (get_usd_to_inr_rate api py now stamped) st
                 = (usd_to_inr_rate st, st)).
  { rewrite get_rate_cases, Hkey. by rewrite orb_true_r. }
  split; [exact Hget|]. split; [|done].
  intros usd_amount amount Hamount.
  unfold run, convert_usd_to_inr in *.
  destruct usd_amount; try discriminate;
    unfold mbind, St_bind; rewrite Hget; cbn [mret St_ret];
    by rewrite Hamount.
Qed.

(** X28.  A successful refresh of the exchange rate stores the fetched
    rate with the time of the update; calls made less than 3600 seconds
    after that time return the same rate without a request, and the first
    call at or after 3600 seconds sends a request again. *)
Theorem rate_is_served_from_the_cache_for_an_hour
  (now stamped : Z) (st : state) (rate : fval) :
  api_key_configured st = true →
  cache_is_fresh now st = false →
  fst (_fetch_real_time_rate api py now st) = Some rate →
  fne0 rate = true →
  let '(answer, st') := run (get_usd_to_inr_rate api py now stamped) st in
  answer = rate
  ∧ st' = State rate (Some stamped) (api_key st) (S (fetches st))
  ∧ ∀ later stamped',
      (later - stamped < cache_duration →
       run (get_usd_to_inr_rate api py later stamped') st' = (rate, st'))
      ∧ (cache_duration <= later - stamped →
         fetches (snd (run (get_usd_to_inr_rate api py later stamped') st'))
         = S (fetches st')).
Proof.
  intros Hkey Hstale Hfetch Hrate.
  rewrite get_rate_cases, Hkey, Hstale, Hfetch, Hrate. cbn [orb negb].
  split; [done|]. split; [done|].
  intros later stamped'.
  set (st' := State rate (Some stamped) (api_key st) (S (fetches st))).
  assert (Hkey' : api_key_configured st' = true) by exact Hkey.
  split.
  - intros Hlater. rewrite get_rate_cases.
    assert (cache_is_fresh later st' = true) as ->; [|done].
    unfold cache_is_fresh. cbn [last_update st']. by apply Z.ltb_lt.
  - intros Hlater. rewrite get_rate_cases, Hkey'.
    assert (cache_is_fresh later st' = false) as ->.
    { unfold cache_is_fresh. cbn [last_update st']. by apply Z.ltb_ge. }
    cbn [orb negb].
    destruct (_fetch_real_time_rate api py later st').1 as [r|]; [|done].
    by destruct (fne0 r).
Qed.

(** X29.  When the rate request fails, or gives no rate or a zero rate,
    the call returns the rate held before and records no update time: the
    failure is not cached, and every later call sends the request
    again. *)
Theorem failed_rate_fetch_keeps_the_old_rate_and_is_retried
  (now stamped : Z) (st : state) :
  api_key_configured st = true →
  cache_is_fresh now st = false →
  (∀ rate, fst (_fetch_real_time_rate api py now st) = Some rate →
           fne0 rate = false) →
  let '(answer, st') := run (get_usd_to_inr_rate api py now stamped) st in
  answer = usd_to_inr_rate st
  ∧ st' = State (usd_to_inr_rate st) (last_update st) (api_key st)
            (S (fetches st))
  ∧ ∀ later stamped',
      now <= later →
      fetches (snd (run (get_usd_to_inr_rate api py later stamped') st'))
      = S (fetches st').
Proof.
  intros Hkey Hstale Hfail.
  rewrite get_rate_cases, Hkey, Hstale. cbn [orb negb].
  set (st' := State (usd_to_inr_rate st) (last_update st) (api_key st)
                (S (fetches st))).
  assert (Hrun : (match (_fetch_real_time_rate api py now st).1 with
                  | Some rate =>
                      if fne0 rate
                      then (rate, State rate (Some stamped) (api_key st)
                                    (S (fetches st)))
                      else (usd_to_inr_rate st, st')
                  | None => (usd_to_inr_rate st, st')
                  end) = (usd_to_inr_rate st, st')).
  { destruct (_fetch_real_time_rate api py now st).1 as [rate|] eqn:E; [|done].
    by rewrite (Hfail rate eq_refl). }
  rewrite Hrun. split; [done|]. split; [done|].
  intros later stamped' Hlater.
  rewrite get_rate_cases.
  assert (api_key_configured st' = true) as -> by exact Hkey.
  assert (cache_is_fresh later st' = false) as ->.
  { revert Hstale. unfold cache_is_fresh. cbn [last_update st'].
    destruct (last_update st) as [updated|]; [|done].
    intros H. apply Z.ltb_ge in H. apply Z.ltb_ge. lia. }
  cbn [orb negb].
  destruct (_fetch_real_time_rate api py later st').1 as [r|]; [|done].
  by destruct (fne0 r).
Qed.

(** X30.  On currency codes in ASCII, the conversion handler never
    produces status 400: for a pair other than USD to INR (in any letter
    case) the exception carrying status 400 is caught by the handler's own
    [except Exception] and leaves as status 500, without any call to the
    currency service.  For USD to INR the body holds the amount times the
    rate of a first call, and under 'exchange_rate' the rate of a second
    call; without an API key both are the stored rate. *)
Theorem convert_currency_answers_500_for_other_pairs
  (now1 stamped1 now2 stamped2 now3 : Z) (amount : fval)
  (from_currency to_currency : string) (st : state) :
  PyStr.is_ascii from_currency = true →
  PyStr.is_ascii to_currency = true →
  let supported :=
    String.eqb (PyStr.upper from_currency) "USD"
    && String.eqb (PyStr.upper to_currency) "INR" in
  let '(response, st') :=
    run (Endpoints.convert_currency api py format_inr http_exception_str
           now1 stamped1 now2 stamped2 now3 amount from_currency to_currency)
        st in
  Endpoints.status_of response ≠ 400
  ∧ (supported = false →
     response
     = Endpoints.HttpError 500
         ("Failed to convert currency: "
          +:+ http_exception_str 400
                "Only USD to INR conversion is currently supported")
     ∧ st' = st)
  ∧ (supported = true →
     let '(rate1, st1) := run (get_usd_to_inr_rate api py now1 stamped1) st in
     let '(rate2, st2) := run (get_usd_to_inr_rate api py now2 stamped2) st1 in
     st' = st2
     ∧ ∃ body,
         response = Endpoints.Ok (PDict body)
         ∧ body !! "converted_amount" = Some (PFloat (fmul amount rate1))
         ∧ body !! "exchange_rate" = Some (PFloat rate2)
         ∧ body !! "original_amount" = Some (PFloat amount)
         ∧ (api_key_configured st = false →
            rate1 = usd_to_inr_rate st ∧ rate2 = usd_to_inr_rate st)).
Proof.
  intros _ _ supported.
  unfold run, Endpoints.convert_currency. fold supported.
  destruct supported eqn:Hs.
  - unfold convert_usd_to_inr, mbind, St_bind, mret, St_ret.
    cbn [py_float option_bind].
    pose proof (get_rate_cases now1 stamped1 st) as H1. unfold run in H1.
    destruct (get_usd_to_inr_rate api py now1 stamped1 st) as [rate1 st1] eqn:E1.
    cbn [mbind option_bind].
    pose proof (get_rate_cases now2 stamped2 st1) as H2. unfold run in H2.
    destruct (get_usd_to_inr_rate api py now2 stamped2 st1) as [rate2 st2] eqn:E2.
    split; [cbn; discriminate|]. split; [discriminate|].
    intros _. split; [done|]. eexists. split; [reflexivity|].
    split; [reflexivity|]. split; [reflexivity|]. split; [reflexivity|].
    intros Hkey. rewrite Hkey, orb_true_r in H1. inversion H1; subst.
    rewrite Hkey, orb_true_r in H2. by inversion H2.
  - cbn [mret St_ret]. split; [cbn; discriminate|]. by split.
Qed.

End CurrencyRates.

(* ===================================================================== *)
(** ** The statements above on sample collaborators *)
(* ===================================================================== *)

Lemma hybrid_quote_asks_yahoo_first_and_keeps_its_fields_witness :
  let '(result, st') :=
    run (HybridDataService.get_stock_quote Samples.yf_up Samples.av_up true
           0 "AAPL") Samples.av_fresh in
  ∃ q sources,
    result = Some q
    ∧ q !! "data_sources" = Some (PList (PStr "Yahoo Finance" :: sources))
    ∧ q !! "source" = None.
Proof.
  pose proof (hybrid_quote_asks_yahoo_first_and_keeps_its_fields
                Samples.yf_up Samples.av_up true 0 "AAPL" Samples.av_fresh)
    as H.
  destruct (run _ _) as [result st']. destruct H as [_ H].
  destruct (H _ eq_refl) as (q & sources & Hq & Hsources & _ & Hsource & _).
  exists q, sources. split; [exact Hq|]. split; [exact Hsources|exact Hsource].
Defined.

Lemma hybrid_quote_in_cooldown_lists_yahoo_data_as_alpha_vantage_witness :
  snd (run (HybridDataService.get_stock_quote Samples.yf_up Samples.av_up
              true 0 "TCS.NS") Samples.av_cooling)
  = AlphaVantageService.add_calls Samples.av_cooling
      [YahooCall "TCS.NS"; YahooCall "TCS.NS"].
Proof.
  exact (f_equal snd
           (hybrid_quote_in_cooldown_lists_yahoo_data_as_alpha_vantage
              Samples.yf_up Samples.av_up 0 (hours 24) "TCS.NS"
              Samples.av_cooling _ eq_refl eq_refl eq_refl
              ltac:(discriminate) eq_refl)).
Defined.

Lemma hybrid_daily_data_prefers_yahoo_and_is_ohlcv_witness :
  let '(result, st') :=
    run (HybridDataService.get_daily_data Samples.yf_history_up
           Samples.daily_up true 0 "TCS.NS" "1mo") Samples.av_fresh in
  (∃ df, result = Some df ∧ length (rows df) = 60%nat)
  ∧ AlphaVantageService.calls st' = [YahooCall "TCS.NS"].
Proof.
  pose proof (hybrid_daily_data_prefers_yahoo_and_is_ohlcv
                Samples.yf_history_up Samples.daily_up true 0 "TCS.NS" "1mo"
                Samples.av_fresh) as H.
  destruct (run _ _) as [result st']. destruct H as (_ & _ & H & _).
  destruct (H Samples.history_frame eq_refl eq_refl eq_refl) as [Hdf Hcalls].
  split; [|exact Hcalls].
  eexists. split; [exact Hdf|reflexivity].
Defined.

Lemma session_token_is_reused_until_it_expires_witness :
  let st' := snd (AngelOneService.perform AngelSamples.server
                    TextSamples.plain_digits 100
                    AngelOneService.GetMarketStatus AngelSamples.fresh) in
  AngelOneService.requests
    (snd (AngelOneService.perform AngelSamples.server
            TextSamples.plain_digits 200
            AngelOneService.GetIndicesData st'))
  = AngelOneService.requests st'
    ++ [AngelOneService.data_request 200 AngelOneService.GetIndicesData].
Proof.
  refine (proj1 (proj1 (session_token_is_reused_until_it_expires
                          AngelSamples.server TextSamples.plain_digits 100
                          AngelOneService.GetMarketStatus AngelSamples.fresh
                          (PStr "jwt") eq_refl eq_refl _)
                   eq_refl 200 AngelOneService.GetIndicesData) eq_refl).
  eexists _, _. repeat split; reflexivity.
Defined.

Lemma quote_exchange_follows_the_suffix_witness :
  AngelOneService.quote_request "TCS.NS"
  = AngelOneService.QuotePost ["TCS"] []
  ∧ ∃ q,
      AngelOneService.format_quote TextSamples.plain_digits 0 "TCS.NS"
        (PDict (<["fetched" := PList [PDict (<["ltp" := PInt 100]> ∅)]]> ∅))
      = Some (PDict q)
      ∧ q !! "exchange" = Some (PStr "NSE").
Proof.
  destruct (quote_exchange_follows_the_suffix TextSamples.plain_digits 0
              "TCS.NS") as [Hreq Hquote].
  split; [exact Hreq|].
  assert (Hq : ∃ q,
            AngelOneService.format_quote TextSamples.plain_digits 0 "TCS.NS"
              (PDict (<["fetched" :=
                          PList [PDict (<["ltp" := PInt 100]> ∅)]]> ∅))
            = Some (PDict q)) by (eexists; reflexivity).
  destruct Hq as [q Hq]. exists q. split; [exact Hq|].
  exact (proj1 (Hquote _ _ Hq)).
Defined.

Lemma one_malformed_candle_loses_the_history_witness :
  ∃ formatted body,
    fst (run (AngelOneService.get_historical_data
                AngelSamples.candles_server TextSamples.plain_digits 200
                "TCS.NS" "1d" "1mo")
             AngelSamples.signed_in) = Some (PList formatted)
    ∧ length formatted = 2%nat
    ∧ fst (run (Endpoints.get_angel_one_historical
                  AngelSamples.candles_server TextSamples.plain_digits 200
                  "TCS.NS" "1d" "1mo")
               AngelSamples.signed_in) = Endpoints.Ok (PDict body)
    ∧ body !! "count" = Some (PInt 2).
Proof.
  destruct (one_malformed_candle_loses_the_history
              AngelSamples.candles_server TextSamples.plain_digits 200
              "TCS.NS" "1d" "1mo"
              AngelSamples.signed_in _ _ _ [] AngelSamples.sample_candles
              eq_refl eq_refl eq_refl eq_refl eq_refl eq_refl eq_refl
              ltac:(repeat constructor; by eexists))
    as (_ & _ & _ & H).
  destruct (H ltac:(discriminate)
              ltac:(repeat constructor; by eexists))
    as (formatted & body & Hres & Hlen & Hresp & _ & Hcount).
  exists formatted, body. split; [exact Hres|]. split; [exact Hlen|].
  split; [exact Hresp|exact Hcount].
Defined.

Lemma angel_endpoints_answer_503_404_or_200_witness :
  fst (run (Endpoints.handle AngelSamples.server TextSamples.plain_digits
              0 (Endpoints.AngelQuote "TCS.NS")) AngelSamples.disabled)
  = Endpoints.HttpError 503 "Angel One service not enabled"
  ∧ Endpoints.status_of
      (fst (run (Endpoints.handle AngelSamples.server
                   TextSamples.plain_digits 0 Endpoints.AngelIndices)
                AngelSamples.fresh)) = 404.
Proof.
  split.
  - pose proof (angel_endpoints_answer_503_404_or_200 AngelSamples.server
                  TextSamples.plain_digits 0
                  (Endpoints.AngelQuote "TCS.NS") AngelSamples.disabled) as H.
    destruct (run _ _) as [response st']. destruct H as [H _].
    exact (proj1 (H eq_refl)).
  - pose proof (angel_endpoints_answer_503_404_or_200 AngelSamples.server
                  TextSamples.plain_digits 0
                  Endpoints.AngelIndices AngelSamples.fresh) as H.
    destruct (run _ _) as [response st']. destruct H as (_ & H & _).
    exact (proj1 (H eq_refl eq_refl)).
Defined.

Lemma rate_is_served_from_the_cache_for_an_hour_witness :
  let '(answer, st') :=
    run (CurrencyService.get_usd_to_inr_rate CurrencySamples.api
           TextSamples.plain_digits 100 101)
        CurrencySamples.keyed in
  answer = Fin (169 # 2)
  ∧ run (CurrencyService.get_usd_to_inr_rate CurrencySamples.api
           TextSamples.plain_digits 3000 3001)
        st'
    = (Fin (169 # 2), st').
Proof.
  pose proof (rate_is_served_from_the_cache_for_an_hour CurrencySamples.api
                TextSamples.plain_digits 100 101 CurrencySamples.keyed (Fin (169 # 2))
                eq_refl eq_refl eq_refl eq_refl) as H.
  destruct (run _ _) as [answer st']. destruct H as (Hanswer & _ & Hlater).
  split; [exact Hanswer|].
  exact (proj1 (Hlater 3000 3001) eq_refl).
Defined.

Lemma failed_rate_fetch_keeps_the_old_rate_and_is_retried_witness :
  let '(answer, st') :=
    run (CurrencyService.get_usd_to_inr_rate CurrencySamples.api
           TextSamples.plain_digits 0 1)
        CurrencySamples.keyed in
  answer = Fin 83
  ∧ CurrencyService.last_update st' = None
  ∧ CurrencyService.fetches st' = 1%nat.
Proof.
  pose proof (failed_rate_fetch_keeps_the_old_rate_and_is_retried
                CurrencySamples.api TextSamples.plain_digits 0 1
                CurrencySamples.keyed
                eq_refl eq_refl
                ltac:(intros rate H; discriminate H)) as H.
  destruct (run _ _) as [answer st']. destruct H as (Hanswer & Hst & _).
  split; [exact Hanswer|]. by rewrite Hst.
Defined.

Lemma convert_currency_answers_500_for_other_pairs_witness :
  Endpoints.status_of
    (fst (run (Endpoints.convert_currency CurrencySamples.api
                 TextSamples.plain_digits CurrencySamples.format_inr
                 CurrencySamples.http_exception_str 0 1 2 3 4 (Fin 10)
                 "eur" "inr") CurrencySamples.keyed)) = 500.
Proof.
  pose proof (convert_currency_answers_500_for_other_pairs
                CurrencySamples.api TextSamples.plain_digits
                CurrencySamples.format_inr
                CurrencySamples.http_exception_str 0 1 2 3 4 (Fin 10)
                "eur" "inr" CurrencySamples.keyed eq_refl eq_refl) as H.
  destruct (run _ _) as [response st']. destruct H as (_ & H & _).
  destruct (H eq_refl) as [-> _]. reflexivity.
Defined.

Lemma mapping_round_trip_witness :
  SymbolMapping.get_indian_symbol "HDB" = Some "HDFCBANK.NS".
Proof. exact (proj1 (mapping_round_trip "HDFCBANK.NS" "HDB") eq_refl). Defined.

Lemma popular_symbols_are_mapped_indian_symbols_witness :
  length (SymbolMapping.get_popular_indian_symbols 5) = 5%nat
  ∧ length (SymbolMapping.get_popular_indian_symbols (-3)) = 17%nat.
Proof.
  destruct (popular_symbols_are_mapped_indian_symbols 5) as (_ & H5 & _).
  destruct (popular_symbols_are_mapped_indian_symbols (-3))
    as (_ & _ & H3 & _).
  split; [exact (H5 ltac:(lia))|exact (H3 ltac:(lia))].
Defined.

Lemma macd_of_flat_or_empty_series_witness :
  ∃ m s h,
    HybridDataService._calculate_macd (replicate 3 (Fin 100)) 12 26 9
    = Some (<["macd" := PFloat (Fin m)]>
           (<["signal" := PFloat (Fin s)]>
           (<["histogram" := PFloat (Fin h)]> ∅)))
    ∧ (m == 0)%Q ∧ (s == 0)%Q ∧ (h == 0)%Q.
Proof.
  exact (proj1 (macd_of_flat_or_empty_series 12 26 9)
           ltac:(lia) ltac:(lia) ltac:(lia) 100%Q 2%nat).
Defined.

Lemma yahoo_daily_frame_fits_one_service_only_witness :
  is_Some (HybridDataService.yahoo_daily_body Samples.yf_history_up "TCS.NS"
             "1mo")
  ∧ AlphaVantageHybridFrames.yahoo_frame_body Samples.yf_history_up "TCS.NS"
      "daily" = None.
Proof.
  pose proof (proj2 (proj2 (yahoo_daily_frame_fits_one_service_only
                              Samples.yf_history_up "TCS.NS"))) as H.
  assert (H7 : is_Some (HybridDataService.yahoo_daily_body
                          Samples.yf_history_up "TCS.NS" "1mo"))
    by (eexists; reflexivity).
  split; [exact H7|].
  destruct (AlphaVantageHybridFrames.yahoo_frame_body _ _ _) as [df|];
    [|reflexivity].
  destruct H. split; [by eexists|exact H7].
Defined.
